(** * MCP client scripts: retry loop, health cache and image extraction

    A shallow embedding of the client logic of the repository's Python
    scripts, and the properties of its specification checked against it.

    - [examples/agent-integration-patterns/langchain/news_content_agent.py]:
      [MCPClient.health_check], [MCPClient.call_tool] and
      [MCPDatabaseTool._arun];
    - [examples/agent-integration-patterns/crewai/research_content_crew.py]:
      [MCPClient.call_tool] (same loop, no health check) and
      [ContentCreationTool._extract_sections];
    - [scripts/python/clients/image_generator.py]:
      [extract_image_urls], [save_data_url_image], [generate_filename] and
      [process_response_and_save].

    Conventions.  Python [int] is [Z]; [time.time()] readings are rationals
    (floating-point rounding is outside the model); a [str] is a [string]
    whose characters of code 128 and above stand for non-ASCII characters;
    [bytes] is a list of 8-bit [Z].  The network, the clock, the server
    and the file system are inputs of the functions (what a GET or the
    k-th POST answers, whether a file can be written), and
    every function returns, next to its result, the trace of the requests it
    sent and the sleeps it took.  Logging and printing are left out. *)

From Stdlib Require Import ZArith QArith String Ascii List Bool Lia.
From Stdlib Require Import DecimalString.
From Stdlib Require DecimalZ.
Import ListNotations.

Local Open Scope string_scope.
Local Open Scope Z_scope.

(** ** Values shared by the two agent examples *)

(** Python's [str(n)] for an [int], as used by the f-strings. *)
Definition str (n : Z) : string := NilZero.string_of_int (Z.to_int n).

(** A JSON value, as [response.json()] returns it. *)
#[warnings="-register-all"]
Inductive JSON : Type :=
| JNull
| JBool (b : bool)
| JNum (n : Z)
| JStr (s : string)
| JArr (items : list JSON)
| JObj (fields : list (string * JSON)).

(** An [httpx.Response]: [json] is what [response.json()] gives, [None]
    when the body is not valid JSON and the call raises
    [json.JSONDecodeError]. *)
Record Response : Type := {
  status_code : Z;
  text : string;
  json : option JSON
}.

(** Python's truth value of a JSON value; [JNull] is [None]. *)
Definition truthy (v : JSON) : bool :=
  match v with
  | JNull => false
  | JBool b => b
  | JNum n => negb (n =? 0)
  | JStr s => negb (String.length s =? 0)%nat
  | JArr items => negb (length items =? 0)%nat
  | JObj fields => negb (length fields =? 0)%nat
  end.

(** [d[key]] / [d.get(key)] on the fields of a dict, whose keys are
    distinct. *)
Fixpoint lookup (key : string) (fields : list (string * JSON))
    : option JSON :=
  match fields with
  | [] => None
  | (k, v) :: fields' =>
      if String.eqb k key then Some v else lookup key fields'
  end.

(** What [await self.client.post(...)] does: it returns a response, raises
    an [httpx.RequestError] (transport errors and timeouts), or raises
    something else. *)
Inductive PostOutcome : Type :=
| PostResponse (r : Response)
| PostRequestError (e : string)
| PostOtherError (e : string).

(** What [await self.client.get(...)] does: it returns a response or raises
    an [Exception]. *)
Inductive GetOutcome : Type :=
| GetResponse (r : Response)
| GetException (e : string).

Inductive Exn : Type :=
| MCPToolCallError (msg : string)
| JSONDecodeError
| OtherError (e : string).

(** How a call of [call_tool] ends. *)
Inductive Outcome : Type :=
| Returned (payload : JSON)
| Raised (e : Exn).

Inductive Event : Type :=
| NetGet (url : string)
| NetPost (url : string) (body : JSON)
| Sleep (seconds : Z).

Definition is_post (e : Event) : bool :=
  match e with NetPost _ _ => true | _ => false end.

Definition is_get (e : Event) : bool :=
  match e with NetGet _ => true | _ => false end.

(** Number of POST requests, and of GET probes, in a trace. *)
Definition posts (tr : list Event) : nat := length (filter is_post tr).
Definition probes (tr : list Event) : nat := length (filter is_get tr).

(** The sleep durations of a trace, in order. *)
Fixpoint sleeps (tr : list Event) : list Z :=
  match tr with
  | [] => []
  | Sleep d :: tr' => d :: sleeps tr'
  | _ :: tr' => sleeps tr'
  end.

(** ** The retry loop of [call_tool]

    Lines 105-129 of [news_content_agent.py], the same text as lines 79-103
    of [research_content_crew.py]:
    [for attempt in range(max_retries): ...] followed by the final [raise].
    [remaining] counts the iterations [range] still has to give, [attempt]
    is the loop variable, [post k] is what the POST of attempt [k] does. *)
Section RetryLoop.

Variable max_retries : Z.
Variable url : string.
Variable parameters : JSON.
Variable post : Z -> PostOutcome.

Definition http_error_msg (r : Response) : string :=
  "HTTP " ++ str (status_code r) ++ ": " ++ text r.

Definition request_failed_msg (e : string) : string :=
  "Request failed: " ++ e.

Definition all_attempts_failed_msg : string :=
  "All " ++ str max_retries ++ " attempts failed".

Fixpoint attempts (remaining : nat) (attempt : Z) : Outcome * list Event :=
  match remaining with
  | O => (Raised (MCPToolCallError all_attempts_failed_msg), [])
  | S remaining' =>
      let backoff :=
        let '(res, tr) := attempts remaining' (attempt + 1) in
        (res, NetPost url parameters :: Sleep (2 ^ attempt) :: tr) in
      match post attempt with
      | PostResponse response =>
          if status_code response =? 200 then
            match json response with
            | Some payload => (Returned payload, [NetPost url parameters])
            | None => (Raised JSONDecodeError, [NetPost url parameters])
            end
          else if attempt =? max_retries - 1 then
            (Raised (MCPToolCallError (http_error_msg response)),
             [NetPost url parameters])
          else backoff
      | PostRequestError e =>
          if attempt =? max_retries - 1 then
            (Raised (MCPToolCallError (request_failed_msg e)),
             [NetPost url parameters])
          else backoff
      | PostOtherError e =>
          (Raised (OtherError e), [NetPost url parameters])
      end
  end.

Definition retry_loop : Outcome * list Event :=
  attempts (Z.to_nat max_retries) 0.

End RetryLoop.

(** ** [news_content_agent.py] (LangChain example) *)
Module NewsContentAgent.

Record MCPServerConfig : Type := {
  name : string;
  url : string;
  timeout : Z;
  max_retries : Z;
  health_endpoint : string
}.

Record MCPClient : Type := {
  config : MCPServerConfig;
  _healthy : option bool;
  _last_health_check : Q
}.

(** [MCPClient.__init__] *)
Definition init (cfg : MCPServerConfig) : MCPClient :=
  {| config := cfg; _healthy := None; _last_health_check := 0%Q |}.

Definition Qltb (x y : Q) : bool := negb (Qle_bool y x).

(** [MCPClient.health_check], lines 79-96.  [current_time] is the reading
    of [time.time()], [get] what the GET of the health path does if it is
    sent. *)
Definition health_check (self : MCPClient) (current_time : Q)
    (get : GetOutcome) : bool * MCPClient * list Event :=
  let probe :=
    let health_url := url (config self) ++ health_endpoint (config self) in
    match get with
    | GetResponse response =>
        let h := status_code response =? 200 in
        (h, {| config := config self; _healthy := Some h;
               _last_health_check := current_time |}, [NetGet health_url])
    | GetException _ =>
        (false, {| config := config self; _healthy := Some false;
                   _last_health_check := current_time |},
         [NetGet health_url])
    end in
  match _healthy self with
  | Some h =>
      if Qltb (current_time - _last_health_check self) 30
      then (h, self, [])
      else probe
  | None => probe
  end.

Definition not_healthy_msg (cfg : MCPServerConfig) : string :=
  "Server " ++ name cfg ++ " is not healthy".

(** [MCPClient.call_tool], lines 98-129. *)
Definition call_tool (self : MCPClient) (tool_name : string)
    (parameters : JSON) (current_time : Q) (get : GetOutcome)
    (post : Z -> PostOutcome) : Outcome * MCPClient * list Event :=
  let '(healthy, self', tr) := health_check self current_time get in
  if negb healthy then
    (Raised (MCPToolCallError (not_healthy_msg (config self))), self', tr)
  else
    let '(res, tr') :=
      retry_loop (max_retries (config self))
                 (url (config self) ++ "/" ++ tool_name) parameters post in
    (res, self', (tr ++ tr')%list).

(** *** [MCPDatabaseTool._arun] *)

Section Tools.

(** [str(v)], as the f-strings format a value. *)
Variable py_str : JSON -> string.

(** [str(e)] for the [JSONDecodeError] of [response.json()]. *)
Variable decode_error_text : string.

(** [type(v).__name__] *)
Definition type_name (v : JSON) : string :=
  match v with
  | JNull => "NoneType"
  | JBool _ => "bool"
  | JNum _ => "int"
  | JStr _ => "str"
  | JArr _ => "list"
  | JObj _ => "dict"
  end.

(** [str(e)] *)
Definition exn_text (e : Exn) : string :=
  match e with
  | MCPToolCallError msg => msg
  | JSONDecodeError => decode_error_text
  | OtherError e => e
  end.

(** [d.get(key, default)] *)
Definition get (key : string) (default : JSON)
    (fields : list (string * JSON)) : JSON :=
  match lookup key fields with
  | Some v => v
  | None => default
  end.

(** [MCPDatabaseTool._arun], lines 270-292: the text it returns, with the
    client and the trace that its [call_tool] leaves.  [parameters] is
    [None] or a list. *)
Definition MCPDatabaseTool_arun (self : MCPClient) (query : string)
    (parameters : option (list JSON)) (current_time : Q)
    (get_outcome : GetOutcome) (post : Z -> PostOutcome)
    : string * MCPClient * list Event :=
  let parameters :=
    match parameters with
    | None => []
    | Some items => items
    end in
  let tool_parameters :=
    JObj [("query", JStr query); ("parameters", JArr parameters)] in
  let '(res, self', tr) :=
    call_tool self "execute_query" tool_parameters current_time get_outcome
      post in
  let answer :=
    match res with
    | Returned (JObj result) =>
        if truthy (get "success" (JBool false) result) then
          "Database operation successful. "
            ++ py_str (get "rows_affected" (JNum 0) result)
            ++ " rows affected."
        else
          "Database operation failed: "
            ++ py_str (get "error" (JStr "Unknown database error") result)
    | Returned v =>
        "Error executing database operation: " ++ "'" ++ type_name v
          ++ "' object has no attribute 'get'"
    | Raised e => "Error executing database operation: " ++ exn_text e
    end in
  (answer, self', tr).

End Tools.

End NewsContentAgent.


(** ** [research_content_crew.py] (CrewAI example) *)
Module ResearchContentCrew.

Record MCPServerConfig : Type := {
  name : string;
  url : string;
  timeout : Z;
  max_retries : Z
}.

(** [MCPClient.call_tool], lines 75-103: the retry loop with no health
    check before it. *)
Definition call_tool (cfg : MCPServerConfig) (tool_name : string)
    (parameters : JSON) (post : Z -> PostOutcome) : Outcome * list Event :=
  retry_loop (max_retries cfg) (url cfg ++ "/" ++ tool_name) parameters post.

(** *** [ContentCreationTool._extract_sections]

    The function tests for the bullet character, which is not ASCII: here
    a [str] is the list of its code points. *)

(** [c.isspace()]: the characters that [str.strip] removes. *)
Definition is_whitespace (c : N) : bool :=
  ((9 <=? c) && (c <=? 13) || (28 <=? c) && (c <=? 32) || (c =? 133)
   || (c =? 160) || (c =? 5760) || (8192 <=? c) && (c <=? 8202)
   || (c =? 8232) || (c =? 8233) || (c =? 8239) || (c =? 8287)
   || (c =? 12288))%N.

(** [s.split('\n')] *)
Fixpoint split_lines (s : list N) : list (list N) :=
  match s with
  | [] => [[]]
  | c :: s' =>
      if (c =? 10)%N then [] :: split_lines s'
      else
        match split_lines s' with
        | line :: lines => (c :: line) :: lines
        | [] => [[c]]
        end
  end.

Fixpoint lstrip (s : list N) : list N :=
  match s with
  | [] => []
  | c :: s' => if is_whitespace c then lstrip s' else s
  end.

Fixpoint rstrip (s : list N) : list N :=
  match s with
  | [] => []
  | c :: s' =>
      match rstrip s' with
      | [] => if is_whitespace c then [] else [c]
      | kept => c :: kept
      end
  end.

(** [s.strip()] *)
Definition strip (s : list N) : list N := rstrip (lstrip s).

(** [line.startswith('•') or line.startswith('-') or
    line.startswith('*')] *)
Definition is_bullet (line : list N) : bool :=
  match line with
  | c :: _ => ((c =? 8226) || (c =? 45) || (c =? 42))%N
  | [] => false
  end.

(** [line.startswith(' ')] *)
Definition starts_with_space (line : list N) : bool :=
  match line with
  | c :: _ => (c =? 32)%N
  | [] => false
  end.

Definition nonempty (line : list N) : bool :=
  match line with
  | [] => false
  | _ :: _ => true
  end.

(** ['\n'.join(lines)] *)
Fixpoint join_lines (lines : list (list N)) : list N :=
  match lines with
  | [] => []
  | [line] => line
  | line :: lines' => (line ++ 10%N :: join_lines lines')%list
  end.

(** [sections.append('\n'.join(current_section))] under
    [if current_section:]. *)
Definition flush (sections current_section : list (list N))
    : list (list N) :=
  match current_section with
  | [] => sections
  | _ :: _ => (sections ++ [join_lines current_section])%list
  end.

(** The loop over the lines, lines 234-245, with the flush after it. *)
Fixpoint sections_loop (lines sections current_section : list (list N))
    : list (list N) :=
  match lines with
  | [] => flush sections current_section
  | line :: lines' =>
      let line := strip line in
      if is_bullet line then
        sections_loop lines' (flush sections current_section) [line]
      else if nonempty line && negb (starts_with_space line) then
        sections_loop lines' sections (current_section ++ [line])%list
      else sections_loop lines' sections current_section
  end.

(** [_extract_sections], lines 227-247. *)
Definition _extract_sections (content : list N) : list (list N) :=
  firstn 5 (sections_loop (split_lines content) [] []).

End ResearchContentCrew.


(** ** [scripts/python/clients/image_generator.py] *)
Module ImageGenerator.

(** *** The two regular expressions

    [re.findall] scans the text from left to right; at each position it
    tries the pattern, keeps a match and goes on after its end, or moves
    one character forward.  Both patterns of the script are a sequence of
    literals and greedy character classes in which a class is always
    followed by something it cannot match, so trying a pattern at a
    position is a single pass with no choice. *)

Definition code (c : ascii) : N := N_of_ascii c.

(** [[A-Za-z0-9+/]] *)
Definition is_b64_char (c : ascii) : bool :=
  let n := code c in
  ((65 <=? n) && (n <=? 90) || (97 <=? n) && (n <=? 122)
   || (48 <=? n) && (n <=? 57) || (n =? 43) || (n =? 47))%N.

Definition is_pad (c : ascii) : bool := (code c =? 61)%N.

(** [[A-Za-z0-9+/=]] *)
Definition is_b64_or_pad (c : ascii) : bool := is_b64_char c || is_pad c.

(** [[^;]] *)
Definition not_semicolon (c : ascii) : bool := negb (code c =? 59)%N.

Definition is_comma (c : ascii) : bool := (code c =? 44)%N.

(** Length of the longest prefix of [s] made of characters in [p]. *)
Fixpoint run_length (p : ascii -> bool) (s : string) : nat :=
  match s with
  | String c s' => if p c then S (run_length p s') else O
  | EmptyString => O
  end.

(** [s] without its first [n] characters. *)
Fixpoint drop (n : nat) (s : string) : string :=
  match n, s with
  | S n', String _ s' => drop n' s'
  | _, _ => s
  end.

(** [s[:n]] *)
Fixpoint take (n : nat) (s : string) : string :=
  match n, s with
  | S n', String c s' => String c (take n' s')
  | _, _ => EmptyString
  end.

(** A literal at the start of [s]: what follows it, if it is there. *)
Fixpoint literal (lit s : string) : option string :=
  match lit, s with
  | EmptyString, _ => Some s
  | String a lit', String c s' =>
      if Ascii.eqb a c then literal lit' s' else None
  | String _ _, EmptyString => None
  end.

(** [data:image/[^;]+;base64,[A-Za-z0-9+/=]+] tried at the start of [s]:
    the length of the match. *)
Definition match_data_url (s : string) : option nat :=
  match literal "data:image/" s with
  | None => None
  | Some s1 =>
      let subtype := run_length not_semicolon s1 in
      if (subtype =? 0)%nat then None
      else
        match literal ";base64," (drop subtype s1) with
        | None => None
        | Some s2 =>
            let payload := run_length is_b64_or_pad s2 in
            if (payload =? 0)%nat then None
            else Some (11 + subtype + 8 + payload)%nat
        end
  end.

(** [[A-Za-z0-9+/]{100,}={0,2}] tried at the start of [s]. *)
Definition match_base64 (s : string) : option nat :=
  let body := run_length is_b64_char s in
  if (body <? 100)%nat then None
  else Some (body + Nat.min 2 (run_length is_pad (drop body s)))%nat.

(** [re.findall(pattern, s)] for a pattern [m] that matches no empty
    string; [skip] is the number of characters still inside the last
    match. *)
Fixpoint findall_from (m : string -> option nat) (skip : nat) (s : string)
    : list string :=
  match s with
  | EmptyString => []
  | String _ s' =>
      match skip with
      | S skip' => findall_from m skip' s'
      | O =>
          match m s with
          | Some n => take n s :: findall_from m (Nat.pred n) s'
          | None => findall_from m 0 s'
          end
      end
  end.

Definition findall (m : string -> option nat) (s : string) : list string :=
  findall_from m 0 s.

(** [extract_image_urls], lines 171-176. *)
Definition extract_image_urls (json_text : string) : list string :=
  findall match_data_url json_text.

(** *** [base64.b64decode]

    The standard library's decoder with its default [validate=False]:
    [binascii.a2b_base64] in its lenient mode.  Characters outside the
    alphabet are skipped, a pad sequence that completes a quad ends the
    decoding, and an incomplete last quad is an error. *)

Definition table_a2b_base64 (c : ascii) : option Z :=
  let n := Z.of_N (code c) in
  if (65 <=? n) && (n <=? 90) then Some (n - 65)
  else if (97 <=? n) && (n <=? 122) then Some (n - 71)
  else if (48 <=? n) && (n <=? 57) then Some (n + 4)
  else if n =? 43 then Some 62
  else if n =? 47 then Some 63
  else None.

(** Store into an [unsigned char]. *)
Definition u8 (x : Z) : Z := Z.land x 255.

Fixpoint a2b_base64 (s : string) (quad_pos : nat) (leftchar : Z)
    (pads : nat) (out : list Z) : option (list Z) :=
  match s with
  | EmptyString =>
      match quad_pos with
      | O => Some (rev out)
      | _ => None
      end
  | String c s' =>
      if is_pad c then
        if (2 <=? quad_pos)%nat then
          if (4 <=? quad_pos + S pads)%nat then Some (rev out)
          else a2b_base64 s' quad_pos leftchar (S pads) out
        else a2b_base64 s' quad_pos leftchar pads out
      else
        match table_a2b_base64 c with
        | None => a2b_base64 s' quad_pos leftchar pads out
        | Some this_ch =>
            match quad_pos with
            | 0%nat => a2b_base64 s' 1 (u8 this_ch) 0 out
            | 1%nat =>
                a2b_base64 s' 2 (u8 (Z.land this_ch 15)) 0
                  (u8 (Z.lor (Z.shiftl leftchar 2) (Z.shiftr this_ch 4))
                   :: out)
            | 2%nat =>
                a2b_base64 s' 3 (u8 (Z.land this_ch 3)) 0
                  (u8 (Z.lor (Z.shiftl leftchar 4) (Z.shiftr this_ch 2))
                   :: out)
            | _ =>
                a2b_base64 s' 0 0 0
                  (u8 (Z.lor (Z.shiftl leftchar 6) this_ch) :: out)
            end
        end
  end.

Fixpoint all_ascii (s : string) : bool :=
  match s with
  | EmptyString => true
  | String c s' => (code c <? 128)%N && all_ascii s'
  end.

(** [base64.b64decode(s)] on a [str]: [None] when it raises (a non-ASCII
    character, or [binascii.Error]). *)
Definition b64decode (s : string) : option (list Z) :=
  if all_ascii s then a2b_base64 s 0 0 0 [] else None.

(** *** Saving *)

(** [s.split(',')] *)
Fixpoint split_comma (s : string) : list string :=
  match s with
  | EmptyString => [EmptyString]
  | String c s' =>
      if is_comma c then EmptyString :: split_comma s'
      else
        match split_comma s' with
        | piece :: pieces => String c piece :: pieces
        | [] => [String c EmptyString]
        end
  end.

(** [',' in s] *)
Fixpoint has_comma (s : string) : bool :=
  match s with
  | EmptyString => false
  | String c s' => is_comma c || has_comma s'
  end.

(** The text that [save_data_url_image] decodes, lines 181-185: the piece
    between the first and the second comma, or the whole string when it has
    no comma. *)
Definition base64_part (data_url : string) : string :=
  if has_comma data_url then nth 1 (split_comma data_url) EmptyString
  else data_url.

(** *** File names *)

(** [[c for c in s if p(c)]] joined. *)
Fixpoint string_filter (p : ascii -> bool) (s : string) : string :=
  match s with
  | EmptyString => EmptyString
  | String c s' =>
      if p c then String c (string_filter p s') else string_filter p s'
  end.

(** [old in s] *)
Fixpoint contains (old s : string) : bool :=
  match literal old s with
  | Some _ => true
  | None =>
      match s with
      | EmptyString => false
      | String _ s' => contains old s'
      end
  end.

(** [s.replace(old, "")] for a non-empty [old]: the occurrences of [old]
    are removed from left to right; [skip] is the number of characters
    still inside the last occurrence. *)
Fixpoint remove_from (old : string) (skip : nat) (s : string) : string :=
  match s with
  | EmptyString => EmptyString
  | String c s' =>
      match skip with
      | S skip' => remove_from old skip' s'
      | O =>
          match literal old s with
          | Some _ => remove_from old (Nat.pred (String.length old)) s'
          | None => String c (remove_from old 0 s')
          end
      end
  end.

Definition remove (old s : string) : string := remove_from old 0 s.

(** [s.lower()] on the ASCII letters.  The other characters are left as
    they are: none of them lowers to text that could complete the word
    the script looks for. *)
Definition lower_char (c : ascii) : ascii :=
  let n := code c in
  if ((65 <=? n) && (n <=? 90))%N then ascii_of_N (n + 32) else c.

Fixpoint lower (s : string) : string :=
  match s with
  | EmptyString => EmptyString
  | String c s' => String (lower_char c) (lower s')
  end.

Section Files.

(** [str.isalnum] and [str.isspace] on the characters that are not ASCII,
    which the model does not identify. *)
Variable isalnum_other : ascii -> bool.
Variable isspace_other : ascii -> bool.

(** [c.isalnum()] *)
Definition isalnum (c : ascii) : bool :=
  let n := code c in
  if (n <? 128)%N then
    ((48 <=? n) && (n <=? 57) || (65 <=? n) && (n <=? 90)
     || (97 <=? n) && (n <=? 122))%N
  else isalnum_other c.

(** [c.isspace()] *)
Definition isspace (c : ascii) : bool :=
  let n := code c in
  if (n <? 128)%N then ((9 <=? n) && (n <=? 13) || (28 <=? n) && (n <=? 32))%N
  else isspace_other c.

(** [s.split()]: the maximal runs of characters that are not whitespace;
    [word] is the run being read. *)
Fixpoint split_from (word : string) (s : string) : list string :=
  match s with
  | EmptyString =>
      match word with
      | EmptyString => []
      | _ => [word]
      end
  | String c s' =>
      if isspace c then
        match word with
        | EmptyString => split_from EmptyString s'
        | _ => word :: split_from EmptyString s'
        end
      else split_from (word ++ String c EmptyString) s'
  end.

Definition split (s : string) : list string := split_from EmptyString s.

(** The prompt as it goes into a file name, lines 208-210. *)
Definition clean_prompt (prompt : string) : string :=
  take 30
    (String.concat "_"
       (split (string_filter (fun c => isalnum c || isspace c) prompt))).

(** [generate_filename], lines 203-217, with [timestamp] the text that
    [datetime.now().strftime] gives; [None] when it raises
    [AttributeError], the image id being neither false nor a string. *)
Definition generate_filename (timestamp prompt : string) (image_id : JSON)
    (suffix : string) : option string :=
  if truthy image_id then
    match image_id with
    | JStr id =>
        let clean_id := take 8 (remove "gemini_" (remove "img_" id)) in
        Some (timestamp ++ "_" ++ clean_prompt prompt ++ "_" ++ clean_id
                ++ "_" ++ suffix ++ ".png")
    | _ => None
    end
  else Some (timestamp ++ "_" ++ clean_prompt prompt ++ "_" ++ suffix
               ++ ".png").

(** *** [process_response_and_save] *)

(** What [json.loads] does on a text. *)
Inductive LoadsOutcome : Type :=
| Loaded (v : JSON)
| LoadsDecodeError
| LoadsOtherError.

Variable json_loads : string -> LoadsOutcome.

(** The time stamp read when the candidate of index [i] is named. *)
Variable clock : nat -> string.

(** The file system: whether [open(filepath, 'wb')] and
    [f.write(image_data)] go through when the candidate of index [i] is
    written to the file of this name with this content. *)
Variable write_ok : nat -> string -> list Z -> bool.

(** [save_data_url_image], lines 178-201, called for the data URL of
    index [i]: [Some image_data] when it decodes the base64 part, writes
    [image_data] to the file and returns [True]; [None] when the decoding
    or the writing raises and it returns [False]. *)
Definition save_data_url_image (i : nat) (data_url filename : string)
    : option (list Z) :=
  match b64decode (base64_part data_url) with
  | Some image_data =>
      if write_ok i filename image_data then Some image_data else None
  | None => None
  end.

(** ["image" in items] for a list: some item equals the string. *)
Fixpoint has_string_item (s : string) (items : list JSON) : bool :=
  match items with
  | [] => false
  | JStr s' :: items' => String.eqb s' s || has_string_item s items'
  | _ :: items' => has_string_item s items'
  end.

(** Lines 251-255 on the value of [enhanced_prompt]: false when [len] or
    the truncation raises. *)
Definition enhanced_prompt_ok (enhanced : JSON) : bool :=
  match enhanced with
  | JStr _ => true
  | JArr items => (length items <=? 100)%nat
  | JObj fields => (length fields <=? 100)%nat
  | _ => false
  end.

(** The metadata block, lines 243-268, on the parsed text: the image id it
    leaves ([JNull] for [None]), or [None] when it raises something other
    than [json.JSONDecodeError]. *)
Definition read_metadata (image_data : JSON) : option JSON :=
  match image_data with
  | JObj fields =>
      match lookup "image" fields with
      | None => Some JNull
      | Some (JObj img) =>
          let image_id :=
            match lookup "id" img with
            | Some v => v
            | None => JStr "unknown"
            end in
          let enhanced_ok :=
            match lookup "enhanced_prompt" img with
            | Some enhanced => enhanced_prompt_ok enhanced
            | None => true
            end in
          let metadata_ok :=
            match lookup "metadata" img with
            | Some (JObj _) => true
            | Some _ => false
            | None => true
            end in
          if enhanced_ok && metadata_ok then Some image_id else None
      | Some _ => None
      end
  | JStr s => if contains "image" s then None else Some JNull
  | JArr items => if has_string_item "image" items then None else Some JNull
  | _ => None
  end.

(** The suffix of the file of the data URL of index [i], lines 282-287. *)
Definition data_url_suffix (json_text : string) (count i : nat) : string :=
  if contains "thumbnail" (lower json_text) && (i =? 0)%nat then "thumbnail"
  else if (1 <? count)%nat then "image_" ++ str (Z.of_nat i + 1)
  else "main".

(** The loop over the data URLs, lines 280-299, from index [i]: the files
    saved, each with its name.  An exception of [generate_filename] leaves
    the loop and the function, which returns what it saved so far. *)
Fixpoint save_data_urls (prompt json_text : string) (image_id : JSON)
    (count i : nat) (data_urls : list string) : list (string * list Z) :=
  match data_urls with
  | [] => []
  | data_url :: data_urls' =>
      match generate_filename (clock i) prompt image_id
              (data_url_suffix json_text count i) with
      | None => []
      | Some filename =>
          match save_data_url_image i data_url filename with
          | Some image_data =>
              (filename, image_data)
                :: save_data_urls prompt json_text image_id count (S i)
                     data_urls'
          | None =>
              save_data_urls prompt json_text image_id count (S i) data_urls'
          end
      end
  end.

(** The fallback loop, lines 309-321, from index [i]: an exception inside
    the [try], of the decoding, of [generate_filename] or of the writing,
    skips the candidate. *)
Fixpoint save_potential_images (prompt : string) (image_id : JSON) (i : nat)
    (candidates : list string) : list (string * list Z) :=
  match candidates with
  | [] => []
  | b64_data :: candidates' =>
      match b64decode b64_data with
      | Some image_data =>
          if (1000 <? length image_data)%nat then
            match generate_filename (clock i) prompt image_id
                    ("raw_" ++ str (Z.of_nat i + 1)) with
            | Some filename =>
                if write_ok i filename image_data then
                  (filename, image_data)
                    :: save_potential_images prompt image_id (S i)
                         candidates'
                else save_potential_images prompt image_id (S i) candidates'
            | None => save_potential_images prompt image_id (S i) candidates'
            end
          else save_potential_images prompt image_id (S i) candidates'
      | None => save_potential_images prompt image_id (S i) candidates'
      end
  end.

(** The image search, lines 273-321, with the image id that the
    metadata block left: the loop over the data URLs when there is one,
    the fallback otherwise. *)
Definition save_images (prompt json_text : string) (image_id : JSON)
    : list (string * list Z) :=
  let data_urls := extract_image_urls json_text in
  match data_urls with
  | _ :: _ =>
      save_data_urls prompt json_text image_id (length data_urls) 0 data_urls
  | [] =>
      save_potential_images prompt image_id 0
        (firstn 3 (findall match_base64 json_text))
  end.

(** [process_response_and_save], lines 219-332: the files it saves, in the
    order of [saved_files], each as its name (to be joined to the output
    directory) and its content.  [result] is the value passed, [JNull] for
    [None].  Every exception not handled further in is caught by the outer
    [except], after which the function returns [saved_files] as it is. *)
Definition process_response_and_save (result : JSON) (prompt : string)
    : list (string * list Z) :=
  match result with
  | JObj fields =>
      match lookup "content" fields with
      | Some c =>
          if truthy c then
            let content :=
              match c with
              | JArr (first :: _) => first
              | _ => c
              end in
            match content with
            | JObj content_fields =>
                match lookup "text" content_fields with
                | Some (JStr json_text) =>
                    let image_id :=
                      match json_loads json_text with
                      | Loaded image_data => read_metadata image_data
                      | LoadsDecodeError => Some JNull
                      | LoadsOtherError => None
                      end in
                    match image_id with
                    | Some image_id => save_images prompt json_text image_id
                    | None => []
                    end
                | Some _ => []
                | None => []
                end
            | _ => []
            end
          else []
      | None => []
      end
  | _ => []
  end.

End Files.

End ImageGenerator.
(** * Properties *)

(** ** Vocabulary *)

(** A 2xx status, as the specification says it. *)
Definition is_2xx (status : Z) : bool := (200 <=? status) && (status <? 300).

(** What the loop treats as a failure to retry: a response whose status is
    not 200, or an [httpx.RequestError]. *)
Definition transient_failure (o : PostOutcome) : bool :=
  match o with
  | PostResponse r => negb (status_code r =? 200)
  | PostRequestError _ => true
  | PostOtherError _ => false
  end.

(** The specification's reading of a failed attempt: a non-2xx status or a
    transport error. *)
Definition non_2xx_or_transport_error (o : PostOutcome) : Prop :=
  match o with
  | PostResponse r => is_2xx (status_code r) = false
  | PostRequestError _ => True
  | PostOtherError _ => False
  end.

(** The detail a failed attempt reports when it is the last one. *)
Definition failure_detail (o : PostOutcome) : string :=
  match o with
  | PostResponse r => http_error_msg r
  | PostRequestError e => request_failed_msg e
  | PostOtherError e => e
  end.

(** How the call ends when attempt [o] is the one that ends it. *)
Definition final_outcome (o : PostOutcome) : Outcome :=
  match o with
  | PostResponse r =>
      if status_code r =? 200 then
        match json r with
        | Some payload => Returned payload
        | None => Raised JSONDecodeError
        end
      else Raised (MCPToolCallError (http_error_msg r))
  | PostRequestError e => Raised (MCPToolCallError (request_failed_msg e))
  | PostOtherError e => Raised (OtherError e)
  end.

(** [k] failed attempts, numbered from [attempt], each followed by its
    backoff sleep. *)
Fixpoint retry_prefix (url : string) (parameters : JSON) (attempt : Z)
    (k : nat) : list Event :=
  match k with
  | O => []
  | S k' =>
      NetPost url parameters :: Sleep (2 ^ attempt)
        :: retry_prefix url parameters (attempt + 1) k'
  end.

(** The trace of a run of [k + 1] attempts. *)
Definition run_trace (url : string) (parameters : JSON) (k : nat)
    : list Event :=
  (retry_prefix url parameters 0 k ++ [NetPost url parameters])%list.

(** [1; 2; 4; ...], [k] of them. *)
Definition backoff_waits (k : nat) : list Z :=
  map (fun i => 2 ^ Z.of_nat i) (seq 0 k).

Definition strictly_increasing (l : list Z) : Prop :=
  forall i j, (i < j < length l)%nat -> nth i l 0 < nth j l 0.

(** ** Sample servers and configurations *)
Module Samples.

Definition news_config : NewsContentAgent.MCPServerConfig :=
  {| NewsContentAgent.name := "news-data-server";
     NewsContentAgent.url := "http://localhost:3001";
     NewsContentAgent.timeout := 30;
     NewsContentAgent.max_retries := 3;
     NewsContentAgent.health_endpoint := "/health" |}.

Definition news_config_with (n : Z) : NewsContentAgent.MCPServerConfig :=
  {| NewsContentAgent.name := "news-data-server";
     NewsContentAgent.url := "http://localhost:3001";
     NewsContentAgent.timeout := 30;
     NewsContentAgent.max_retries := n;
     NewsContentAgent.health_endpoint := "/health" |}.

Definition crew_config_with (n : Z) : ResearchContentCrew.MCPServerConfig :=
  {| ResearchContentCrew.name := "news-data-server";
     ResearchContentCrew.url := "http://localhost:3001";
     ResearchContentCrew.timeout := 30;
     ResearchContentCrew.max_retries := n |}.

Definition response (status : Z) (body : string) (parsed : option JSON)
    : Response :=
  {| status_code := status; text := body; json := parsed |}.

Definition healthy_get : GetOutcome := GetResponse (response 200 "ok" None).
Definition unreachable_get : GetOutcome :=
  GetException "connection refused".

(** A server whose every answer is [500 boom]. *)
Definition always_500 : Z -> PostOutcome :=
  fun _ => PostResponse (response 500 "boom" None).

(** A server that times out once, then answers [status] with the body
    [{}]. *)
Definition timeout_then (status : Z) : Z -> PostOutcome :=
  fun k =>
    if k =? 0 then PostRequestError "timed out"
    else PostResponse (response status "{}" (Some (JObj []))).

(** The quotation mark. *)
Definition quote : string := String (ascii_of_nat 34) EmptyString.

(** The text before and after a string value of a JSON object. *)
Definition before_value : string :=
  "{" ++ quote ++ "url" ++ quote ++ ":" ++ quote.
Definition after_value : string := quote ++ "}".

(** A server whose first POST raises an error that is not an
    [httpx.RequestError]. *)
Definition type_error_then_200 : Z -> PostOutcome :=
  fun k =>
    if k =? 0 then PostOtherError "Object of type set is not JSON serializable"
    else PostResponse (response 200 "{}" (Some (JObj []))).

(** A server that answers [status] with a body that is not JSON. *)
Definition always_html (status : Z) : Z -> PostOutcome :=
  fun _ => PostResponse (response status "<html>" None).

End Samples.

(** What a probe of the health path finds. *)
Definition probe_result (get : GetOutcome) : bool :=
  match get with
  | GetResponse r => status_code r =? 200
  | GetException _ => false
  end.

(** The specification's probe failure: an exception (network error,
    timeout) or a non-2xx status. *)
Definition probe_failed (get : GetOutcome) : Prop :=
  match get with
  | GetResponse r => is_2xx (status_code r) = false
  | GetException _ => True
  end.

(** ** Texts *)

(** Every character of [s] is in the class [p]. *)
Fixpoint string_forall (p : ascii -> bool) (s : string) : bool :=
  match s with
  | EmptyString => true
  | String c s' => p c && string_forall p s'
  end.

(** [s] starts with a character of the class [p]. *)
Definition starts_with (p : ascii -> bool) (s : string) : bool :=
  match s with
  | EmptyString => false
  | String c _ => p c
  end.

(** [s] ends with a character of the class [p]. *)
Fixpoint ends_with (p : ascii -> bool) (s : string) : bool :=
  match s with
  | EmptyString => false
  | String c s' =>
      match s' with
      | EmptyString => p c
      | String _ _ => ends_with p s'
      end
  end.

(** The pattern [m] matches at one of the first [n] positions of [s]. *)
Fixpoint matches_within (m : string -> option nat) (n : nat) (s : string)
    : bool :=
  match n with
  | O => false
  | S n' =>
      match m s with
      | Some _ => true
      | None =>
          match s with
          | EmptyString => false
          | String _ s' => matches_within m n' s'
          end
      end
  end.

(** [data:image/<subtype>;base64,<payload>] *)
Definition data_url (subtype payload : string) : string :=
  "data:image/" ++ subtype ++ ";base64," ++ payload.

(** In a subtype: any character but [;] and [,]. *)
Definition subtype_char (c : ascii) : bool :=
  ImageGenerator.not_semicolon c && negb (ImageGenerator.is_comma c).

(** The padding a match of the fallback pattern can end with. *)
Definition is_padding (pad : string) : Prop :=
  pad = EmptyString \/ pad = "=" \/ pad = "==".

(** [n] times the character [A]: the base64 text of zero bytes. *)
Fixpoint letters_A (n : nat) : string :=
  match n with
  | O => EmptyString
  | S n' => String "A" (letters_A n')
  end.

(** What the decoder may still owe for the characters of the quad it is
    in: it gives three bytes for four characters. *)
Definition slack (quad_pos : nat) : nat :=
  match quad_pos with
  | 0 => 0
  | 1 => 3
  | 2 => 2
  | _ => 1
  end%nat.

(** ** Further vocabulary *)

(** The elements of [l] that [f] keeps, in order. *)
Fixpoint collect {A B : Type} (f : A -> option B) (l : list A) : list B :=
  match l with
  | [] => []
  | a :: l' =>
      match f a with
      | Some b => b :: collect f l'
      | None => collect f l'
      end
  end.

(** A candidate "decodes to more than 1000 bytes": its decoding, when it
    has one of that size. *)
Definition large_image (b64_data : string) : option (list Z) :=
  match ImageGenerator.b64decode b64_data with
  | Some image_data =>
      if (1000 <? length image_data)%nat then Some image_data else None
  | None => None
  end.

(** The payload of a data URL: what follows [;base64,] after the
    subtype. *)
Definition payload_of (data_url : string) : string :=
  ImageGenerator.drop
    (ImageGenerator.run_length ImageGenerator.not_semicolon data_url + 8)
    data_url.

(** The subtype of the data URL holds no comma. *)
Definition comma_free (data_url : string) : bool :=
  negb (ImageGenerator.has_comma
          (ImageGenerator.take
             (ImageGenerator.run_length ImageGenerator.not_semicolon data_url)
             data_url)).

(** The blobs that the image search finds in a text: the decodings of the
    data-URL matches when there is a match, and otherwise those of the
    first three fallback candidates that decode to more than 1000 bytes.
    Which of them become files depends on the naming and the writing. *)
Definition found_images (json_text : string) : list (list Z) :=
  let data_urls := ImageGenerator.extract_image_urls json_text in
  match data_urls with
  | _ :: _ =>
      collect (fun u => ImageGenerator.b64decode (ImageGenerator.base64_part u))
        data_urls
  | [] =>
      collect large_image
        (firstn 3
           (ImageGenerator.findall ImageGenerator.match_base64 json_text))
  end.


(** The time a run spends sleeping. *)
Definition total_sleep (tr : list Event) : Z :=
  fold_right Z.add 0 (sleeps tr).

Definition is_underscore (c : ascii) : bool :=
  (ImageGenerator.code c =? 95)%N.

(** No underscore at the start of [s] when [after_sep] is set, and no two
    underscores next to each other in [s]. *)
Fixpoint separated (after_sep : bool) (s : string) : bool :=
  match s with
  | EmptyString => true
  | String c s' =>
      if is_underscore c then negb after_sep && separated true s'
      else separated false s'
  end.

(** The characters of [a] occur in [s], in their order. *)
Fixpoint is_subsequence (a s : string) {struct s} : bool :=
  match a with
  | EmptyString => true
  | String x a' =>
      match s with
      | EmptyString => false
      | String c s' =>
          if Ascii.eqb x c then is_subsequence a' s' else is_subsequence a s'
      end
  end.

(** An image id with which [generate_filename] does not raise: a value
    that is false, or a string. *)
Definition id_ok (image_id : JSON) : bool :=
  match image_id with
  | JStr _ => true
  | _ => negb (truthy image_id)
  end.

Definition is_object (v : JSON) : bool :=
  match v with
  | JObj _ => true
  | _ => false
  end.

(** [result] has the shape the script reads: an object whose [content] is
    an object, or a list that starts with an object, with a string under
    [text]. *)
Definition wraps (result : JSON) (json_text : string) : Prop :=
  exists fields c content_fields,
    result = JObj fields /\
    lookup "content" fields = Some c /\
    (c = JObj content_fields \/
     exists others, c = JArr (JObj content_fields :: others)) /\
    lookup "text" content_fields = Some (JStr json_text).

(** The metadata block lets the image search run and leaves [image_id]:
    the text is not valid JSON and the id stays [None], or the text
    parses and the block completes with this id. *)
Definition metadata_leaves
    (json_loads : string -> ImageGenerator.LoadsOutcome)
    (json_text : string) (image_id : JSON) : Prop :=
  (json_loads json_text = ImageGenerator.LoadsDecodeError /\
   image_id = JNull) \/
  exists image_data,
    json_loads json_text = ImageGenerator.Loaded image_data /\
    ImageGenerator.read_metadata image_data = Some image_id.

(** The file system takes every file that [generate_filename] names for
    this prompt and this image id. *)
Definition files_writable (isalnum_other isspace_other : ascii -> bool)
    (clock : nat -> string) (write_ok : nat -> string -> list Z -> bool)
    (prompt : string) (image_id : JSON) : Prop :=
  forall i suffix filename image_data,
    ImageGenerator.generate_filename isalnum_other isspace_other (clock i)
      prompt image_id suffix = Some filename ->
    write_ok i filename image_data = true.

(** ** Sample responses *)
Module ImageSamples.

Import Samples.

(** No character outside ASCII counts as a letter, a digit or a space. *)
Definition ascii_only : ascii -> bool := fun _ => false.

Definition noon : nat -> string := fun _ => "20250101_120000".

(** A file system that takes every file. *)
Definition always_writes : nat -> string -> list Z -> bool :=
  fun _ _ _ => true.

(** A file system that refuses a name with a path separator, as [open]
    does when the directory is not there. *)
Definition flat_directory : nat -> string -> list Z -> bool :=
  fun _ filename _ => negb (ImageGenerator.contains "/" filename).

(** [json.loads] of a text that is not JSON. *)
Definition loads_invalid : string -> ImageGenerator.LoadsOutcome :=
  fun _ => ImageGenerator.LoadsDecodeError.

(** A response in the shape of the server: a list of content items, the
    first with the text. *)
Definition wrapped (json_text : string) : JSON :=
  JObj [("content",
         JArr [JObj [("type", JStr "text"); ("text", JStr json_text)]])].

(** The text [{"image":"data:image/png;base64,QUJD"}] and what
    [json.loads] makes of it. *)
Definition flat_image_text : string :=
  "{" ++ quote ++ "image" ++ quote ++ ":" ++ quote
      ++ "data:image/png;base64,QUJD" ++ quote ++ "}".

Definition loads_flat_image : string -> ImageGenerator.LoadsOutcome :=
  fun _ =>
    ImageGenerator.Loaded
      (JObj [("image", JStr "data:image/png;base64,QUJD")]).

(** A text whose image has an id with a path separator in it, and what
    [json.loads] makes of it. *)
Definition slash_id_text : string :=
  "{" ++ quote ++ "image" ++ quote ++ ":{" ++ quote ++ "id" ++ quote ++ ":"
      ++ quote ++ "img_a/b" ++ quote ++ "," ++ quote ++ "url" ++ quote ++ ":"
      ++ quote ++ "data:image/png;base64,QUJD" ++ quote ++ "}}".

Definition loads_slash_id : string -> ImageGenerator.LoadsOutcome :=
  fun _ =>
    ImageGenerator.Loaded
      (JObj [("image",
              JObj [("id", JStr "img_a/b");
                    ("url", JStr "data:image/png;base64,QUJD")])]).

(** A text whose image has a number as its id and 1336 characters of
    base64, and what [json.loads] makes of it. *)
Definition numeric_id_text : string :=
  "{" ++ quote ++ "image" ++ quote ++ ":{" ++ quote ++ "id" ++ quote ++ ":7,"
      ++ quote ++ "b64" ++ quote ++ ":" ++ quote ++ letters_A 1336 ++ quote
      ++ "}}".

Definition loads_numeric_id : string -> ImageGenerator.LoadsOutcome :=
  fun _ =>
    ImageGenerator.Loaded
      (JObj [("image",
              JObj [("id", JNum 7); ("b64", JStr (letters_A 1336))])]).

End ImageSamples.

(** ** Sections of a text *)

(** A line as the loop keeps it: not empty, with no whitespace at either
    end and no line break. *)
Definition stripped_line (line : list N) : Prop :=
  line <> [] /\ ResearchContentCrew.strip line = line /\ ~ In 10%N line.

(** A section: one or more kept lines joined by line breaks, of which
    only the first can be a bullet line. *)
Definition good_section (section : list N) : Prop :=
  exists first others,
    section = ResearchContentCrew.join_lines (first :: others) /\
    Forall stripped_line (first :: others) /\
    Forall (fun line => ResearchContentCrew.is_bullet line = false) others.

(** The lines of a text that are not blank, stripped. *)
Definition kept_lines (content : list N) : list (list N) :=
  filter ResearchContentCrew.nonempty
    (map ResearchContentCrew.strip (ResearchContentCrew.split_lines content)).

(** ** Sample texts and answers *)
Module ToolSamples.

Import Samples.

(** The code points of an ASCII text. *)
Definition codes (s : string) : list N :=
  map N_of_ascii (list_ascii_of_string s).

(** [str(v)] on the values the samples format. *)
Definition sample_str (v : JSON) : string :=
  match v with
  | JNum n => str n
  | JStr s => s
  | JBool true => "True"
  | JBool false => "False"
  | JNull => "None"
  | _ => EmptyString
  end.

(** A database server that stores three rows. *)
Definition three_rows : Z -> PostOutcome :=
  fun _ =>
    PostResponse
      (response 200 "{}"
         (Some (JObj [("success", JBool true); ("rows_affected", JNum 3)]))).

End ToolSamples.

(** ** The retry loop *)

Section RetryLoopFacts.

Variable N : Z.
Variable url : string.
Variable parameters : JSON.
Variable post : Z -> PostOutcome.

Local Abbreviation attempts := (attempts N url parameters post).

Lemma attempts_step_last (n : nat) (a : Z) :
  a = N - 1 \/ transient_failure (post a) = false ->
  attempts (S n) a = (final_outcome (post a), [NetPost url parameters]).
Proof.
  intros H. simpl. unfold final_outcome.
  destruct (post a) as [r|e|e]; simpl in H.
  - destruct (status_code r =? 200) eqn:E.
    + destruct (json r); reflexivity.
    + destruct H as [->|H]; [|discriminate].
      now rewrite Z.eqb_refl.
  - destruct H as [->|H]; [|discriminate].
    now rewrite Z.eqb_refl.
  - reflexivity.
Qed.

Lemma attempts_step_retry (n : nat) (a : Z) :
  a <> N - 1 -> transient_failure (post a) = true ->
  attempts (S n) a =
    (fst (attempts n (a + 1)),
     NetPost url parameters :: Sleep (2 ^ a) :: snd (attempts n (a + 1))).
Proof.
  intros Ha H. apply Z.eqb_neq in Ha. simpl.
  destruct (attempts n (a + 1)) as [res tr].
  destruct (post a) as [r|e|e]; simpl in H.
  - apply negb_true_iff in H. now rewrite H, Ha.
  - now rewrite Ha.
  - discriminate.
Qed.

(** The loop stops at the first attempt that is the last allowed one or
    does not fail in a way it retries. *)
Lemma attempts_stop_at (j : nat) : forall (n : nat) (a : Z),
  a + Z.of_nat n = N -> (j < n)%nat ->
  (forall i, (i < j)%nat ->
     transient_failure (post (a + Z.of_nat i)) = true) ->
  S j = n \/ transient_failure (post (a + Z.of_nat j)) = false ->
  attempts n a =
    (final_outcome (post (a + Z.of_nat j)),
     (retry_prefix url parameters a j ++ [NetPost url parameters])%list).
Proof.
  induction j as [|j IH]; intros n a Hn Hj Hpre Hstop.
  - destruct n as [|n]; [lia|].
    rewrite Z.add_0_r in *. simpl retry_prefix.
    apply attempts_step_last.
    destruct Hstop as [E|E]; [left; lia | now right].
  - destruct n as [|n]; [lia|].
    rewrite attempts_step_retry.
    + rewrite (IH n (a + 1)).
      * replace (a + 1 + Z.of_nat j) with (a + Z.of_nat (S j)) by lia.
        reflexivity.
      * lia.
      * lia.
      * intros i Hi.
        replace (a + 1 + Z.of_nat i) with (a + Z.of_nat (S i)) by lia.
        apply Hpre. lia.
      * replace (a + 1 + Z.of_nat j) with (a + Z.of_nat (S j)) by lia.
        destruct Hstop as [E|E]; [left; lia | now right].
    + lia.
    + specialize (Hpre 0%nat). rewrite Z.add_0_r in Hpre.
      apply Hpre. lia.
Qed.

(** Every run of a loop with at least one iteration has such a stopping
    attempt. *)
Lemma attempts_stop_exists : forall (n : nat) (a : Z),
  (0 < n)%nat ->
  exists j, (j < n)%nat /\
    (forall i, (i < j)%nat ->
       transient_failure (post (a + Z.of_nat i)) = true) /\
    (S j = n \/ transient_failure (post (a + Z.of_nat j)) = false).
Proof.
  induction n as [|n IH]; intros a Hn; [lia|].
  destruct (transient_failure (post a)) eqn:E.
  - destruct n as [|n].
    + exists 0%nat. repeat split; [lia | intros; lia | now left].
    + destruct (IH (a + 1)) as (j & Hj & Hpre & Hstop); [lia|].
      exists (S j). repeat split.
      * lia.
      * intros [|i] Hi.
        -- now rewrite Z.add_0_r.
        -- replace (a + Z.of_nat (S i)) with (a + 1 + Z.of_nat i) by lia.
           apply Hpre. lia.
      * replace (a + Z.of_nat (S j)) with (a + 1 + Z.of_nat j) by lia.
        destruct Hstop as [H|H]; [left; lia | now right].
  - exists 0%nat. repeat split; [lia | intros; lia |].
    right. now rewrite Z.add_0_r.
Qed.

(** The shape of every run of the loop. *)
Lemma retry_loop_run :
  (N <= 0 /\
   retry_loop N url parameters post =
     (Raised (MCPToolCallError (all_attempts_failed_msg N)), []))
  \/
  (exists k : nat,
     Z.of_nat k < N /\
     (forall i, (i < k)%nat ->
        transient_failure (post (Z.of_nat i)) = true) /\
     (Z.of_nat k = N - 1 \/
      transient_failure (post (Z.of_nat k)) = false) /\
     retry_loop N url parameters post =
       (final_outcome (post (Z.of_nat k)), run_trace url parameters k)).
Proof.
  unfold retry_loop, run_trace.
  destruct (Z_le_gt_dec N 0) as [H|H].
  - left. split; [exact H|].
    replace (Z.to_nat N) with 0%nat by lia. reflexivity.
  - right.
    destruct (attempts_stop_exists (Z.to_nat N) 0) as (k & Hk & Hpre & Hstop);
      [lia|].
    exists k. repeat split.
    + lia.
    + intros i Hi. apply (Hpre i Hi).
    + destruct Hstop as [E|E]; [left; lia | now right].
    + rewrite (attempts_stop_at k); [reflexivity | lia | lia | exact Hpre |].
      destruct Hstop as [E|E]; [now left | now right].
Qed.

End RetryLoopFacts.

(** ** Traces *)

Lemma posts_app (tr1 tr2 : list Event) :
  posts (tr1 ++ tr2) = (posts tr1 + posts tr2)%nat.
Proof. unfold posts. now rewrite filter_app, length_app. Qed.

Lemma sleeps_app (tr1 tr2 : list Event) :
  sleeps (tr1 ++ tr2) = (sleeps tr1 ++ sleeps tr2)%list.
Proof.
  induction tr1 as [|[u|u b|d] tr1 IH]; simpl; now rewrite ?IH.
Qed.

Lemma posts_retry_prefix url parameters (k : nat) : forall a,
  posts (retry_prefix url parameters a k) = k.
Proof.
  induction k as [|k IH]; intros a; [reflexivity|].
  simpl retry_prefix. unfold posts in *. simpl. now rewrite IH.
Qed.

Lemma posts_run_trace url parameters (k : nat) :
  posts (run_trace url parameters k) = S k.
Proof.
  unfold run_trace. rewrite posts_app, posts_retry_prefix.
  unfold posts. simpl. lia.
Qed.

Lemma sleeps_retry_prefix url parameters (k : nat) : forall a,
  sleeps (retry_prefix url parameters a k) =
  map (fun i => 2 ^ (a + Z.of_nat i)) (seq 0 k).
Proof.
  induction k as [|k IH]; intros a; [reflexivity|].
  simpl retry_prefix. cbn [sleeps seq map]. rewrite IH, <- seq_shift, map_map.
  rewrite Z.add_0_r. f_equal. apply map_ext. intros i. f_equal. lia.
Qed.

Lemma sleeps_run_trace url parameters (k : nat) :
  sleeps (run_trace url parameters k) = backoff_waits k.
Proof.
  unfold run_trace, backoff_waits.
  rewrite sleeps_app, sleeps_retry_prefix. simpl. now rewrite app_nil_r.
Qed.

Lemma nth_backoff_waits (k i : nat) :
  (i < k)%nat -> nth i (backoff_waits k) 0 = 2 ^ Z.of_nat i.
Proof.
  intros Hi. unfold backoff_waits.
  rewrite (nth_indep _ 0 (2 ^ Z.of_nat 0))
    by (rewrite length_map, length_seq; lia).
  change (2 ^ Z.of_nat 0) with ((fun i => 2 ^ Z.of_nat i) 0%nat).
  rewrite map_nth, seq_nth by lia. reflexivity.
Qed.

Lemma length_backoff_waits (k : nat) : length (backoff_waits k) = k.
Proof. unfold backoff_waits. now rewrite length_map, length_seq. Qed.

Lemma backoff_waits_increasing (k : nat) :
  strictly_increasing (backoff_waits k).
Proof.
  intros i j. rewrite length_backoff_waits. intros Hij.
  rewrite !nth_backoff_waits by lia.
  apply Z.pow_lt_mono_r; lia.
Qed.

(** ** Failures and messages *)

Lemma non_2xx_is_transient (o : PostOutcome) :
  non_2xx_or_transport_error o -> transient_failure o = true.
Proof.
  destruct o as [r|e|e]; simpl; intros H; [|reflexivity|contradiction].
  unfold is_2xx in H. apply negb_true_iff, Z.eqb_neq. intros E.
  rewrite E in H. discriminate.
Qed.

Lemma final_outcome_transient (o : PostOutcome) :
  transient_failure o = true ->
  final_outcome o = Raised (MCPToolCallError (failure_detail o)).
Proof.
  destruct o as [r|e|e]; simpl; intros H; [|reflexivity|discriminate].
  apply negb_true_iff in H. now rewrite H.
Qed.

(** No attempt ends a call with the message of the final [raise]. *)
Lemma final_outcome_not_exhausted (N : Z) (o : PostOutcome) :
  final_outcome o <> Raised (MCPToolCallError (all_attempts_failed_msg N)).
Proof.
  unfold final_outcome, all_attempts_failed_msg, http_error_msg,
    request_failed_msg.
  destruct o as [r|e|e].
  - destruct (status_code r =? 200); [destruct (json r)|]; simpl; congruence.
  - simpl. congruence.
  - congruence.
Qed.

(** ** Runs of the loop *)

Section RetryLoopRuns.

Variable N : Z.
Variable url : string.
Variable parameters : JSON.
Variable post : Z -> PostOutcome.

Local Abbreviation loop := (retry_loop N url parameters post).

Lemma retry_loop_stops_at (j : nat) :
  Z.of_nat j < N ->
  (forall i, (i < j)%nat -> transient_failure (post (Z.of_nat i)) = true) ->
  Z.of_nat j = N - 1 \/ transient_failure (post (Z.of_nat j)) = false ->
  loop = (final_outcome (post (Z.of_nat j)), run_trace url parameters j).
Proof.
  intros Hj Hpre Hstop. unfold retry_loop, run_trace.
  rewrite (attempts_stop_at N url parameters post j);
    [reflexivity | lia | lia | exact Hpre |].
  destruct Hstop as [E|E]; [left; lia | now right].
Qed.

Lemma retry_loop_all_fail :
  1 <= N ->
  (forall k, 0 <= k < N -> transient_failure (post k) = true) ->
  loop = (Raised (MCPToolCallError (failure_detail (post (N - 1)))),
          run_trace url parameters (Z.to_nat (N - 1))).
Proof.
  intros HN Hall.
  rewrite (retry_loop_stops_at (Z.to_nat (N - 1))).
  - replace (Z.of_nat (Z.to_nat (N - 1))) with (N - 1) by lia.
    rewrite final_outcome_transient; [reflexivity|]. apply Hall. lia.
  - lia.
  - intros i Hi. apply Hall. lia.
  - left. lia.
Qed.

(** An attempt is made only after every earlier one failed in a way the
    loop retries. *)
Lemma retry_loop_attempt_made (j : nat) :
  (j < posts (snd loop))%nat ->
  Z.of_nat j < N /\
  forall i, (i < j)%nat -> transient_failure (post (Z.of_nat i)) = true.
Proof.
  intros Hj.
  destruct (retry_loop_run N url parameters post)
    as [[_ E] | (k & Hk & Hpre & _ & E)]; rewrite E in Hj; simpl in Hj.
  - unfold posts in Hj. simpl in Hj. lia.
  - rewrite posts_run_trace in Hj. split; [lia|].
    intros i Hi. apply Hpre. lia.
Qed.

End RetryLoopRuns.

(** ** The health check of the LangChain client *)

Lemma health_check_trace self now get :
  snd (NewsContentAgent.health_check self now get) = [] \/
  exists u, snd (NewsContentAgent.health_check self now get) = [NetGet u].
Proof.
  unfold NewsContentAgent.health_check.
  destruct (NewsContentAgent._healthy self) as [h|];
    [destruct (NewsContentAgent.Qltb _ _); [now left|]|];
    destruct get; right; eexists; reflexivity.
Qed.

Lemma health_check_no_post self now get :
  posts (snd (NewsContentAgent.health_check self now get)) = 0%nat /\
  sleeps (snd (NewsContentAgent.health_check self now get)) = [].
Proof.
  destruct (health_check_trace self now get) as [E|[u E]]; rewrite E;
    now split.
Qed.

Lemma call_tool_healthy self tool parameters now get post :
  fst (fst (NewsContentAgent.health_check self now get)) = true ->
  NewsContentAgent.call_tool self tool parameters now get post =
    (fst (retry_loop
            (NewsContentAgent.max_retries (NewsContentAgent.config self))
            (NewsContentAgent.url (NewsContentAgent.config self) ++ "/"
               ++ tool) parameters post),
     snd (fst (NewsContentAgent.health_check self now get)),
     (snd (NewsContentAgent.health_check self now get) ++
      snd (retry_loop
             (NewsContentAgent.max_retries (NewsContentAgent.config self))
             (NewsContentAgent.url (NewsContentAgent.config self) ++ "/"
                ++ tool) parameters post))%list).
Proof.
  unfold NewsContentAgent.call_tool.
  destruct (NewsContentAgent.health_check self now get) as [[h self'] tr].
  simpl. intros ->. simpl.
  now destruct (retry_loop _ _ _ _).
Qed.

Lemma call_tool_healthy_posts self tool parameters now get post :
  fst (fst (NewsContentAgent.health_check self now get)) = true ->
  posts (snd (NewsContentAgent.call_tool self tool parameters now get post)) =
  posts (snd (retry_loop
            (NewsContentAgent.max_retries (NewsContentAgent.config self))
            (NewsContentAgent.url (NewsContentAgent.config self) ++ "/"
               ++ tool) parameters post)).
Proof.
  intros H. rewrite (call_tool_healthy _ _ _ _ _ _ H). simpl.
  rewrite posts_app.
  now rewrite (proj1 (health_check_no_post self now get)).
Qed.

Lemma call_tool_unhealthy self tool parameters now get post :
  fst (fst (NewsContentAgent.health_check self now get)) = false ->
  NewsContentAgent.call_tool self tool parameters now get post =
    (Raised (MCPToolCallError
               (NewsContentAgent.not_healthy_msg
                  (NewsContentAgent.config self))),
     snd (fst (NewsContentAgent.health_check self now get)),
     snd (NewsContentAgent.health_check self now get)).
Proof.
  unfold NewsContentAgent.call_tool.
  destruct (NewsContentAgent.health_check self now get) as [[h self'] tr].
  simpl. now intros ->.
Qed.

Lemma Qltb_lt (x y : Q) : NewsContentAgent.Qltb x y = true <-> (x < y)%Q.
Proof.
  unfold NewsContentAgent.Qltb. rewrite negb_true_iff.
  split; intros H.
  - apply Qnot_le_lt. intros Hle. apply Qle_bool_iff in Hle. congruence.
  - destruct (Qle_bool y x) eqn:E; [|reflexivity].
    apply Qle_bool_iff in E. exfalso. now apply (Qlt_not_le x y).
Qed.

Lemma Qltb_ge (x y : Q) : NewsContentAgent.Qltb x y = false <-> (y <= x)%Q.
Proof.
  unfold NewsContentAgent.Qltb. rewrite negb_false_iff. apply Qle_bool_iff.
Qed.

(** * The claims *)

Import Samples.

(** ** The retry loop of the two agent examples *)

(** C1: with [max_retries = N >= 1], a healthy endpoint, and every POST
    answered by a non-2xx status or a transport error, [call_tool] sends
    exactly [N] POST requests and ends by raising [MCPToolCallError]; the
    CrewAI client, which has no health check, does the same. *)
Theorem call_tool_always_failing_server (N : Z) (post : Z -> PostOutcome) :
  1 <= N ->
  (forall k, 0 <= k < N -> non_2xx_or_transport_error (post k)) ->
  (forall self tool parameters now get,
     NewsContentAgent.max_retries (NewsContentAgent.config self) = N ->
     fst (fst (NewsContentAgent.health_check self now get)) = true ->
     exists msg self' tr,
       NewsContentAgent.call_tool self tool parameters now get post =
         (Raised (MCPToolCallError msg), self', tr) /\
       Z.of_nat (posts tr) = N) /\
  (forall cfg tool parameters,
     ResearchContentCrew.max_retries cfg = N ->
     exists msg tr,
       ResearchContentCrew.call_tool cfg tool parameters post =
         (Raised (MCPToolCallError msg), tr) /\
       Z.of_nat (posts tr) = N).
Proof.
  intros HN Hfail.
  assert (Hall : forall k, 0 <= k < N -> transient_failure (post k) = true)
    by (intros k Hk; apply non_2xx_is_transient, Hfail, Hk).
  split.
  - intros self tool parameters now get HNeq Hh.
    rewrite (call_tool_healthy _ _ _ _ _ _ Hh), HNeq.
    rewrite (retry_loop_all_fail N _ _ post HN Hall). simpl.
    eexists _, _, _. split; [reflexivity|].
    rewrite posts_app, (proj1 (health_check_no_post self now get)).
    rewrite posts_run_trace. lia.
  - intros cfg tool parameters HNeq.
    unfold ResearchContentCrew.call_tool. rewrite HNeq.
    rewrite (retry_loop_all_fail N _ _ post HN Hall).
    eexists _, _. split; [reflexivity|].
    rewrite posts_run_trace. lia.
Qed.

Lemma call_tool_always_failing_server_witness :
  (exists msg self' tr,
     NewsContentAgent.call_tool (NewsContentAgent.init news_config)
       "search_news" JNull 0%Q healthy_get always_500 =
       (Raised (MCPToolCallError msg), self', tr) /\
     Z.of_nat (posts tr) = 3) /\
  (exists msg tr,
     ResearchContentCrew.call_tool (crew_config_with 3) "search_news" JNull
       always_500 = (Raised (MCPToolCallError msg), tr) /\
     Z.of_nat (posts tr) = 3).
Proof.
  assert (H1 : 1 <= 3) by lia.
  assert (H2 : forall k, 0 <= k < 3 ->
                 non_2xx_or_transport_error (always_500 k))
    by (intros k _; reflexivity).
  split.
  - apply (proj1 (call_tool_always_failing_server 3 always_500 H1 H2));
      reflexivity.
  - apply (proj2 (call_tool_always_failing_server 3 always_500 H1 H2)).
    reflexivity.
Defined.

(** C2, as stated, fails: a 201 answer with a JSON body is a 2xx answer,
    and the loop treats it as a failure.  With [max_retries = 2], a timeout
    and then [201 {}], the call ends with [MCPToolCallError]. *)
Lemma call_tool_retry_then_201_counterexample :
  is_2xx 201 = true /\
  transient_failure (timeout_then 201 0) = true /\
  timeout_then 201 1 = PostResponse (response 201 "{}" (Some (JObj []))) /\
  ResearchContentCrew.call_tool (crew_config_with 2) "search_news" JNull
    (timeout_then 201) =
    (Raised (MCPToolCallError "HTTP 201: {}"),
     [NetPost "http://localhost:3001/search_news" JNull; Sleep 1;
      NetPost "http://localhost:3001/search_news" JNull]) /\
  fst (ResearchContentCrew.call_tool (crew_config_with 2) "search_news" JNull
         (timeout_then 201)) <> Returned (JObj []).
Proof. repeat split; try reflexivity. discriminate. Qed.

(** C2, amended: the status that counts as success is 200.  When attempt
    [j] is allowed ([j < max_retries]), every attempt before it failed with
    a status other than 200 or a request error, and attempt [j] is answered
    200 with a body that parses to [payload], [call_tool] returns [payload]
    after exactly [j + 1] POST requests: two when the first attempt fails
    and the second succeeds. *)
Theorem call_tool_first_200_returns (N : Z) (post : Z -> PostOutcome)
    (j : nat) (r : Response) (payload : JSON) :
  Z.of_nat j < N ->
  (forall i, (i < j)%nat -> transient_failure (post (Z.of_nat i)) = true) ->
  post (Z.of_nat j) = PostResponse r ->
  status_code r = 200 ->
  json r = Some payload ->
  (forall self tool parameters now get,
     NewsContentAgent.max_retries (NewsContentAgent.config self) = N ->
     fst (fst (NewsContentAgent.health_check self now get)) = true ->
     exists self' tr,
       NewsContentAgent.call_tool self tool parameters now get post =
         (Returned payload, self', tr) /\
       posts tr = S j) /\
  (forall cfg tool parameters,
     ResearchContentCrew.max_retries cfg = N ->
     exists tr,
       ResearchContentCrew.call_tool cfg tool parameters post =
         (Returned payload, tr) /\
       posts tr = S j).
Proof.
  intros Hj Hpre Hpost Hstatus Hjson.
  assert (Hfinal : final_outcome (post (Z.of_nat j)) = Returned payload).
  { rewrite Hpost. simpl. now rewrite Hstatus, Hjson. }
  assert (Hstop : Z.of_nat j = N - 1 \/
                  transient_failure (post (Z.of_nat j)) = false).
  { right. rewrite Hpost. simpl. now rewrite Hstatus. }
  split.
  - intros self tool parameters now get HNeq Hh.
    rewrite (call_tool_healthy _ _ _ _ _ _ Hh), HNeq.
    rewrite (retry_loop_stops_at N _ _ post j Hj Hpre Hstop), Hfinal. simpl.
    eexists _, _. split; [reflexivity|].
    rewrite posts_app, (proj1 (health_check_no_post self now get)).
    now rewrite posts_run_trace.
  - intros cfg tool parameters HNeq.
    unfold ResearchContentCrew.call_tool. rewrite HNeq.
    rewrite (retry_loop_stops_at N _ _ post j Hj Hpre Hstop), Hfinal.
    eexists. split; [reflexivity|]. now rewrite posts_run_trace.
Qed.

Lemma call_tool_first_200_returns_witness :
  exists tr,
    ResearchContentCrew.call_tool (crew_config_with 3) "search_news" JNull
      (timeout_then 200) = (Returned (JObj []), tr) /\
    posts tr = 2%nat.
Proof.
  destruct (call_tool_first_200_returns 3 (timeout_then 200) 1
              (response 200 "{}" (Some (JObj []))) (JObj [])) as [_ H].
  - lia.
  - intros i Hi. assert (i = 0%nat) as -> by lia. reflexivity.
  - reflexivity.
  - reflexivity.
  - reflexivity.
  - apply H. reflexivity.
Defined.

(** ** The health cache *)

Lemma health_check_cached self now get (h : bool) :
  NewsContentAgent._healthy self = Some h ->
  (now - NewsContentAgent._last_health_check self < 30)%Q ->
  NewsContentAgent.health_check self now get = (h, self, []).
Proof.
  intros Hh Hlt. unfold NewsContentAgent.health_check. rewrite Hh.
  now rewrite (proj2 (Qltb_lt _ _) Hlt).
Qed.

Lemma health_check_probes self now get :
  NewsContentAgent._healthy self = None \/
  (30 <= now - NewsContentAgent._last_health_check self)%Q ->
  NewsContentAgent.health_check self now get =
    (probe_result get,
     {| NewsContentAgent.config := NewsContentAgent.config self;
        NewsContentAgent._healthy := Some (probe_result get);
        NewsContentAgent._last_health_check := now |},
     [NetGet (NewsContentAgent.url (NewsContentAgent.config self) ++
              NewsContentAgent.health_endpoint
                (NewsContentAgent.config self))]).
Proof.
  intros H. unfold NewsContentAgent.health_check.
  destruct (NewsContentAgent._healthy self) as [h|].
  - destruct H as [H|H]; [discriminate|].
    rewrite (proj2 (Qltb_ge _ _) H). now destruct get.
  - now destruct get.
Qed.

Lemma probe_failed_result (get : GetOutcome) :
  probe_failed get -> probe_result get = false.
Proof.
  destruct get as [r|e]; simpl; [|reflexivity].
  unfold is_2xx. intros H. apply Z.eqb_neq. intros E.
  rewrite E in H. discriminate.
Qed.

(** C3: when [health_check()] answers false, [call_tool] raises
    [MCPToolCallError "Server <name> is not healthy"] at once: its trace is
    the one of the health check, with no POST and no sleep; and when the
    unhealthy status comes from the cache the trace is empty, no request at
    all is sent. *)
Theorem call_tool_unhealthy_no_post self tool parameters now get post :
  fst (fst (NewsContentAgent.health_check self now get)) = false ->
  fst (fst (NewsContentAgent.call_tool self tool parameters now get post)) =
    Raised (MCPToolCallError
              ("Server " ++ NewsContentAgent.name
                              (NewsContentAgent.config self)
                         ++ " is not healthy")) /\
  snd (NewsContentAgent.call_tool self tool parameters now get post) =
    snd (NewsContentAgent.health_check self now get) /\
  posts (snd (NewsContentAgent.call_tool self tool parameters now get post))
    = 0%nat /\
  sleeps (snd (NewsContentAgent.call_tool self tool parameters now get post))
    = [] /\
  (NewsContentAgent._healthy self = Some false ->
   (now - NewsContentAgent._last_health_check self < 30)%Q ->
   snd (NewsContentAgent.call_tool self tool parameters now get post) = []).
Proof.
  intros Hh. rewrite (call_tool_unhealthy _ _ _ _ _ _ Hh). simpl.
  destruct (health_check_no_post self now get) as [Hp Hs].
  repeat split; try assumption.
  intros Hc Hlt. now rewrite (health_check_cached _ _ _ _ Hc Hlt).
Qed.

Lemma call_tool_unhealthy_no_post_witness :
  fst (fst (NewsContentAgent.call_tool (NewsContentAgent.init news_config)
              "search_news" JNull 5%Q unreachable_get always_500)) =
    Raised (MCPToolCallError "Server news-data-server is not healthy") /\
  posts (snd (NewsContentAgent.call_tool (NewsContentAgent.init news_config)
                "search_news" JNull 5%Q unreachable_get always_500)) = 0%nat.
Proof.
  destruct (call_tool_unhealthy_no_post (NewsContentAgent.init news_config)
              "search_news" JNull 5%Q unreachable_get always_500)
    as (H1 & _ & H3 & _).
  - reflexivity.
  - split; [exact H1 | exact H3].
Defined.

(** C5: [health_check()] answers from its cache, sending nothing, when the
    last check is less than 30 time units old; otherwise (no check yet, or
    30 units or more ago) it sends one probe and caches what it found with
    the time of the call.  A failed probe (an exception or a non-2xx
    status) gives false and caches false; the function has no raising
    path.  From a new client, a second call less than 30 units after the
    first sends nothing more, and a third call 30 units or more after the
    first probes again. *)
Theorem health_check_cache_ttl :
  (forall self now get h,
     NewsContentAgent._healthy self = Some h ->
     (now - NewsContentAgent._last_health_check self < 30)%Q ->
     NewsContentAgent.health_check self now get = (h, self, [])) /\
  (forall self now get,
     NewsContentAgent._healthy self = None \/
     (30 <= now - NewsContentAgent._last_health_check self)%Q ->
     probes (snd (NewsContentAgent.health_check self now get)) = 1%nat /\
     snd (fst (NewsContentAgent.health_check self now get)) =
       {| NewsContentAgent.config := NewsContentAgent.config self;
          NewsContentAgent._healthy :=
            Some (fst (fst (NewsContentAgent.health_check self now get)));
          NewsContentAgent._last_health_check := now |} /\
     (probe_failed get ->
      fst (fst (NewsContentAgent.health_check self now get)) = false)) /\
  (forall cfg t1 t2 t3 g1 g2 g3,
     (t2 - t1 < 30)%Q -> (30 <= t3 - t1)%Q ->
     let r1 := NewsContentAgent.health_check (NewsContentAgent.init cfg)
                 t1 g1 in
     let r2 := NewsContentAgent.health_check (snd (fst r1)) t2 g2 in
     let r3 := NewsContentAgent.health_check (snd (fst r2)) t3 g3 in
     probes (snd r1 ++ snd r2) = 1%nat /\
     probes (snd r1 ++ snd r2 ++ snd r3) = 2%nat /\
     (probe_failed g1 -> fst (fst r1) = false /\ fst (fst r2) = false) /\
     (probe_failed g3 -> fst (fst r3) = false)).
Proof.
  split; [|split].
  - intros self now get h. apply health_check_cached.
  - intros self now get H. rewrite (health_check_probes _ _ _ H). simpl.
    repeat split. apply probe_failed_result.
  - intros cfg t1 t2 t3 g1 g2 g3 H12 H13 r1 r2 r3.
    assert (E1 : r1 = (probe_result g1,
                       {| NewsContentAgent.config := cfg;
                          NewsContentAgent._healthy := Some (probe_result g1);
                          NewsContentAgent._last_health_check := t1 |},
                       [NetGet (NewsContentAgent.url cfg ++
                                NewsContentAgent.health_endpoint cfg)])).
    { unfold r1. rewrite health_check_probes; [reflexivity | now left]. }
    assert (E2 : r2 = (probe_result g1, snd (fst r1), [])).
    { unfold r2. rewrite E1. simpl.
      now rewrite (health_check_cached _ _ _ (probe_result g1)). }
    assert (E3 : r3 = (probe_result g3,
                       {| NewsContentAgent.config := cfg;
                          NewsContentAgent._healthy := Some (probe_result g3);
                          NewsContentAgent._last_health_check := t3 |},
                       [NetGet (NewsContentAgent.url cfg ++
                                NewsContentAgent.health_endpoint cfg)])).
    { unfold r3. rewrite E2, E1. simpl.
      rewrite health_check_probes; [reflexivity | now right]. }
    rewrite E1, E2, E3. simpl. repeat split.
    + now apply probe_failed_result.
    + now apply probe_failed_result.
    + now apply probe_failed_result.
Qed.

Lemma health_check_cache_ttl_witness :
  let r1 := NewsContentAgent.health_check (NewsContentAgent.init news_config)
              100%Q unreachable_get in
  let r2 := NewsContentAgent.health_check (snd (fst r1)) 129%Q
              unreachable_get in
  let r3 := NewsContentAgent.health_check (snd (fst r2)) 131%Q
              unreachable_get in
  probes (snd r1 ++ snd r2) = 1%nat /\
  probes (snd r1 ++ snd r2 ++ snd r3) = 2%nat /\
  (probe_failed unreachable_get ->
   fst (fst r1) = false /\ fst (fst r2) = false) /\
  (probe_failed unreachable_get -> fst (fst r3) = false).
Proof.
  apply (proj2 (proj2 health_check_cache_ttl) news_config
           100%Q 129%Q 131%Q unreachable_get unreachable_get unreachable_get).
  - reflexivity.
  - discriminate.
Defined.

(** ** Backoff *)

(** The sleeps of every run of the loop, and which attempts they follow. *)
Lemma retry_loop_backoff (N : Z) (url : string) (parameters : JSON)
    (post : Z -> PostOutcome) :
  let tr := snd (retry_loop N url parameters post) in
  exists k : nat,
    (tr = [] \/ tr = run_trace url parameters k) /\
    sleeps tr = backoff_waits k /\
    (forall i, (i < posts tr)%nat ->
       transient_failure (post (Z.of_nat i)) = true ->
       Z.of_nat i <> N - 1 -> (i < k)%nat).
Proof.
  destruct (retry_loop_run N url parameters post)
    as [[_ E] | (k & Hk & Hpre & Hstop & E)]; rewrite E; simpl.
  - exists 0%nat. repeat split; [now left|].
    unfold posts. simpl. intros; lia.
  - exists k. repeat split.
    + now right.
    + apply sleeps_run_trace.
    + rewrite posts_run_trace. intros i Hi Hfail Hlast.
      destruct (Nat.eq_dec i k) as [->|Hne]; [|lia].
      destruct Hstop as [H|H]; [contradiction | congruence].
Qed.

(** C4: in every run of [call_tool] the trace of the loop is
    [POST; sleep 1; POST; sleep 2; ...; sleep 2^(k-1); POST]: attempt [i]
    is followed by a sleep of exactly [2^i] and then by attempt [i + 1],
    for each of the first [k] attempts, and these are all the attempts
    that failed (status other than 200, or request error) without being
    the last allowed one.  The sleeps of the run are [1; 2; ...; 2^(k-1)],
    a strictly increasing sequence. *)
Theorem call_tool_backoff_waits :
  (forall cfg tool parameters post,
     let tr := snd (ResearchContentCrew.call_tool cfg tool parameters post) in
     exists k : nat,
       (tr = [] \/
        tr = run_trace (ResearchContentCrew.url cfg ++ "/" ++ tool)
               parameters k) /\
       sleeps tr = backoff_waits k /\
       strictly_increasing (sleeps tr) /\
       (forall i, (i < posts tr)%nat ->
          transient_failure (post (Z.of_nat i)) = true ->
          Z.of_nat i <> ResearchContentCrew.max_retries cfg - 1 ->
          (i < k)%nat)) /\
  (forall self tool parameters now get post,
     let tr :=
       snd (NewsContentAgent.call_tool self tool parameters now get post) in
     let checked := snd (NewsContentAgent.health_check self now get) in
     exists k : nat,
       (tr = checked \/
        tr = (checked ++
              run_trace (NewsContentAgent.url (NewsContentAgent.config self)
                           ++ "/" ++ tool) parameters k)%list) /\
       sleeps tr = backoff_waits k /\
       strictly_increasing (sleeps tr) /\
       (forall i, (i < posts tr)%nat ->
          transient_failure (post (Z.of_nat i)) = true ->
          Z.of_nat i <>
            NewsContentAgent.max_retries (NewsContentAgent.config self) - 1 ->
          (i < k)%nat)).
Proof.
  split.
  - intros cfg tool parameters post tr.
    destruct (retry_loop_backoff (ResearchContentCrew.max_retries cfg)
                (ResearchContentCrew.url cfg ++ "/" ++ tool) parameters post)
      as (k & Hshape & Hsleeps & Hfollow).
    subst tr. unfold ResearchContentCrew.call_tool.
    cbv zeta in Hshape, Hsleeps, Hfollow.
    exists k. repeat split; try assumption.
    rewrite Hsleeps. apply backoff_waits_increasing.
  - intros self tool parameters now get post tr checked.
    destruct (health_check_no_post self now get) as [Hp Hs].
    fold checked in Hp, Hs.
    destruct (fst (fst (NewsContentAgent.health_check self now get))) eqn:Hh.
    + destruct (retry_loop_backoff
                  (NewsContentAgent.max_retries (NewsContentAgent.config self))
                  (NewsContentAgent.url (NewsContentAgent.config self)
                     ++ "/" ++ tool) parameters post)
        as (k & Hshape & Hsleeps & Hfollow).
      cbv zeta in Hshape, Hsleeps, Hfollow.
      assert (Etr : tr = (checked ++ snd (retry_loop
                  (NewsContentAgent.max_retries (NewsContentAgent.config self))
                  (NewsContentAgent.url (NewsContentAgent.config self)
                     ++ "/" ++ tool) parameters post))%list).
      { unfold tr. now rewrite (call_tool_healthy _ _ _ _ _ _ Hh). }
      assert (Es : sleeps tr = backoff_waits k).
      { rewrite Etr, sleeps_app, Hs. exact Hsleeps. }
      exists k. repeat split.
      * rewrite Etr. destruct Hshape as [E|E]; rewrite E.
        -- left. apply app_nil_r.
        -- now right.
      * exact Es.
      * rewrite Es. apply backoff_waits_increasing.
      * intros i Hi. apply Hfollow.
        rewrite Etr, posts_app, Hp in Hi. exact Hi.
    + assert (Etr : tr = checked).
      { unfold tr. now rewrite (call_tool_unhealthy _ _ _ _ _ _ Hh). }
      exists 0%nat. rewrite Etr. repeat split.
      * now left.
      * exact Hs.
      * rewrite Hs. apply (backoff_waits_increasing 0).
      * rewrite Hp. intros; lia.
Qed.

Lemma call_tool_backoff_waits_witness :
  let tr := snd (ResearchContentCrew.call_tool (crew_config_with 3)
                   "search_news" JNull always_500) in
  exists k : nat,
    (tr = [] \/
     tr = run_trace (ResearchContentCrew.url (crew_config_with 3) ++ "/"
                       ++ "search_news") JNull k) /\
    sleeps tr = backoff_waits k /\
    strictly_increasing (sleeps tr) /\
    (forall i, (i < posts tr)%nat ->
       transient_failure (always_500 (Z.of_nat i)) = true ->
       Z.of_nat i <> ResearchContentCrew.max_retries (crew_config_with 3) - 1
       -> (i < k)%nat).
Proof.
  apply (proj1 call_tool_backoff_waits (crew_config_with 3) "search_news"
           JNull always_500).
Defined.

(** A run of three failed attempts sleeps 1, then 2. *)
Example backoff_three_attempts :
  snd (ResearchContentCrew.call_tool (crew_config_with 3) "search_news" JNull
         always_500) =
  [NetPost "http://localhost:3001/search_news" JNull; Sleep 1;
   NetPost "http://localhost:3001/search_news" JNull; Sleep 2;
   NetPost "http://localhost:3001/search_news" JNull].
Proof. reflexivity. Qed.

(** ** Exhaustion *)

(** C6, as stated, fails: with [max_retries = 1] and a server answering
    [500 boom], the one attempt is the last one and the call raises from
    inside the loop with the detail of that attempt. *)
Lemma call_tool_exhaustion_message_counterexample :
  ResearchContentCrew.call_tool (crew_config_with 1) "search_news" JNull
    always_500 =
    (Raised (MCPToolCallError "HTTP 500: boom"),
     [NetPost "http://localhost:3001/search_news" JNull]) /\
  all_attempts_failed_msg 1 = "All 1 attempts failed" /\
  "HTTP 500: boom" <> "All 1 attempts failed" /\
  "HTTP 500: boom" <> "all 1 attempts failed".
Proof. repeat split; try reflexivity; discriminate. Qed.

(** C6, amended: for [max_retries = N >= 1], when every one of the [N]
    attempts fails (status other than 200, or request error), the
    [MCPToolCallError] that [call_tool] raises carries the detail of the
    last attempt, ["HTTP <status>: <body>"] or ["Request failed: <error>"],
    and not the message ["All N attempts failed"]. *)
Theorem call_tool_exhaustion_detail (N : Z) (post : Z -> PostOutcome) :
  1 <= N ->
  (forall k, 0 <= k < N -> transient_failure (post k) = true) ->
  failure_detail (post (N - 1)) <> all_attempts_failed_msg N /\
  (forall self tool parameters now get,
     NewsContentAgent.max_retries (NewsContentAgent.config self) = N ->
     fst (fst (NewsContentAgent.health_check self now get)) = true ->
     fst (fst (NewsContentAgent.call_tool self tool parameters now get post))
       = Raised (MCPToolCallError (failure_detail (post (N - 1))))) /\
  (forall cfg tool parameters,
     ResearchContentCrew.max_retries cfg = N ->
     fst (ResearchContentCrew.call_tool cfg tool parameters post) =
       Raised (MCPToolCallError (failure_detail (post (N - 1))))).
Proof.
  intros HN Hall. split; [|split].
  - intros E.
    apply (final_outcome_not_exhausted N (post (N - 1))).
    rewrite final_outcome_transient by (apply Hall; lia).
    now rewrite E.
  - intros self tool parameters now get HNeq Hh.
    rewrite (call_tool_healthy _ _ _ _ _ _ Hh), HNeq.
    now rewrite (retry_loop_all_fail N _ _ post HN Hall).
  - intros cfg tool parameters HNeq.
    unfold ResearchContentCrew.call_tool. rewrite HNeq.
    now rewrite (retry_loop_all_fail N _ _ post HN Hall).
Qed.

Lemma call_tool_exhaustion_detail_witness :
  fst (ResearchContentCrew.call_tool (crew_config_with 3) "search_news" JNull
         always_500) =
  Raised (MCPToolCallError (failure_detail (always_500 (3 - 1)))).
Proof.
  destruct (call_tool_exhaustion_detail 3 always_500) as (_ & _ & H).
  - lia.
  - intros k _. reflexivity.
  - apply H. reflexivity.
Defined.

(** ** A 200 answer whose body is not JSON *)

Lemma retry_loop_malformed_200 (N : Z) (url : string) (parameters : JSON)
    (post : Z -> PostOutcome) (j : nat) (r : Response) :
  post (Z.of_nat j) = PostResponse r ->
  status_code r = 200 ->
  json r = None ->
  (j < posts (snd (retry_loop N url parameters post)))%nat ->
  retry_loop N url parameters post =
    (Raised JSONDecodeError, run_trace url parameters j).
Proof.
  intros Hpost Hstatus Hjson Hmade.
  destruct (retry_loop_attempt_made N url parameters post j Hmade)
    as [Hj Hpre].
  rewrite (retry_loop_stops_at N url parameters post j Hj Hpre).
  - rewrite Hpost. simpl. now rewrite Hstatus, Hjson.
  - right. rewrite Hpost. simpl. now rewrite Hstatus.
Qed.

(** C7, as stated, fails: a 204 answer is a 2xx answer, its body is not
    JSON, and the loop retries after it.  With [max_retries = 3] and a
    server answering [204 <html>], the first attempt is followed by two
    more and the call ends with [MCPToolCallError]. *)
Lemma call_tool_malformed_204_counterexample :
  is_2xx 204 = true /\
  always_html 204 0 = PostResponse (response 204 "<html>" None) /\
  ResearchContentCrew.call_tool (crew_config_with 3) "search_news" JNull
    (always_html 204) =
    (Raised (MCPToolCallError "HTTP 204: <html>"),
     [NetPost "http://localhost:3001/search_news" JNull; Sleep 1;
      NetPost "http://localhost:3001/search_news" JNull; Sleep 2;
      NetPost "http://localhost:3001/search_news" JNull]) /\
  posts (snd (ResearchContentCrew.call_tool (crew_config_with 3)
                "search_news" JNull (always_html 204))) = 3%nat.
Proof. repeat split. Qed.

(** C7, amended: the status that counts is 200.  When attempt [j] of a run
    of [call_tool] is made and is answered 200 with a body that is not
    valid JSON, it is the last attempt of the run ([j + 1] POST requests in
    all), and the call ends with the [JSONDecodeError] of
    [response.json()]: neither a returned payload nor an
    [MCPToolCallError]. *)
Theorem call_tool_malformed_200_not_retried (post : Z -> PostOutcome)
    (j : nat) (r : Response) :
  post (Z.of_nat j) = PostResponse r ->
  status_code r = 200 ->
  json r = None ->
  (forall self tool parameters now get,
     let run := NewsContentAgent.call_tool self tool parameters now get post in
     (j < posts (snd run))%nat ->
     posts (snd run) = S j /\
     fst (fst run) = Raised JSONDecodeError /\
     (forall msg, fst (fst run) <> Raised (MCPToolCallError msg)) /\
     (forall payload, fst (fst run) <> Returned payload)) /\
  (forall cfg tool parameters,
     let run := ResearchContentCrew.call_tool cfg tool parameters post in
     (j < posts (snd run))%nat ->
     posts (snd run) = S j /\
     fst run = Raised JSONDecodeError /\
     (forall msg, fst run <> Raised (MCPToolCallError msg)) /\
     (forall payload, fst run <> Returned payload)).
Proof.
  intros Hpost Hstatus Hjson. split.
  - intros self tool parameters now get run Hmade. subst run.
    destruct (fst (fst (NewsContentAgent.health_check self now get))) eqn:Hh.
    + rewrite (call_tool_healthy_posts _ _ _ _ _ _ Hh) in *.
      rewrite (call_tool_healthy _ _ _ _ _ _ Hh). cbn [fst snd].
      rewrite (retry_loop_malformed_200 _ _ _ post j r Hpost Hstatus Hjson
                 Hmade).
      cbn [fst snd]. rewrite posts_run_trace.
      repeat split; congruence.
    + rewrite (call_tool_unhealthy _ _ _ _ _ _ Hh) in Hmade. simpl in Hmade.
      rewrite (proj1 (health_check_no_post self now get)) in Hmade. lia.
  - intros cfg tool parameters run Hmade. subst run.
    unfold ResearchContentCrew.call_tool in *.
    rewrite (retry_loop_malformed_200 _ _ _ post j r Hpost Hstatus Hjson
               Hmade).
    simpl. rewrite posts_run_trace.
    repeat split; congruence.
Qed.

Lemma call_tool_malformed_200_not_retried_witness :
  let run := ResearchContentCrew.call_tool (crew_config_with 3) "search_news"
               JNull (always_html 200) in
  posts (snd run) = 1%nat /\
  fst run = Raised JSONDecodeError /\
  (forall msg, fst run <> Raised (MCPToolCallError msg)) /\
  (forall payload, fst run <> Returned payload).
Proof.
  destruct (call_tool_malformed_200_not_retried (always_html 200) 0
              (response 200 "<html>" None)) as [_ H].
  - reflexivity.
  - reflexivity.
  - reflexivity.
  - apply H. vm_compute. lia.
Defined.

(** ** No attempt allowed *)

Lemma retry_loop_some_attempt (N : Z) (url : string) (parameters : JSON)
    (post : Z -> PostOutcome) :
  1 <= N ->
  exists k : nat,
    Z.of_nat k < N /\
    retry_loop N url parameters post =
      (final_outcome (post (Z.of_nat k)), run_trace url parameters k) /\
    (transient_failure (post (Z.of_nat k)) = true -> Z.of_nat k = N - 1).
Proof.
  intros HN.
  destruct (retry_loop_run N url parameters post)
    as [[H _] | (k & Hk & _ & Hstop & E)]; [lia|].
  exists k. repeat split; try assumption.
  intros Hfail. destruct Hstop as [H|H]; [exact H | congruence].
Qed.

(** C10: with [max_retries = 0] and a healthy endpoint the loop body never
    runs: [call_tool] sends no POST and raises
    [MCPToolCallError "All 0 attempts failed"].  For every
    [max_retries = N >= 1] the call ends inside the loop, at an attempt it
    made: its outcome is never that message with [N]; and when the attempt
    that ends it is a failure (status other than 200, or request error), it
    is the last allowed one and the error carries its detail. *)
Theorem call_tool_zero_retries :
  (forall self tool parameters now get post,
     NewsContentAgent.max_retries (NewsContentAgent.config self) = 0 ->
     fst (fst (NewsContentAgent.health_check self now get)) = true ->
     let run := NewsContentAgent.call_tool self tool parameters now get post in
     fst (fst run) = Raised (MCPToolCallError "All 0 attempts failed") /\
     posts (snd run) = 0%nat) /\
  (forall cfg tool parameters post,
     ResearchContentCrew.max_retries cfg = 0 ->
     ResearchContentCrew.call_tool cfg tool parameters post =
       (Raised (MCPToolCallError "All 0 attempts failed"), [])) /\
  (forall N post, 1 <= N ->
     (forall self tool parameters now get,
        NewsContentAgent.max_retries (NewsContentAgent.config self) = N ->
        fst (fst (NewsContentAgent.health_check self now get)) = true ->
        let run :=
          NewsContentAgent.call_tool self tool parameters now get post in
        fst (fst run) <> Raised (MCPToolCallError (all_attempts_failed_msg N))
        /\
        exists k : nat,
          Z.of_nat k < N /\ posts (snd run) = S k /\
          fst (fst run) = final_outcome (post (Z.of_nat k)) /\
          (transient_failure (post (Z.of_nat k)) = true ->
           Z.of_nat k = N - 1 /\
           fst (fst run) =
             Raised (MCPToolCallError
                       (failure_detail (post (Z.of_nat k)))))) /\
     (forall cfg tool parameters,
        ResearchContentCrew.max_retries cfg = N ->
        let run := ResearchContentCrew.call_tool cfg tool parameters post in
        fst run <> Raised (MCPToolCallError (all_attempts_failed_msg N)) /\
        exists k : nat,
          Z.of_nat k < N /\ posts (snd run) = S k /\
          fst run = final_outcome (post (Z.of_nat k)) /\
          (transient_failure (post (Z.of_nat k)) = true ->
           Z.of_nat k = N - 1 /\
           fst run =
             Raised (MCPToolCallError
                       (failure_detail (post (Z.of_nat k))))))).
Proof.
  split; [|split].
  - intros self tool parameters now get post HN Hh run. subst run.
    rewrite (call_tool_healthy _ _ _ _ _ _ Hh), HN. simpl.
    split; [reflexivity|].
    rewrite app_nil_r. apply (health_check_no_post self now get).
  - intros cfg tool parameters post HN.
    unfold ResearchContentCrew.call_tool. now rewrite HN.
  - intros N post HN. split.
    + intros self tool parameters now get HNeq Hh run. subst run.
      rewrite (call_tool_healthy _ _ _ _ _ _ Hh), HNeq. simpl.
      destruct (retry_loop_some_attempt N
                  (NewsContentAgent.url (NewsContentAgent.config self)
                     ++ "/" ++ tool) parameters post HN)
        as (k & Hk & E & Hlast).
      simpl in E. rewrite E. simpl. split.
      * apply final_outcome_not_exhausted.
      * exists k. repeat split.
        -- exact Hk.
        -- rewrite posts_app, (proj1 (health_check_no_post self now get)).
           now rewrite posts_run_trace.
        -- now apply Hlast.
        -- now apply final_outcome_transient.
    + intros cfg tool parameters HNeq run. subst run.
      unfold ResearchContentCrew.call_tool. rewrite HNeq.
      destruct (retry_loop_some_attempt N
                  (ResearchContentCrew.url cfg ++ "/" ++ tool)
                  parameters post HN)
        as (k & Hk & E & Hlast).
      rewrite E. simpl. split.
      * apply final_outcome_not_exhausted.
      * exists k. repeat split.
        -- exact Hk.
        -- now rewrite posts_run_trace.
        -- now apply Hlast.
        -- now apply final_outcome_transient.
Qed.

Lemma call_tool_zero_retries_witness :
  (let run := NewsContentAgent.call_tool
                (NewsContentAgent.init (news_config_with 0)) "search_news"
                JNull 0%Q healthy_get always_500 in
   fst (fst run) = Raised (MCPToolCallError "All 0 attempts failed") /\
   posts (snd run) = 0%nat) /\
  (let run := ResearchContentCrew.call_tool (crew_config_with 2)
                "search_news" JNull always_500 in
   fst run <> Raised (MCPToolCallError (all_attempts_failed_msg 2)) /\
   exists k : nat,
     Z.of_nat k < 2 /\ posts (snd run) = S k /\
     fst run = final_outcome (always_500 (Z.of_nat k)) /\
     (transient_failure (always_500 (Z.of_nat k)) = true ->
      Z.of_nat k = 2 - 1 /\
      fst run =
        Raised (MCPToolCallError
                  (failure_detail (always_500 (Z.of_nat k)))))).
Proof.
  split.
  - apply (proj1 call_tool_zero_retries); reflexivity.
  - apply (proj2 (proj2 call_tool_zero_retries) 2 always_500).
    + lia.
    + reflexivity.
Defined.

(** ** Strings *)

Lemma append_assoc (a b c : string) : (a ++ b) ++ c = a ++ (b ++ c).
Proof. induction a as [|x a IH]; simpl; [reflexivity | now rewrite IH]. Qed.

Lemma append_nil_r (a : string) : a ++ EmptyString = a.
Proof. induction a as [|x a IH]; simpl; [reflexivity | now rewrite IH]. Qed.

Lemma length_append (a b : string) :
  String.length (a ++ b) = (String.length a + String.length b)%nat.
Proof. induction a as [|x a IH]; simpl; [reflexivity | now rewrite IH]. Qed.

Section Scanning.

Import ImageGenerator.

Lemma take_append (a b : string) : take (String.length a) (a ++ b) = a.
Proof. induction a as [|x a IH]; simpl; [now destruct b | now rewrite IH]. Qed.

Lemma drop_append (a b : string) : drop (String.length a) (a ++ b) = b.
Proof. induction a as [|x a IH]; simpl; [now destruct b | exact IH]. Qed.

Lemma string_forall_impl (p q : ascii -> bool) (s : string) :
  (forall c, p c = true -> q c = true) ->
  string_forall p s = true -> string_forall q s = true.
Proof.
  intros Hpq. induction s as [|c s IH]; simpl; [reflexivity|].
  intros H. apply andb_true_iff in H as [Hc Hs].
  now rewrite (Hpq c Hc), IH.
Qed.

(** A greedy class stops where the text leaves the class. *)
Lemma run_length_append (p : ascii -> bool) (a b : string) :
  string_forall p a = true -> starts_with p b = false ->
  run_length p (a ++ b) = String.length a.
Proof.
  intros Ha Hb. induction a as [|c a IH]; simpl in *.
  - destruct b as [|c b]; simpl in *; [reflexivity | now rewrite Hb].
  - apply andb_true_iff in Ha as [Hc Ha]. now rewrite Hc, IH.
Qed.

Lemma run_length_ge (p : ascii -> bool) (a b : string) :
  string_forall p a = true ->
  (String.length a <= run_length p (a ++ b))%nat.
Proof.
  intros Ha. induction a as [|c a IH]; simpl in *; [lia|].
  apply andb_true_iff in Ha as [Hc Ha]. rewrite Hc.
  specialize (IH Ha). lia.
Qed.

Lemma starts_with_append (p : ascii -> bool) (a b : string) :
  a <> EmptyString -> starts_with p (a ++ b) = starts_with p a.
Proof. destruct a; [congruence | reflexivity]. Qed.

(** *** [re.findall] *)

Variable m : string -> option nat.

Lemma findall_from_skip (a b : string) :
  findall_from m (String.length a) (a ++ b) = findall_from m 0 b.
Proof.
  induction a as [|c a IH]; simpl; [|exact IH].
  destruct b; reflexivity.
Qed.

(** A match at the current position is kept and the scan goes on after
    it. *)
Lemma findall_match_here (a b : string) :
  a <> EmptyString -> m (a ++ b) = Some (String.length a) ->
  findall m (a ++ b) = a :: findall m b.
Proof.
  unfold findall. destruct a as [|c a]; [congruence|]. intros _ Hm.
  change (String c a ++ b) with (String c (a ++ b)) in *.
  cbn [findall_from]. rewrite Hm.
  change (String c (a ++ b)) with (String c a ++ b).
  rewrite take_append. simpl Nat.pred.
  now rewrite findall_from_skip.
Qed.

(** Positions where the pattern does not match are passed over. *)
Lemma findall_no_match_before (pre s : string) :
  matches_within m (String.length pre) (pre ++ s) = false ->
  findall m (pre ++ s) = findall m s.
Proof.
  unfold findall. induction pre as [|c pre IH]; [reflexivity|].
  cbn [String.length matches_within].
  change (String c pre ++ s) with (String c (pre ++ s)).
  destruct (m (String c (pre ++ s))) eqn:E; [discriminate|].
  intros H. cbn [findall_from]. rewrite E. now apply IH.
Qed.

Lemma findall_no_match (s : string) :
  matches_within m (String.length s) s = false -> findall m s = [].
Proof.
  unfold findall. induction s as [|c s IH]; [reflexivity|].
  cbn [String.length matches_within findall_from].
  destruct (m (String c s)); [discriminate | exact IH].
Qed.

End Scanning.

Section Patterns.

Import ImageGenerator.

Lemma literal_append (lit s : string) : literal lit (lit ++ s) = Some s.
Proof.
  induction lit as [|c lit IH]; simpl; [now destruct s|].
  now rewrite Ascii.eqb_refl.
Qed.

Lemma string_forall_append (p : ascii -> bool) (a b : string) :
  string_forall p (a ++ b) = string_forall p a && string_forall p b.
Proof.
  induction a as [|c a IH]; simpl; [reflexivity|].
  now rewrite IH, andb_assoc.
Qed.

Lemma length_not_zero (s : string) :
  s <> EmptyString -> (String.length s =? 0)%nat = false.
Proof. destruct s; [congruence | reflexivity]. Qed.

(** The data-URL pattern matches a data URL that the text leaves with a
    character outside [[A-Za-z0-9+/=]], and takes all of it. *)
Lemma match_data_url_here (subtype payload post : string) :
  subtype <> EmptyString -> string_forall not_semicolon subtype = true ->
  payload <> EmptyString -> string_forall is_b64_or_pad payload = true ->
  starts_with is_b64_or_pad post = false ->
  match_data_url (data_url subtype payload ++ post) =
    Some (String.length (data_url subtype payload)).
Proof.
  intros Hs Hsub Hp Hpay Hpost. unfold data_url, match_data_url.
  rewrite !append_assoc, literal_append.
  rewrite (run_length_append not_semicolon subtype) by
    (try assumption; reflexivity).
  rewrite (length_not_zero _ Hs), drop_append, literal_append.
  rewrite (run_length_append is_b64_or_pad payload) by assumption.
  rewrite (length_not_zero _ Hp), !length_append.
  simpl. f_equal. lia.
Qed.

Lemma b64_or_pad_not_comma (c : ascii) :
  is_b64_or_pad c = true -> negb (is_comma c) = true.
Proof.
  unfold is_b64_or_pad, is_b64_char, is_pad, is_comma.
  destruct (code c =? 44)%N eqn:E; [|reflexivity].
  apply N.eqb_eq in E. rewrite E. discriminate.
Qed.

Lemma split_comma_no_comma (s : string) :
  string_forall (fun c => negb (is_comma c)) s = true ->
  split_comma s = [s].
Proof.
  induction s as [|c s IH]; simpl; [reflexivity|].
  intros H. apply andb_true_iff in H as [Hc Hs].
  apply negb_true_iff in Hc. now rewrite Hc, (IH Hs).
Qed.

Lemma split_comma_append (a b : string) :
  string_forall (fun c => negb (is_comma c)) a = true ->
  split_comma (a ++ String "," b) = a :: split_comma b.
Proof.
  induction a as [|c a IH]; simpl; [reflexivity|].
  intros H. apply andb_true_iff in H as [Hc Ha].
  apply negb_true_iff in Hc. now rewrite Hc, (IH Ha).
Qed.

Lemma has_comma_append (a b : string) :
  has_comma (a ++ b) = has_comma a || has_comma b.
Proof.
  induction a as [|c a IH]; simpl; [reflexivity|].
  now rewrite IH, orb_assoc.
Qed.

(** The base64 part of a data URL with no comma in its subtype is its
    payload. *)
Lemma base64_part_payload (subtype payload : string) :
  string_forall subtype_char subtype = true ->
  string_forall is_b64_or_pad payload = true ->
  base64_part (data_url subtype payload) = payload.
Proof.
  intros Hsub Hpay. unfold base64_part.
  assert (E : data_url subtype payload =
              ("data:image/" ++ subtype ++ ";base64") ++ String "," payload).
  { unfold data_url. now rewrite !append_assoc. }
  rewrite E, has_comma_append. replace (has_comma (String "," payload))
    with true by reflexivity.
  rewrite orb_true_r, split_comma_append.
  - rewrite split_comma_no_comma; [reflexivity|].
    apply (string_forall_impl is_b64_or_pad); [|exact Hpay].
    exact b64_or_pad_not_comma.
  - rewrite !string_forall_append. simpl.
    rewrite andb_true_r.
    apply (string_forall_impl subtype_char); [|exact Hsub].
    unfold subtype_char. intros c H. now apply andb_true_iff in H.
Qed.

(** The fallback pattern matches a run of at least 100 characters of the
    alphabet with its padding, and takes all of it. *)
Lemma match_base64_here (body pad post : string) :
  string_forall is_b64_char body = true ->
  (100 <= String.length body)%nat ->
  is_padding pad ->
  starts_with is_b64_char post = false ->
  pad = "==" \/ starts_with is_pad post = false ->
  match_base64 ((body ++ pad) ++ post) =
    Some (String.length (body ++ pad)).
Proof.
  intros Hbody Hlen Hpad Hpost Hend. unfold match_base64.
  rewrite append_assoc, length_append.
  assert (Hstop : starts_with is_b64_char (pad ++ post) = false).
  { destruct Hpad as [->|[->| ->]]; [exact Hpost | reflexivity..]. }
  rewrite (run_length_append is_b64_char body _ Hbody Hstop), drop_append.
  replace (String.length body <? 100)%nat with false
    by (symmetry; apply Nat.ltb_ge; exact Hlen).
  assert (Hrun : run_length is_pad post = 0%nat \/ pad = "==").
  { destruct Hend as [->|H]; [now right|]. left.
    destruct post; simpl in *; [reflexivity | now rewrite H]. }
  do 2 f_equal.
  destruct Hpad as [->|[->| ->]]; simpl.
  - destruct Hrun as [->|]; [reflexivity | discriminate].
  - destruct Hrun as [->|]; [reflexivity | discriminate].
  - reflexivity.
Qed.

(** *** Decoding *)

(** Three bytes at most for four characters. *)
Lemma a2b_base64_length (s : string) :
  forall quad_pos leftchar pads out image,
    a2b_base64 s quad_pos leftchar pads out = Some image ->
    (4 * length image <=
     4 * length out + slack quad_pos + 3 * String.length s)%nat.
Proof.
  induction s as [|c s IH]; intros q l p out image; cbn [a2b_base64].
  - destruct q; [|discriminate]. intros [= <-]. rewrite length_rev. lia.
  - cbn [String.length]. destruct (is_pad c).
    + destruct (2 <=? q)%nat.
      * destruct (4 <=? q + S p)%nat.
        -- intros [= <-]. rewrite length_rev. lia.
        -- intros H. apply IH in H. lia.
      * intros H. apply IH in H. lia.
    + destruct (table_a2b_base64 c) as [v|].
      * destruct q as [|[|[|q]]]; intros H; apply IH in H;
          simpl in *; lia.
      * intros H. apply IH in H. lia.
Qed.

Lemma b64decode_length (s : string) (image : list Z) :
  b64decode s = Some image ->
  (4 * length image <= 3 * String.length s)%nat.
Proof.
  unfold b64decode. destruct (all_ascii s); [|discriminate].
  intros H. apply a2b_base64_length in H. simpl in H. lia.
Qed.

Lemma large_image_some (s : string) (image : list Z) :
  large_image s = Some image <->
  b64decode s = Some image /\ (1000 < length image)%nat.
Proof.
  unfold large_image.
  destruct (b64decode s) as [d|];
    [|split; [discriminate | intros [H _]; discriminate]].
  destruct (1000 <? length d)%nat eqn:E.
  - apply Nat.ltb_lt in E. split.
    + intros [= <-]. now split.
    + intros [H _]. exact H.
  - apply Nat.ltb_ge in E. split; [discriminate|].
    intros [[= <-] H]. lia.
Qed.

Lemma in_collect {A B : Type} (f : A -> option B) (l : list A) (b : B) :
  In b (collect f l) <-> exists a, In a l /\ f a = Some b.
Proof.
  induction l as [|x l IH]; simpl.
  - split; [contradiction | intros (a & [] & _)].
  - destruct (f x) as [y|] eqn:E; simpl; rewrite IH; split.
    + intros [<-|(a & Ha & Hf)]; [exists x | exists a]; auto.
    + intros (a & [<-|Ha] & Hf); [left; congruence | right; exists a; auto].
    + intros (a & Ha & Hf). exists a; auto.
    + intros (a & [<-|Ha] & Hf); [congruence | exists a; auto].
Qed.

End Patterns.

(** * Further properties of the clients *)

Lemma total_backoff_waits (k : nat) :
  fold_right Z.add 0 (backoff_waits k) = 2 ^ Z.of_nat k - 1.
Proof.
  unfold backoff_waits. induction k as [|k IH]; [reflexivity|].
  rewrite seq_S, map_app, fold_right_app. cbn [map fold_right Nat.add].
  rewrite Z.add_0_r.
  assert (H : forall (l : list Z) (a : Z),
             fold_right Z.add a l = fold_right Z.add 0 l + a).
  { induction l as [|x l IHl]; intros a; simpl; [lia|].
    rewrite (IHl a). lia. }
  rewrite H, IH, Nat2Z.inj_succ, Z.pow_succ_r by lia. lia.
Qed.

(** Posts, sleeps and outcome of the LangChain call are those of the loop
    when the endpoint is healthy, and none when it is not. *)
Lemma news_call_tool_cases self tool parameters now get post :
  let run := NewsContentAgent.call_tool self tool parameters now get post in
  let loop :=
    retry_loop (NewsContentAgent.max_retries (NewsContentAgent.config self))
      (NewsContentAgent.url (NewsContentAgent.config self) ++ "/" ++ tool)
      parameters post in
  (fst (fst (NewsContentAgent.health_check self now get)) = true /\
   fst (fst run) = fst loop /\
   posts (snd run) = posts (snd loop) /\
   sleeps (snd run) = sleeps (snd loop))
  \/
  (fst (fst (NewsContentAgent.health_check self now get)) = false /\
   fst (fst run) =
     Raised (MCPToolCallError
               (NewsContentAgent.not_healthy_msg
                  (NewsContentAgent.config self))) /\
   posts (snd run) = 0%nat /\
   sleeps (snd run) = []).
Proof.
  intros run loop. subst run loop.
  destruct (health_check_no_post self now get) as [Hp Hs].
  destruct (fst (fst (NewsContentAgent.health_check self now get))) eqn:Hh.
  - left. rewrite (call_tool_healthy _ _ _ _ _ _ Hh). cbn [fst snd].
    rewrite posts_app, sleeps_app, Hp, Hs. repeat split.
  - right. rewrite (call_tool_unhealthy _ _ _ _ _ _ Hh). cbn [fst snd].
    repeat split; assumption.
Qed.

Lemma retry_loop_posts_bounded (N : Z) (url : string) (parameters : JSON)
    (post : Z -> PostOutcome) :
  Z.of_nat (posts (snd (retry_loop N url parameters post))) <= Z.max 0 N.
Proof.
  destruct (retry_loop_run N url parameters post)
    as [[H E] | (k & Hk & _ & _ & E)]; rewrite E; cbn [snd].
  - unfold posts. simpl. lia.
  - rewrite posts_run_trace. lia.
Qed.

Lemma news_call_tool_posts_bounded self tool parameters now get post :
  Z.of_nat
    (posts (snd (NewsContentAgent.call_tool self tool parameters now get
                   post)))
  <= Z.max 0 (NewsContentAgent.max_retries (NewsContentAgent.config self)).
Proof.
  destruct (news_call_tool_cases self tool parameters now get post)
    as [(_ & _ & Hp & _) | (_ & _ & Hp & _)]; rewrite Hp.
  - apply retry_loop_posts_bounded.
  - simpl. lia.
Qed.

(** X1: no run of [call_tool] sends more POST requests than
    [max_retries] (none when [max_retries] is zero or negative), whatever
    the server answers. *)
Theorem call_tool_attempts_bounded :
  (forall self tool parameters now get post,
     Z.of_nat
       (posts (snd (NewsContentAgent.call_tool self tool parameters now get
                      post)))
     <= Z.max 0 (NewsContentAgent.max_retries
                   (NewsContentAgent.config self))) /\
  (forall cfg tool parameters post,
     Z.of_nat (posts (snd (ResearchContentCrew.call_tool cfg tool parameters
                             post)))
     <= Z.max 0 (ResearchContentCrew.max_retries cfg)).
Proof.
  split.
  - exact news_call_tool_posts_bounded.
  - intros cfg tool parameters post. apply retry_loop_posts_bounded.
Qed.

Lemma retry_loop_total_sleep (N : Z) (url : string) (parameters : JSON)
    (post : Z -> PostOutcome) :
  let tr := snd (retry_loop N url parameters post) in
  fold_right Z.add 0 (sleeps tr) = 2 ^ Z.of_nat (posts tr - 1) - 1.
Proof.
  destruct (retry_loop_run N url parameters post)
    as [[H E] | (k & Hk & _ & _ & E)]; rewrite E; cbn [snd].
  - reflexivity.
  - rewrite sleeps_run_trace, posts_run_trace, total_backoff_waits.
    replace (S k - 1)%nat with k by lia. reflexivity.
Qed.

(** X2: a run that sends [p] POST requests sleeps [2^(p-1) - 1] time
    units in all (nothing for a single attempt; there is no sleep after
    the last one), so never more than [2^(max_retries - 1) - 1]. *)
Theorem call_tool_total_backoff :
  (forall self tool parameters now get post,
     let tr :=
       snd (NewsContentAgent.call_tool self tool parameters now get post) in
     let N := NewsContentAgent.max_retries (NewsContentAgent.config self) in
     total_sleep tr = 2 ^ Z.of_nat (posts tr - 1) - 1 /\
     (1 <= N -> total_sleep tr <= 2 ^ (N - 1) - 1)) /\
  (forall cfg tool parameters post,
     let tr := snd (ResearchContentCrew.call_tool cfg tool parameters post) in
     let N := ResearchContentCrew.max_retries cfg in
     total_sleep tr = 2 ^ Z.of_nat (posts tr - 1) - 1 /\
     (1 <= N -> total_sleep tr <= 2 ^ (N - 1) - 1)).
Proof.
  assert (Hbound : forall (N : Z) (p : nat),
            Z.of_nat p <= Z.max 0 N -> 1 <= N ->
            2 ^ Z.of_nat (p - 1) - 1 <= 2 ^ (N - 1) - 1).
  { intros N p Hp HN.
    assert (2 ^ Z.of_nat (p - 1) <= 2 ^ (N - 1))
      by (apply Z.pow_le_mono_r; lia).
    lia. }
  split.
  - intros self tool parameters now get post tr N. subst tr N.
    unfold total_sleep.
    pose proof (news_call_tool_posts_bounded self tool parameters now get
                  post) as Hle.
    destruct (news_call_tool_cases self tool parameters now get post)
      as [(_ & _ & Hp & Hs) | (_ & _ & Hp & Hs)]; rewrite Hs, Hp in *.
    + rewrite retry_loop_total_sleep.
      split; [reflexivity | intros HN; now apply Hbound].
    + split; [reflexivity | intros HN; now apply (Hbound _ 0%nat)].
  - intros cfg tool parameters post tr N. subst tr N.
    unfold total_sleep, ResearchContentCrew.call_tool.
    rewrite retry_loop_total_sleep.
    split; [reflexivity | intros HN; apply Hbound; [|exact HN]].
    apply retry_loop_posts_bounded.
Qed.

Lemma call_tool_total_backoff_witness :
  let tr := snd (ResearchContentCrew.call_tool (crew_config_with 3)
                   "search_news" JNull always_500) in
  total_sleep tr = 2 ^ Z.of_nat (posts tr - 1) - 1 /\
  (1 <= 3 -> total_sleep tr <= 2 ^ (3 - 1) - 1).
Proof.
  apply (proj2 call_tool_total_backoff (crew_config_with 3) "search_news"
           JNull always_500).
Defined.

Lemma final_outcome_returned (o : PostOutcome) (payload : JSON) :
  final_outcome o = Returned payload ->
  exists r, o = PostResponse r /\ status_code r = 200 /\
            json r = Some payload.
Proof.
  destruct o as [r|e|e]; simpl; try discriminate.
  destruct (status_code r =? 200) eqn:E; [|discriminate].
  destruct (json r) as [p|] eqn:J; [|discriminate].
  intros [= <-]. exists r. apply Z.eqb_eq in E. auto.
Qed.

Lemma retry_loop_returned (N : Z) (url : string) (parameters : JSON)
    (post : Z -> PostOutcome) (payload : JSON) :
  fst (retry_loop N url parameters post) = Returned payload ->
  exists (k : nat) (r : Response),
    posts (snd (retry_loop N url parameters post)) = S k /\
    Z.of_nat k < N /\
    post (Z.of_nat k) = PostResponse r /\
    status_code r = 200 /\ json r = Some payload /\
    forall i, (i < k)%nat -> transient_failure (post (Z.of_nat i)) = true.
Proof.
  destruct (retry_loop_run N url parameters post)
    as [[H E] | (k & Hk & Hpre & _ & E)]; rewrite E; cbn [fst snd].
  - discriminate.
  - intros Hret. apply final_outcome_returned in Hret as (r & Hr & Hs & Hj).
    exists k, r. rewrite posts_run_trace. auto 10.
Qed.

Lemma news_call_tool_returned self tool parameters now get post payload :
  let run := NewsContentAgent.call_tool self tool parameters now get post in
  fst (fst run) = Returned payload ->
  fst (fst (NewsContentAgent.health_check self now get)) = true /\
  exists (k : nat) (r : Response),
    posts (snd run) = S k /\
    Z.of_nat k <
      NewsContentAgent.max_retries (NewsContentAgent.config self) /\
    post (Z.of_nat k) = PostResponse r /\
    status_code r = 200 /\ json r = Some payload /\
    forall i, (i < k)%nat ->
      transient_failure (post (Z.of_nat i)) = true.
Proof.
  intros run Hret. subst run.
  destruct (news_call_tool_cases self tool parameters now get post)
    as [(Hh & Ho & Hp & _) | (_ & Ho & _ & _)]; rewrite Ho in Hret.
  - split; [exact Hh|]. rewrite Hp. now apply retry_loop_returned.
  - discriminate.
Qed.

(** X3: a payload that [call_tool] returns is the parsed body of a POST
    answered with status 200: the last request of the run, made after
    every earlier attempt failed with another status or a request error. *)
Theorem call_tool_success_from_200 :
  (forall self tool parameters now get post payload,
     let run := NewsContentAgent.call_tool self tool parameters now get post in
     fst (fst run) = Returned payload ->
     fst (fst (NewsContentAgent.health_check self now get)) = true /\
     exists (k : nat) (r : Response),
       posts (snd run) = S k /\
       Z.of_nat k <
         NewsContentAgent.max_retries (NewsContentAgent.config self) /\
       post (Z.of_nat k) = PostResponse r /\
       status_code r = 200 /\ json r = Some payload /\
       forall i, (i < k)%nat ->
         transient_failure (post (Z.of_nat i)) = true) /\
  (forall cfg tool parameters post payload,
     let run := ResearchContentCrew.call_tool cfg tool parameters post in
     fst run = Returned payload ->
     exists (k : nat) (r : Response),
       posts (snd run) = S k /\
       Z.of_nat k < ResearchContentCrew.max_retries cfg /\
       post (Z.of_nat k) = PostResponse r /\
       status_code r = 200 /\ json r = Some payload /\
       forall i, (i < k)%nat ->
         transient_failure (post (Z.of_nat i)) = true).
Proof.
  split.
  - exact news_call_tool_returned.
  - intros cfg tool parameters post payload run Hret. subst run.
    now apply retry_loop_returned.
Qed.

Lemma call_tool_success_from_200_witness :
  exists (k : nat) (r : Response),
    posts (snd (ResearchContentCrew.call_tool (crew_config_with 3)
                  "search_news" JNull (timeout_then 200))) = S k /\
    Z.of_nat k < ResearchContentCrew.max_retries (crew_config_with 3) /\
    timeout_then 200 (Z.of_nat k) = PostResponse r /\
    status_code r = 200 /\ json r = Some (JObj []) /\
    forall i, (i < k)%nat ->
      transient_failure (timeout_then 200 (Z.of_nat i)) = true.
Proof.
  apply (proj2 call_tool_success_from_200 (crew_config_with 3) "search_news"
           JNull (timeout_then 200) (JObj [])).
  reflexivity.
Defined.

(** An attempt that is made and does not fail in a way the loop retries
    ends the run. *)
Lemma retry_loop_ends_at (N : Z) (url : string) (parameters : JSON)
    (post : Z -> PostOutcome) (j : nat) :
  (j < posts (snd (retry_loop N url parameters post)))%nat ->
  transient_failure (post (Z.of_nat j)) = false ->
  retry_loop N url parameters post =
    (final_outcome (post (Z.of_nat j)), run_trace url parameters j).
Proof.
  intros Hmade Hstop.
  destruct (retry_loop_attempt_made N url parameters post j Hmade)
    as [Hj Hpre].
  apply (retry_loop_stops_at N url parameters post j Hj Hpre).
  now right.
Qed.

(** X4: an exception of the POST that is not an [httpx.RequestError] is
    not retried and not wrapped: when attempt [j] is made and raises it,
    the call ends with that same exception after [j + 1] POST requests. *)
Theorem call_tool_other_exception_propagates (post : Z -> PostOutcome)
    (j : nat) (e : string) :
  post (Z.of_nat j) = PostOtherError e ->
  (forall self tool parameters now get,
     let run := NewsContentAgent.call_tool self tool parameters now get post in
     (j < posts (snd run))%nat ->
     fst (fst run) = Raised (OtherError e) /\ posts (snd run) = S j) /\
  (forall cfg tool parameters,
     let run := ResearchContentCrew.call_tool cfg tool parameters post in
     (j < posts (snd run))%nat ->
     fst run = Raised (OtherError e) /\ posts (snd run) = S j).
Proof.
  intros Hpost.
  assert (Hstop : transient_failure (post (Z.of_nat j)) = false)
    by now rewrite Hpost.
  split.
  - intros self tool parameters now get run Hmade. subst run.
    destruct (news_call_tool_cases self tool parameters now get post)
      as [(_ & Ho & Hp & _) | (_ & _ & Hp & _)]; rewrite Hp in *;
      [|lia].
    rewrite Ho, (retry_loop_ends_at _ _ _ post j Hmade Hstop).
    cbn [fst snd]. now rewrite Hpost, posts_run_trace.
  - intros cfg tool parameters run Hmade. subst run.
    unfold ResearchContentCrew.call_tool in *.
    rewrite (retry_loop_ends_at _ _ _ post j Hmade Hstop).
    cbn [fst snd]. now rewrite Hpost, posts_run_trace.
Qed.

Lemma call_tool_other_exception_propagates_witness :
  let run := ResearchContentCrew.call_tool (crew_config_with 3) "search_news"
               JNull type_error_then_200 in
  fst run = Raised (OtherError "Object of type set is not JSON serializable") /\
  posts (snd run) = 1%nat.
Proof.
  destruct (call_tool_other_exception_propagates type_error_then_200 0
              "Object of type set is not JSON serializable") as [_ H].
  - reflexivity.
  - apply H. vm_compute. lia.
Defined.

(** ** The health cache across calls *)

Lemma health_check_state self now get :
  let r := NewsContentAgent.health_check self now get in
  NewsContentAgent.config (snd (fst r)) = NewsContentAgent.config self /\
  NewsContentAgent._healthy (snd (fst r)) = Some (fst (fst r)) /\
  ((snd r = [] /\ snd (fst r) = self) \/
   (snd r = [NetGet (NewsContentAgent.url (NewsContentAgent.config self) ++
                     NewsContentAgent.health_endpoint
                       (NewsContentAgent.config self))] /\
    NewsContentAgent._last_health_check (snd (fst r)) = now /\
    fst (fst r) = probe_result get)).
Proof.
  unfold NewsContentAgent.health_check.
  destruct (NewsContentAgent._healthy self) as [h|] eqn:Hh.
  - destruct (NewsContentAgent.Qltb _ _).
    + cbn [fst snd]. repeat split; [exact Hh | now left].
    + destruct get; cbn [fst snd]; repeat split; right; repeat split.
  - destruct get; cbn [fst snd]; repeat split; right; repeat split.
Qed.

Lemma probe_result_true (get : GetOutcome) :
  probe_result get = true <->
  exists r, get = GetResponse r /\ status_code r = 200.
Proof.
  destruct get as [r|e]; simpl.
  - rewrite Z.eqb_eq. split.
    + intros H. now exists r.
    + intros (r' & [= <-] & H). exact H.
  - split; [discriminate | intros (r & H & _); discriminate].
Qed.

(** X7: [health_check] never changes the configuration; the value it
    returns is the value its cache holds afterwards; it either sends
    nothing and leaves the client as it was, or sends one GET to
    [url + health_endpoint] and stamps the cache with the time of the
    call; and a probe finds the server healthy exactly when the GET is
    answered with status 200. *)
Theorem health_check_cache_invariant self now get :
  let r := NewsContentAgent.health_check self now get in
  NewsContentAgent.config (snd (fst r)) = NewsContentAgent.config self /\
  NewsContentAgent._healthy (snd (fst r)) = Some (fst (fst r)) /\
  ((snd r = [] /\ snd (fst r) = self) \/
   (snd r = [NetGet (NewsContentAgent.url (NewsContentAgent.config self) ++
                     NewsContentAgent.health_endpoint
                       (NewsContentAgent.config self))] /\
    NewsContentAgent._last_health_check (snd (fst r)) = now /\
    (fst (fst r) = true <->
     exists resp, get = GetResponse resp /\ status_code resp = 200))).
Proof.
  destruct (health_check_state self now get) as (Hc & Hh & Hcase).
  cbv zeta. repeat split; try assumption.
  destruct Hcase as [H | (Htr & Ht & Hr)]; [now left | right].
  repeat split; try assumption; rewrite Hr; apply probe_result_true.
Qed.

(** The client that [call_tool] leaves is the one its health check leaves:
    the POST attempts do not touch the cache. *)
Lemma call_tool_state self tool parameters now get post :
  snd (fst (NewsContentAgent.call_tool self tool parameters now get post)) =
  snd (fst (NewsContentAgent.health_check self now get)).
Proof.
  destruct (fst (fst (NewsContentAgent.health_check self now get))) eqn:Hh.
  - now rewrite (call_tool_healthy _ _ _ _ _ _ Hh).
  - now rewrite (call_tool_unhealthy _ _ _ _ _ _ Hh).
Qed.

(** X5: failed POST attempts do not invalidate the health cache.  After a
    call whose health check answered true, a second call less than 30 time
    units after that check sends no GET: whatever the first call's POSTs
    did and whatever the health path would answer now, it goes straight to
    the retry loop. *)
Theorem call_tool_keeps_healthy_cache self tool parameters t1 g1 post1
    tool2 parameters2 t2 g2 post2 :
  fst (fst (NewsContentAgent.health_check self t1 g1)) = true ->
  let self1 :=
    snd (fst (NewsContentAgent.call_tool self tool parameters t1 g1 post1)) in
  (t2 - NewsContentAgent._last_health_check self1 < 30)%Q ->
  NewsContentAgent.call_tool self1 tool2 parameters2 t2 g2 post2 =
    (fst (retry_loop
            (NewsContentAgent.max_retries (NewsContentAgent.config self))
            (NewsContentAgent.url (NewsContentAgent.config self) ++ "/"
               ++ tool2) parameters2 post2),
     self1,
     snd (retry_loop
            (NewsContentAgent.max_retries (NewsContentAgent.config self))
            (NewsContentAgent.url (NewsContentAgent.config self) ++ "/"
               ++ tool2) parameters2 post2)).
Proof.
  intros Hh self1 Hfresh. subst self1. rewrite call_tool_state in *.
  destruct (health_check_state self t1 g1) as (Hc & Hcache & _).
  cbv zeta in Hc, Hcache. rewrite Hh in Hcache.
  pose proof (health_check_cached _ t2 g2 true Hcache Hfresh) as E.
  rewrite call_tool_healthy by now rewrite E.
  now rewrite E, Hc.
Qed.

Lemma call_tool_keeps_healthy_cache_witness :
  let self1 :=
    snd (fst (NewsContentAgent.call_tool (NewsContentAgent.init news_config)
                "search_news" JNull 100%Q healthy_get always_500)) in
  NewsContentAgent.call_tool self1 "search_news" JNull 110%Q unreachable_get
    (timeout_then 200) =
    (fst (retry_loop 3 ("http://localhost:3001" ++ "/" ++ "search_news")
            JNull (timeout_then 200)),
     self1,
     snd (retry_loop 3 ("http://localhost:3001" ++ "/" ++ "search_news")
            JNull (timeout_then 200))).
Proof.
  apply (call_tool_keeps_healthy_cache (NewsContentAgent.init news_config)
           "search_news" JNull 100%Q healthy_get always_500
           "search_news" JNull 110%Q unreachable_get (timeout_then 200)).
  - reflexivity.
  - reflexivity.
Defined.

Lemma probes_run_trace url parameters (k : nat) :
  probes (run_trace url parameters k) = 0%nat.
Proof.
  unfold run_trace, probes. rewrite filter_app, length_app.
  assert (H : forall a,
             filter is_get (retry_prefix url parameters a k) = []).
  { induction k as [|k IH]; intros a; [reflexivity|]. simpl. apply IH. }
  now rewrite H.
Qed.

(** X6: an unhealthy verdict is served from the cache for 30 time units.
    After a call whose health check answered false, every call less than
    30 units after that check raises the "is not healthy" error without
    sending anything, even if the server would now answer; a call 30 units
    or more after it probes again and, on a 200 answer, runs the retry
    loop. *)
Theorem call_tool_unhealthy_until_ttl self tool parameters t1 g1 post1
    tool2 parameters2 t2 g2 post2 :
  fst (fst (NewsContentAgent.health_check self t1 g1)) = false ->
  let self1 :=
    snd (fst (NewsContentAgent.call_tool self tool parameters t1 g1 post1)) in
  let run2 :=
    NewsContentAgent.call_tool self1 tool2 parameters2 t2 g2 post2 in
  ((t2 - NewsContentAgent._last_health_check self1 < 30)%Q ->
   run2 =
     (Raised (MCPToolCallError
                (NewsContentAgent.not_healthy_msg
                   (NewsContentAgent.config self))),
      self1, [])) /\
  ((30 <= t2 - NewsContentAgent._last_health_check self1)%Q ->
   probe_result g2 = true ->
   fst (fst run2) =
     fst (retry_loop
            (NewsContentAgent.max_retries (NewsContentAgent.config self))
            (NewsContentAgent.url (NewsContentAgent.config self) ++ "/"
               ++ tool2) parameters2 post2) /\
   probes (snd run2) = 1%nat).
Proof.
  intros Hh self1 run2. subst run2 self1. rewrite call_tool_state.
  destruct (health_check_state self t1 g1) as (Hc & Hcache & _).
  cbv zeta in Hc, Hcache. rewrite Hh in Hcache.
  split.
  - intros Hfresh.
    pose proof (health_check_cached _ t2 g2 false Hcache Hfresh) as E.
    rewrite call_tool_unhealthy by now rewrite E.
    now rewrite E, Hc.
  - intros Hstale Hprobe.
    pose proof (health_check_probes _ t2 g2 (or_intror Hstale)) as E.
    rewrite call_tool_healthy by now rewrite E.
    rewrite E, Hc, Hprobe. cbn [fst snd]. split; [reflexivity|].
    unfold probes at 1. rewrite filter_app, length_app.
    cbn [filter is_get length]. fold (probes (snd (retry_loop
      (NewsContentAgent.max_retries (NewsContentAgent.config self))
      (NewsContentAgent.url (NewsContentAgent.config self) ++ "/" ++ tool2)
      parameters2 post2))).
    destruct (retry_loop_run
                (NewsContentAgent.max_retries (NewsContentAgent.config self))
                (NewsContentAgent.url (NewsContentAgent.config self) ++ "/"
                   ++ tool2) parameters2 post2)
      as [[_ E'] | (k & _ & _ & _ & E')]; rewrite E'; cbn [snd].
    + reflexivity.
    + now rewrite probes_run_trace.
Qed.

Lemma call_tool_unhealthy_until_ttl_witness :
  let self1 :=
    snd (fst (NewsContentAgent.call_tool (NewsContentAgent.init news_config)
                "search_news" JNull 100%Q unreachable_get always_500)) in
  NewsContentAgent.call_tool self1 "search_news" JNull 110%Q healthy_get
    (timeout_then 200) =
    (Raised (MCPToolCallError
               (NewsContentAgent.not_healthy_msg news_config)),
     self1, []).
Proof.
  destruct (call_tool_unhealthy_until_ttl (NewsContentAgent.init news_config)
              "search_news" JNull 100%Q unreachable_get always_500
              "search_news" JNull 110%Q healthy_get (timeout_then 200))
    as [H _].
  - reflexivity.
  - apply H. reflexivity.
Defined.

(** * File names *)

Section FileNames.

Import ImageGenerator.

Variable isalnum_other : ascii -> bool.
Variable isspace_other : ascii -> bool.

Local Abbreviation isalnum := (isalnum isalnum_other).
Local Abbreviation isspace := (isspace isspace_other).
Local Abbreviation split_from := (split_from isspace_other).
Local Abbreviation clean_prompt :=
  (clean_prompt isalnum_other isspace_other).

Lemma length_take (n : nat) (s : string) : (String.length (take n s) <= n)%nat.
Proof.
  revert s. induction n as [|n IH]; intros [|c s]; simpl; try lia.
  specialize (IH s). lia.
Qed.

Lemma string_forall_take (p : ascii -> bool) (n : nat) (s : string) :
  string_forall p s = true -> string_forall p (take n s) = true.
Proof.
  revert s. induction n as [|n IH]; intros [|c s]; simpl; try reflexivity.
  intros H. apply andb_true_iff in H as [Hc Hs]. now rewrite Hc, IH.
Qed.

Lemma separated_take (n : nat) (s : string) : forall b,
  separated b s = true -> separated b (take n s) = true.
Proof.
  revert s. induction n as [|n IH]; intros [|c s] b; simpl; try reflexivity.
  destruct (is_underscore c).
  - intros H. apply andb_true_iff in H as [Hb Hs]. now rewrite Hb, IH.
  - apply IH.
Qed.

Lemma string_forall_filter (p : ascii -> bool) (s : string) :
  string_forall p (string_filter p s) = true.
Proof.
  induction s as [|c s IH]; simpl; [reflexivity|].
  destruct (p c) eqn:E; simpl; [now rewrite E|exact IH].
Qed.

Lemma isalnum_not_underscore (c : ascii) :
  isalnum c = true -> is_underscore c = false.
Proof.
  unfold ImageGenerator.isalnum, is_underscore.
  destruct (code c =? 95)%N eqn:E; [|reflexivity].
  apply N.eqb_eq in E. rewrite E. discriminate.
Qed.

(** The words of [split] are not empty and hold no whitespace: with [q]
    true of every character of the text that is not whitespace, [q] is
    true of every character of every word. *)
Lemma split_from_words (q : ascii -> bool) (s : string) : forall word,
  string_forall (fun c => isspace c || q c) s = true ->
  string_forall q word = true ->
  Forall (fun w => w <> EmptyString /\ string_forall q w = true)
    (split_from word s).
Proof.
  induction s as [|c s IH]; intros word Hs Hw; simpl.
  - destruct word; constructor;
      [split; [discriminate | exact Hw] | constructor].
  - simpl in Hs. apply andb_true_iff in Hs as [Hc Hs].
    destruct (ImageGenerator.isspace isspace_other c) eqn:E.
    + destruct word.
      * now apply IH.
      * constructor; [split; [discriminate | exact Hw] | now apply IH].
    + apply IH; [exact Hs|].
      rewrite string_forall_append, Hw. simpl in *. now rewrite Hc.
Qed.

Lemma separated_word (w rest : string) (b : bool) :
  w <> EmptyString -> string_forall isalnum w = true ->
  separated b (w ++ rest) = separated false rest.
Proof.
  revert b. induction w as [|c w IH]; intros b Hne Hw; [congruence|].
  simpl in *. apply andb_true_iff in Hw as [Hc Hw].
  rewrite (isalnum_not_underscore c Hc).
  destruct w as [|c' w]; [reflexivity|].
  apply IH; [discriminate | exact Hw].
Qed.

Lemma concat_words (ws : list string) :
  Forall (fun w => w <> EmptyString /\ string_forall isalnum w = true) ws ->
  separated true (String.concat "_" ws) = true /\
  string_forall (fun c => isalnum c || is_underscore c)
    (String.concat "_" ws) = true.
Proof.
  induction ws as [|w ws IH]; intros H; [now split|].
  inversion H as [|? ? [Hne Hw] Hws]; subst.
  assert (Hw' : string_forall (fun c => isalnum c || is_underscore c) w
                = true).
  { apply (string_forall_impl isalnum); [|exact Hw].
    intros c Hc. now rewrite Hc. }
  destruct ws as [|w' ws].
  - simpl. split; [|exact Hw'].
    rewrite <- (append_nil_r w). now rewrite separated_word.
  - destruct (IH Hws) as [IH1 IH2].
    change (String.concat "_" (w :: w' :: ws))
      with (w ++ "_" ++ String.concat "_" (w' :: ws)).
    split.
    + rewrite separated_word by assumption. simpl. exact IH1.
    + rewrite string_forall_append, Hw'. simpl. exact IH2.
Qed.

Lemma is_subsequence_nil (s : string) : is_subsequence EmptyString s = true.
Proof. now destruct s. Qed.

Lemma is_subsequence_tail_skip (s : string) :
  (forall x a, is_subsequence (String x a) s = true ->
               is_subsequence a s = true) /\
  (forall c a, is_subsequence a s = true ->
               is_subsequence a (String c s) = true).
Proof.
  induction s as [|z s [IHtail IHskip]].
  - split; [discriminate|].
    intros c [|x a]; [reflexivity | discriminate].
  - assert (Htail : forall x a, is_subsequence (String x a) (String z s) = true
                      -> is_subsequence a (String z s) = true).
    { intros x a. cbn [is_subsequence].
      destruct (Ascii.eqb x z); intros H.
      - now apply IHskip.
      - apply IHskip. now apply (IHtail x). }
    split; [exact Htail|].
    intros c [|x a] H; [reflexivity|].
    change (is_subsequence (String x a) (String c (String z s)))
      with (if Ascii.eqb x c then is_subsequence a (String z s)
            else is_subsequence (String x a) (String z s)).
    destruct (Ascii.eqb x c); [now apply (Htail x) | exact H].
Qed.

Lemma is_subsequence_skip (c : ascii) (a s : string) :
  is_subsequence a s = true -> is_subsequence a (String c s) = true.
Proof. apply is_subsequence_tail_skip. Qed.

Lemma is_subsequence_cons (c : ascii) (a s : string) :
  is_subsequence a s = true ->
  is_subsequence (String c a) (String c s) = true.
Proof. intros H. cbn [is_subsequence]. now rewrite Ascii.eqb_refl. Qed.

Lemma is_subsequence_trans (c : string) : forall a b,
  is_subsequence a b = true -> is_subsequence b c = true ->
  is_subsequence a c = true.
Proof.
  induction c as [|z c IH]; intros a b Hab Hbc.
  - destruct b; [|discriminate]. destruct a; [reflexivity | discriminate].
  - destruct b as [|y b]; [destruct a; [reflexivity | discriminate]|].
    cbn [is_subsequence] in Hbc.
    destruct (Ascii.eqb y z) eqn:Eyz.
    + apply Ascii.eqb_eq in Eyz. subst z.
      destruct a as [|x a]; [reflexivity|].
      cbn [is_subsequence] in Hab |- *.
      destruct (Ascii.eqb x y); [now apply (IH a b)|].
      now apply (IH (String x a) b).
    + apply is_subsequence_skip. now apply (IH a (String y b)).
Qed.

Lemma take_is_subsequence (n : nat) (s : string) :
  is_subsequence (take n s) s = true.
Proof.
  revert s. induction n as [|n IH]; intros [|c s]; try reflexivity.
  cbn [take]. now apply is_subsequence_cons.
Qed.

Lemma remove_from_is_subsequence (old s : string) : forall skip,
  is_subsequence (remove_from old skip s) s = true.
Proof.
  induction s as [|c s IH]; intros skip; [reflexivity|].
  cbn [remove_from]. destruct skip as [|skip].
  - destruct (literal old (String c s)).
    + apply is_subsequence_skip, IH.
    + apply is_subsequence_cons, IH.
  - apply is_subsequence_skip, IH.
Qed.

(** Nothing is removed from a string that does not hold [old]. *)
Lemma remove_absent (old s : string) :
  contains old s = false -> remove old s = s.
Proof.
  unfold remove. induction s as [|c s IH]; intros H; [reflexivity|].
  cbn [contains] in H. cbn [remove_from].
  destruct (literal old (String c s)); [discriminate|].
  now rewrite IH.
Qed.

(** The part of a file name that comes from the image id is made of
    characters of the id, in their order. *)
Lemma clean_id_is_subsequence (id : string) :
  is_subsequence (take 8 (remove "gemini_" (remove "img_" id))) id = true.
Proof.
  apply (is_subsequence_trans _ _ (remove "gemini_" (remove "img_" id)));
    [apply take_is_subsequence|].
  apply (is_subsequence_trans _ _ (remove "img_" id));
    apply remove_from_is_subsequence.
Qed.

(** X8: the part of a file name that comes from the prompt has at most 30
    characters, each a letter or digit ([isalnum]) or an underscore; it
    does not start with an underscore and has no two underscores in a
    row.  With an image id that is false the file name is the time stamp,
    that part and the suffix, joined by underscores and ended by [.png].
    Otherwise the id is a string that is not empty, and the name has one
    more part, between the prompt and the suffix and joined to them by
    underscores: the first 8 characters of the id with its [img_] and then
    its [gemini_] taken out; these are at most 8 characters of the id, in
    their order, and the first 8 of the id itself when it holds neither
    word. *)
Theorem generate_filename_shape (timestamp prompt : string)
    (image_id : JSON) (suffix filename : string) :
  generate_filename isalnum_other isspace_other timestamp prompt image_id
    suffix = Some filename ->
  (String.length (clean_prompt prompt) <= 30)%nat /\
  string_forall (fun c => isalnum c || is_underscore c) (clean_prompt prompt)
    = true /\
  separated true (clean_prompt prompt) = true /\
  ((truthy image_id = false /\
    filename = timestamp ++ "_" ++ clean_prompt prompt ++ "_" ++ suffix
                 ++ ".png") \/
   (exists id clean_id,
      image_id = JStr id /\ id <> EmptyString /\
      filename = timestamp ++ "_" ++ clean_prompt prompt ++ "_" ++ clean_id
                   ++ "_" ++ suffix ++ ".png" /\
      clean_id = take 8 (remove "gemini_" (remove "img_" id)) /\
      (String.length clean_id <= 8)%nat /\
      is_subsequence clean_id id = true /\
      (contains "img_" id = false -> contains "gemini_" id = false ->
       clean_id = take 8 id))).
Proof.
  intros Hname.
  assert (Hwords :
    Forall (fun w => w <> EmptyString /\ string_forall isalnum w = true)
      (split isspace_other
         (string_filter (fun c => isalnum c || isspace c) prompt))).
  { apply split_from_words; [|reflexivity].
    apply (string_forall_impl (fun c => isalnum c || isspace c)).
    - intros c H. now rewrite orb_comm.
    - apply string_forall_filter. }
  destruct (concat_words _ Hwords) as [Hsep Hchars].
  split; [apply length_take|].
  split; [now apply string_forall_take|].
  split; [now apply separated_take|].
  unfold generate_filename in Hname.
  destruct (truthy image_id) eqn:Ht.
  - right. destruct image_id as [| | |id| |]; try discriminate.
    injection Hname as <-.
    exists id, (take 8 (remove "gemini_" (remove "img_" id))).
    split; [reflexivity|].
    split; [intros ->; discriminate|].
    split; [reflexivity|]. split; [reflexivity|].
    split; [apply length_take|].
    split; [apply clean_id_is_subsequence|].
    intros Himg Hgem. now rewrite (remove_absent _ _ Himg), remove_absent.
  - left. injection Hname as <-. now split.
Qed.

End FileNames.

(** * Saving the images of a response *)

Section ProcessResponse.

Import ImageGenerator.

Variable isalnum_other : ascii -> bool.
Variable isspace_other : ascii -> bool.
Variable json_loads : string -> LoadsOutcome.
Variable clock : nat -> string.
Variable write_ok : nat -> string -> list Z -> bool.

Local Abbreviation generate_filename :=
  (generate_filename isalnum_other isspace_other).
Local Abbreviation save_data_url_image := (save_data_url_image write_ok).
Local Abbreviation save_data_urls :=
  (save_data_urls isalnum_other isspace_other clock write_ok).
Local Abbreviation save_potential_images :=
  (save_potential_images isalnum_other isspace_other clock write_ok).
Local Abbreviation save_images :=
  (save_images isalnum_other isspace_other clock write_ok).
Local Abbreviation process_response_and_save :=
  (process_response_and_save isalnum_other isspace_other json_loads clock
     write_ok).
Local Abbreviation files_writable :=
  (files_writable isalnum_other isspace_other clock write_ok).

Lemma generate_filename_ok timestamp prompt image_id suffix :
  id_ok image_id = true ->
  exists filename,
    generate_filename timestamp prompt image_id suffix = Some filename.
Proof.
  unfold ImageGenerator.generate_filename, id_ok.
  destruct image_id as [| | |id| |]; simpl; intros H;
    try (apply negb_true_iff in H; rewrite H); try (eexists; reflexivity).
  destruct (negb _); eexists; reflexivity.
Qed.

Lemma generate_filename_raises timestamp prompt image_id suffix :
  id_ok image_id = false ->
  generate_filename timestamp prompt image_id suffix = None.
Proof.
  unfold ImageGenerator.generate_filename, id_ok.
  destruct image_id as [| | |id| |]; simpl; intros H;
    try discriminate; apply negb_false_iff in H; now rewrite H.
Qed.

(** When every file can be named and written, the loop over the data
    URLs saves the decoding of the base64 part of each URL that has
    one. *)
Lemma save_data_urls_blobs prompt json_text image_id count :
  id_ok image_id = true ->
  files_writable prompt image_id ->
  forall data_urls i,
    map snd (save_data_urls prompt json_text image_id count i data_urls) =
    collect (fun u => b64decode (base64_part u)) data_urls.
Proof.
  intros Hid Hw. induction data_urls as [|u urls IH]; intros i;
    [reflexivity|].
  cbn [ImageGenerator.save_data_urls collect].
  destruct (generate_filename_ok (clock i) prompt image_id
              (data_url_suffix json_text count i) Hid) as [f Hf].
  rewrite Hf. unfold ImageGenerator.save_data_url_image.
  destruct (b64decode (base64_part u)) as [d|]; [|apply IH].
  rewrite (Hw _ _ _ d Hf). cbn [map snd]. now rewrite IH.
Qed.

(** Whatever the naming and the writing do, a file saved by the loop over
    the data URLs holds the decoding of the base64 part of one of them,
    and its writing went through. *)
Lemma save_data_urls_sound prompt json_text image_id count name image :
  forall data_urls i,
    In (name, image)
      (save_data_urls prompt json_text image_id count i data_urls) ->
    (exists u, In u data_urls /\ b64decode (base64_part u) = Some image) /\
    exists k, write_ok k name image = true.
Proof.
  induction data_urls as [|u urls IH]; intros i; [contradiction|].
  cbn [ImageGenerator.save_data_urls].
  assert (Hnext : forall k,
            In (name, image)
              (save_data_urls prompt json_text image_id count k urls) ->
            (exists u', In u' (u :: urls) /\
                        b64decode (base64_part u') = Some image) /\
            exists k', write_ok k' name image = true).
  { intros k H. destruct (IH k H) as [(u' & Hu & Hd) Hk].
    split; [exists u'; split; [now right | exact Hd] | exact Hk]. }
  destruct (generate_filename _ _ _ _) as [f|]; [|contradiction].
  unfold ImageGenerator.save_data_url_image.
  destruct (b64decode (base64_part u)) as [d|] eqn:Hd; [|apply Hnext].
  destruct (write_ok i f d) eqn:Hw; [|apply Hnext].
  intros [[= <- <-]|H]; [|exact (Hnext _ H)].
  split; [exists u; split; [now left | exact Hd] | now exists i].
Qed.

Lemma save_data_urls_length prompt json_text image_id count :
  forall data_urls i,
    (length (save_data_urls prompt json_text image_id count i data_urls)
     <= length data_urls)%nat.
Proof.
  induction data_urls as [|u urls IH]; intros i; [reflexivity|].
  cbn [ImageGenerator.save_data_urls].
  destruct (generate_filename _ _ _ _) as [f|]; [|simpl; lia].
  destruct (save_data_url_image i u f); cbn [length];
    specialize (IH (S i)); lia.
Qed.

(** When every file can be named and written, the fallback saves the
    decoding of each candidate that decodes to more than 1000 bytes. *)
Lemma save_potential_images_blobs prompt image_id :
  id_ok image_id = true ->
  files_writable prompt image_id ->
  forall candidates i,
    map snd (save_potential_images prompt image_id i candidates) =
    collect large_image candidates.
Proof.
  intros Hid Hw. induction candidates as [|b cs IH]; intros i;
    [reflexivity|].
  cbn [ImageGenerator.save_potential_images collect].
  unfold large_image at 1.
  destruct (b64decode b) as [d|]; [|apply IH].
  destruct (1000 <? length d)%nat; [|apply IH].
  destruct (generate_filename_ok (clock i) prompt image_id
              ("raw_" ++ str (Z.of_nat i + 1)) Hid) as [f Hf].
  rewrite Hf, (Hw _ _ _ d Hf). cbn [map snd]. now rewrite IH.
Qed.

Lemma save_potential_images_sound prompt image_id name image :
  forall candidates i,
    In (name, image) (save_potential_images prompt image_id i candidates) ->
    (exists s, In s candidates /\ large_image s = Some image) /\
    exists k, write_ok k name image = true.
Proof.
  induction candidates as [|b cs IH]; intros i; [contradiction|].
  cbn [ImageGenerator.save_potential_images].
  assert (Hnext : forall k,
            In (name, image) (save_potential_images prompt image_id k cs) ->
            (exists s, In s (b :: cs) /\ large_image s = Some image) /\
            exists k', write_ok k' name image = true).
  { intros k H. destruct (IH k H) as [(s & Hs & Hd) Hk].
    split; [exists s; split; [now right | exact Hd] | exact Hk]. }
  destruct (b64decode b) as [d|] eqn:Hd; [|apply Hnext].
  destruct (1000 <? length d)%nat eqn:Hl; [|apply Hnext].
  destruct (generate_filename _ _ _ _) as [f|]; [|apply Hnext].
  destruct (write_ok i f d) eqn:Hw; [|apply Hnext].
  intros [[= <- <-]|H]; [|exact (Hnext _ H)].
  split; [|now exists i].
  exists b. split; [now left|]. unfold large_image. now rewrite Hd, Hl.
Qed.

Lemma save_potential_images_length prompt image_id :
  forall candidates i,
    (length (save_potential_images prompt image_id i candidates)
     <= length candidates)%nat.
Proof.
  induction candidates as [|b cs IH]; intros i; [reflexivity|].
  cbn [ImageGenerator.save_potential_images].
  pose proof (IH (S i)) as H.
  destruct (b64decode b) as [d|]; [|simpl; lia].
  destruct (1000 <? length d)%nat; [|simpl; lia].
  destruct (generate_filename _ _ _ _) as [f|]; [|simpl; lia].
  destruct (write_ok i f d); simpl; lia.
Qed.

Lemma save_potential_images_bad_id prompt image_id :
  id_ok image_id = false ->
  forall candidates i,
    save_potential_images prompt image_id i candidates = [].
Proof.
  intros Hid. induction candidates as [|b cs IH]; intros i; [reflexivity|].
  cbn [ImageGenerator.save_potential_images].
  destruct (b64decode b) as [d|]; [|apply IH].
  destruct (1000 <? length d)%nat; [|apply IH].
  rewrite generate_filename_raises by exact Hid. apply IH.
Qed.

(** With an id that [generate_filename] accepts and a file system that
    takes the files it names, the contents of the files saved are the
    blobs of the image search. *)
Lemma save_images_blobs prompt json_text image_id :
  id_ok image_id = true ->
  files_writable prompt image_id ->
  map snd (save_images prompt json_text image_id) = found_images json_text.
Proof.
  intros Hid Hw. unfold ImageGenerator.save_images, found_images.
  cbv zeta. destruct (extract_image_urls json_text) as [|u urls].
  - now apply save_potential_images_blobs.
  - exact (save_data_urls_blobs prompt json_text image_id _ Hid Hw
             (u :: urls) 0%nat).
Qed.

(** In any case a file saved holds one of those blobs, and was
    written. *)
Lemma save_images_sound prompt json_text image_id name image :
  In (name, image) (save_images prompt json_text image_id) ->
  In image (found_images json_text) /\
  exists k, write_ok k name image = true.
Proof.
  unfold ImageGenerator.save_images, found_images. cbv zeta.
  destruct (extract_image_urls json_text) as [|u urls]; intros H.
  - apply save_potential_images_sound in H as [(s & Hs & Hd) Hk].
    split; [|exact Hk]. apply in_collect. now exists s.
  - apply save_data_urls_sound in H as [(u' & Hu & Hd) Hk].
    split; [|exact Hk]. apply in_collect. now exists u'.
Qed.

Lemma save_images_bad_id prompt json_text image_id :
  id_ok image_id = false -> save_images prompt json_text image_id = [].
Proof.
  intros Hid. unfold ImageGenerator.save_images.
  destruct (extract_image_urls json_text) as [|u urls].
  - now apply save_potential_images_bad_id.
  - cbn [ImageGenerator.save_data_urls].
    now rewrite generate_filename_raises.
Qed.

(** What the function does on a response of the shape it reads. *)
Lemma process_response_wrapped result prompt json_text :
  wraps result json_text ->
  process_response_and_save result prompt =
    match
      match json_loads json_text with
      | Loaded image_data => read_metadata image_data
      | LoadsDecodeError => Some JNull
      | LoadsOtherError => None
      end
    with
    | Some image_id => save_images prompt json_text image_id
    | None => []
    end.
Proof.
  intros (fields & c & cf & -> & Hc & Hshape & Htext).
  unfold ImageGenerator.process_response_and_save. rewrite Hc.
  destruct Hshape as [-> | [others ->]].
  - destruct cf as [|kv cf]; [discriminate|].
    cbn [truthy length Nat.eqb negb]. now rewrite Htext.
  - cbn [truthy length Nat.eqb negb]. now rewrite Htext.
Qed.

(** On a response of that shape the function saves nothing, or runs the
    image search with the id that the metadata block left. *)
Lemma process_response_cases result prompt json_text :
  wraps result json_text ->
  process_response_and_save result prompt = [] \/
  exists image_id,
    process_response_and_save result prompt =
      save_images prompt json_text image_id.
Proof.
  intros Hwraps. rewrite (process_response_wrapped _ _ _ Hwraps).
  destruct (json_loads json_text) as [v| |]; [| |now left].
  - destruct (read_metadata v) as [id|]; [right; now exists id | now left].
  - right. now exists JNull.
Qed.

(** The image search runs with the id that the metadata block leaves. *)
Lemma process_response_leaves result prompt json_text image_id :
  wraps result json_text ->
  metadata_leaves json_loads json_text image_id ->
  process_response_and_save result prompt =
    save_images prompt json_text image_id.
Proof.
  intros Hwraps H. rewrite (process_response_wrapped _ _ _ Hwraps).
  now destruct H as [[-> ->] | (v & -> & ->)].
Qed.

(** When the metadata block lets the search run with an id that
    [generate_filename] accepts and the files it names can be written,
    the contents of the files saved are the blobs of the image search. *)
Lemma process_response_blobs result prompt json_text image_id :
  wraps result json_text ->
  metadata_leaves json_loads json_text image_id ->
  id_ok image_id = true ->
  files_writable prompt image_id ->
  map snd (process_response_and_save result prompt) =
    found_images json_text.
Proof.
  intros Hwraps H Hid Hw.
  rewrite (process_response_leaves _ _ _ _ Hwraps H).
  now apply save_images_blobs.
Qed.

(** X9: [process_response_and_save] saves something only for a response
    of one shape: an object whose [content] is an object, or a list whose
    first item is an object, holding a string under [text] that
    [json.loads] either parses or rejects as invalid JSON, and on which
    the metadata block leaves an image id that is false or a string.
    Every file it then saves holds a blob of the image search on that
    string and was written; and where the files named for this prompt and
    id can be written, the contents of the files are exactly the blobs of
    the image search, in their order. *)
Theorem process_response_needs_shape (result : JSON) (prompt : string) :
  process_response_and_save result prompt <> [] ->
  exists json_text image_id,
    wraps result json_text /\
    json_loads json_text <> LoadsOtherError /\
    metadata_leaves json_loads json_text image_id /\
    id_ok image_id = true /\
    (forall name image,
       In (name, image) (process_response_and_save result prompt) ->
       In image (found_images json_text) /\
       exists k, write_ok k name image = true) /\
    (files_writable prompt image_id ->
     map snd (process_response_and_save result prompt) =
       found_images json_text).
Proof.
  intros Hsaved.
  assert (Hwraps : exists json_text, wraps result json_text).
  { unfold ImageGenerator.process_response_and_save in Hsaved.
    destruct result as [| | | | |fields]; try congruence.
    destruct (lookup "content" fields) as [c|] eqn:Hc; [|congruence].
    destruct (truthy c) eqn:Ht; [|congruence].
    assert (Hcontent : exists cf,
              (c = JObj cf \/ exists others, c = JArr (JObj cf :: others)) /\
              exists json_text, lookup "text" cf = Some (JStr json_text)).
    { destruct c as [| | | |items|cf]; try congruence.
      - destruct items as [|first others]; [discriminate|].
        destruct first as [| | | | |cf]; try congruence.
        exists cf. split; [right; now exists others|].
        destruct (lookup "text" cf) as [[| | |t| |]|]; try congruence.
        now exists t.
      - exists cf. split; [now left|].
        destruct (lookup "text" cf) as [[| | |t| |]|]; try congruence.
        now exists t. }
    destruct Hcontent as (cf & Hshape & t & Htext).
    exists t, fields, c, cf. auto. }
  destruct Hwraps as [json_text Hwraps]. exists json_text.
  rewrite (process_response_wrapped _ _ _ Hwraps) in *.
  destruct (json_loads json_text) as [v| |] eqn:Hloads; [| |congruence].
  - destruct (read_metadata v) as [id|] eqn:Hmeta; [|congruence].
    exists id. split; [exact Hwraps|]. split; [discriminate|].
    split; [right; now exists v|].
    assert (Hid : id_ok id = true).
    { destruct (id_ok id) eqn:Hid; [reflexivity|].
      now rewrite save_images_bad_id in Hsaved. }
    split; [exact Hid|].
    split; [intros name image; apply save_images_sound|].
    intros Hw. now apply save_images_blobs.
  - exists JNull. split; [exact Hwraps|]. split; [discriminate|].
    split; [now left|]. split; [reflexivity|].
    split; [intros name image; apply save_images_sound|].
    intros Hw. now apply save_images_blobs.
Qed.

(** X10: on a response of that shape, a text that is not valid JSON does
    not stop the search, which runs with no image id; and when the text
    parses and the metadata block runs through, the search runs with the
    id it leaves.  In both cases, with an id that is false or a string
    and a file system that takes the files named for this prompt and id,
    the files saved hold the blobs of the image search on the text, one
    file for each and in their order. *)
Theorem process_response_saves_search (result : JSON) (prompt : string)
    (json_text : string) (image_id : JSON) :
  wraps result json_text ->
  metadata_leaves json_loads json_text image_id ->
  id_ok image_id = true ->
  files_writable prompt image_id ->
  map snd (process_response_and_save result prompt) =
    found_images json_text.
Proof.
  intros Hwraps H Hid Hw.
  rewrite (process_response_wrapped _ _ _ Hwraps).
  destruct H as [[-> ->] | (v & -> & ->)]; now apply save_images_blobs.
Qed.

(** X11: the metadata block can discard the images.  On a response of the
    shape above whose text parses to an object, nothing is saved when the
    [image] member is not an object, or when it is an object whose [id] is
    neither false nor a string: whatever data URLs the text holds. *)
Theorem process_response_metadata_discards (result : JSON) (prompt : string)
    (json_text : string) (fields : list (string * JSON)) (image : JSON) :
  wraps result json_text ->
  json_loads json_text = Loaded (JObj fields) ->
  lookup "image" fields = Some image ->
  is_object image = false \/
  (exists img image_id,
     image = JObj img /\ lookup "id" img = Some image_id /\
     id_ok image_id = false) ->
  process_response_and_save result prompt = [].
Proof.
  intros Hwraps Hloads Himage Hbad.
  rewrite (process_response_wrapped _ _ _ Hwraps), Hloads.
  cbn [read_metadata]. rewrite Himage.
  destruct Hbad as [Hobj | (img & id & -> & Hid & Hbad)].
  - destruct image; try reflexivity. discriminate.
  - rewrite Hid. destruct (_ && _); [|reflexivity].
    now apply save_images_bad_id.
Qed.

(** X14: data URLs take precedence over the fallback, whatever the
    metadata, the naming and the writing do.  When the text of a response
    holds a data-URL match, every file saved holds the decoding of the
    base64 part of one of the matches, there are no more files than
    matches, and nothing is saved when no match decodes: the fallback is
    not tried, whatever base64 runs the text holds.  When the text holds
    no match, at most three files are saved, each the decoding, of more
    than 1000 bytes, of one of the first three fallback candidates. *)
Theorem data_urls_precede_fallback (result : JSON) (prompt : string)
    (json_text : string) :
  wraps result json_text ->
  (extract_image_urls json_text <> [] ->
   (forall name image,
      In (name, image) (process_response_and_save result prompt) ->
      exists u, In u (extract_image_urls json_text) /\
                b64decode (base64_part u) = Some image) /\
   (length (process_response_and_save result prompt) <=
    length (extract_image_urls json_text))%nat /\
   ((forall u, In u (extract_image_urls json_text) ->
               b64decode (base64_part u) = None) ->
    process_response_and_save result prompt = [])) /\
  (extract_image_urls json_text = [] ->
   (forall name image,
      In (name, image) (process_response_and_save result prompt) ->
      exists s, In s (firstn 3 (findall match_base64 json_text)) /\
                b64decode s = Some image /\ (1000 < length image)%nat) /\
   (length (process_response_and_save result prompt) <= 3)%nat).
Proof.
  intros Hwraps.
  destruct (process_response_cases _ prompt _ Hwraps) as [-> | [id ->]].
  { split; intros _.
    - split; [contradiction|]. split; [simpl; lia | reflexivity].
    - split; [contradiction | simpl; lia]. }
  unfold ImageGenerator.save_images.
  destruct (extract_image_urls json_text) as [|u urls] eqn:E; split;
    try congruence; intros _.
  - split.
    + intros name image H.
      apply save_potential_images_sound in H as [(s & Hs & Hd) _].
      apply large_image_some in Hd. now exists s.
    + etransitivity; [apply save_potential_images_length|].
      rewrite length_firstn. lia.
  - assert (Hin : forall name image,
              In (name, image)
                (save_data_urls prompt json_text id (length (u :: urls)) 0
                   (u :: urls)) ->
              exists u', In u' (u :: urls) /\
                         b64decode (base64_part u') = Some image).
    { intros name image H. now apply save_data_urls_sound in H as [H _]. }
    split; [exact Hin|]. split; [apply save_data_urls_length|].
    intros Hnone.
    destruct (save_data_urls prompt json_text id (length (u :: urls)) 0
                (u :: urls)) as [|[name image] saved]; [reflexivity|].
    destruct (Hin name image (or_introl eq_refl)) as (u' & Hu & Hd).
    rewrite (Hnone u' Hu) in Hd. discriminate.
Qed.

End ProcessResponse.

(** * What the scans return *)

Section ScanSoundness.

Import ImageGenerator.

Lemma literal_inv (lit s rest : string) :
  literal lit s = Some rest -> s = lit ++ rest.
Proof.
  revert s. induction lit as [|a lit IH]; intros s; simpl.
  - now intros [= ->].
  - destruct s as [|c s]; [discriminate|].
    destruct (Ascii.eqb a c) eqn:E; [|discriminate].
    apply Ascii.eqb_eq in E. subst c. intros H. now rewrite (IH _ H).
Qed.

Lemma take_drop (n : nat) (s : string) : take n s ++ drop n s = s.
Proof.
  revert s. induction n as [|n IH]; intros [|c s]; simpl; try reflexivity.
  now rewrite IH.
Qed.

Lemma run_length_take (p : ascii -> bool) (s : string) :
  string_forall p (take (run_length p s) s) = true /\
  String.length (take (run_length p s) s) = run_length p s /\
  starts_with p (drop (run_length p s) s) = false.
Proof.
  induction s as [|c s (IH1 & IH2 & IH3)]; simpl; [now repeat split|].
  destruct (p c) eqn:E; simpl.
  - rewrite E, IH1, IH2. now repeat split.
  - now repeat split.
Qed.

(** A text splits at the end of a greedy class. *)
Lemma run_length_split (p : ascii -> bool) (s : string) :
  exists a b,
    s = a ++ b /\ String.length a = run_length p s /\
    string_forall p a = true /\ starts_with p b = false.
Proof.
  exists (take (run_length p s) s), (drop (run_length p s) s).
  destruct (run_length_take p s) as (H1 & H2 & H3).
  now rewrite take_drop.
Qed.

Lemma length_zero (s : string) :
  (String.length s =? 0)%nat = false -> s <> EmptyString.
Proof. destruct s; [discriminate | intros _; discriminate]. Qed.

(** Where the data-URL pattern matches, a data URL starts. *)
Lemma match_data_url_inv (s : string) (n : nat) :
  match_data_url s = Some n ->
  exists subtype payload post,
    s = data_url subtype payload ++ post /\
    n = String.length (data_url subtype payload) /\
    subtype <> EmptyString /\
    string_forall not_semicolon subtype = true /\
    payload <> EmptyString /\
    string_forall is_b64_or_pad payload = true /\
    starts_with is_b64_or_pad post = false.
Proof.
  unfold match_data_url.
  destruct (literal "data:image/" s) as [s1|] eqn:L1; [|discriminate].
  apply literal_inv in L1.
  destruct (run_length_split not_semicolon s1)
    as (subtype & r1 & E1 & Hl1 & Hsub & _).
  rewrite <- Hl1.
  destruct (String.length subtype =? 0)%nat eqn:Z1; [discriminate|].
  rewrite E1 at 1. rewrite drop_append.
  destruct (literal ";base64," r1) as [s2|] eqn:L2; [|discriminate].
  apply literal_inv in L2.
  destruct (run_length_split is_b64_or_pad s2)
    as (payload & post & E2 & Hl2 & Hpay & Hpost).
  rewrite <- Hl2.
  destruct (String.length payload =? 0)%nat eqn:Z2; [discriminate|].
  intros [= <-]. exists subtype, payload, post.
  repeat split; try assumption; try now apply length_zero.
  - unfold data_url. rewrite L1, E1, L2, E2. now rewrite !append_assoc.
  - unfold data_url. rewrite !length_append. simpl. lia.
Qed.

Lemma is_pad_eq (c : ascii) : is_pad c = true -> c = "="%char.
Proof.
  unfold is_pad, code. intros H. apply N.eqb_eq in H.
  rewrite <- (ascii_N_embedding c), H. reflexivity.
Qed.

(** Where the fallback pattern matches, a run of at least 100 characters
    of the alphabet starts, followed by the padding it takes. *)
Lemma match_base64_inv (s : string) (n : nat) :
  match_base64 s = Some n ->
  exists body pad post,
    s = (body ++ pad) ++ post /\
    n = String.length (body ++ pad) /\
    string_forall is_b64_char body = true /\
    (100 <= String.length body)%nat /\
    is_padding pad /\
    starts_with is_b64_char (pad ++ post) = false /\
    (pad = "==" \/ starts_with is_pad post = false).
Proof.
  unfold match_base64.
  destruct (run_length_split is_b64_char s)
    as (body & rest & E & Hl & Hbody & Hrest).
  rewrite <- Hl.
  destruct (String.length body <? 100)%nat eqn:Hlen; [discriminate|].
  apply Nat.ltb_ge in Hlen.
  rewrite E at 1. rewrite drop_append. intros [= <-].
  assert (Hpad : exists pad post,
            rest = pad ++ post /\ is_padding pad /\
            String.length pad = Nat.min 2 (run_length is_pad rest) /\
            (pad = "==" \/ starts_with is_pad post = false)).
  { destruct rest as [|c1 rest].
    - exists EmptyString, EmptyString. repeat split; [now left | now right].
    - simpl. destruct (is_pad c1) eqn:P1.
      + apply is_pad_eq in P1. subst c1.
        destruct rest as [|c2 rest].
        * exists "=", EmptyString.
          repeat split; [right; now left | now right].
        * simpl. destruct (is_pad c2) eqn:P2.
          -- apply is_pad_eq in P2. subst c2.
             exists "==", rest.
             repeat split; [right; now right | now left].
          -- exists "=", (String c2 rest).
             repeat split; [right; now left | now right].
      + exists EmptyString, (String c1 rest).
        repeat split; [now left | now right]. }
  destruct Hpad as (pad & post & Er & Hpad & Hlp & Hend).
  exists body, pad, post.
  repeat split; try assumption.
  - now rewrite E, Er, append_assoc.
  - now rewrite length_append, Hlp.
  - now rewrite <- Er.
Qed.

(** Every string [re.findall] returns is a match of the pattern at some
    position of the text. *)
Lemma findall_from_in (m : string -> option nat) (x : string) (s : string) :
  forall skip,
    In x (findall_from m skip s) ->
    exists pre rest n, s = pre ++ rest /\ m rest = Some n /\ x = take n rest.
Proof.
  induction s as [|c s IH]; intros skip; [contradiction|].
  cbn [findall_from].
  assert (Hnext : forall k, In x (findall_from m k s) ->
            exists pre rest n,
              String c s = pre ++ rest /\ m rest = Some n /\ x = take n rest).
  { intros k H. destruct (IH k H) as (pre & rest & n & -> & Hm & Hx).
    exists (String c pre), rest, n. auto. }
  destruct skip as [|skip]; [|apply Hnext].
  destruct (m (String c s)) as [n|] eqn:Hm; [|apply Hnext].
  intros [<-|H]; [|exact (Hnext _ H)].
  exists EmptyString, (String c s), n. auto.
Qed.

(** X12: every string that [extract_image_urls] returns occurs in the
    text and is a data URL [data:image/<subtype>;base64,<payload>] with a
    non-empty subtype free of [;] and a non-empty payload over
    [[A-Za-z0-9+/=]], taken up to the first character outside that
    class. *)
Theorem extract_image_urls_sound (json_text data_url_found : string) :
  In data_url_found (extract_image_urls json_text) ->
  exists pre subtype payload post,
    json_text = pre ++ data_url_found ++ post /\
    data_url_found = data_url subtype payload /\
    subtype <> EmptyString /\
    string_forall not_semicolon subtype = true /\
    payload <> EmptyString /\
    string_forall is_b64_or_pad payload = true /\
    starts_with is_b64_or_pad post = false.
Proof.
  intros Hin. apply findall_from_in in Hin as (pre & rest & n & -> & Hm & ->).
  apply match_data_url_inv in Hm
    as (subtype & payload & post & -> & -> & H).
  exists pre, subtype, payload, post. rewrite take_append. auto.
Qed.

Lemma ends_with_append (p : ascii -> bool) (a b : string) :
  ends_with p (a ++ b) =
    match b with
    | EmptyString => ends_with p a
    | String _ _ => ends_with p b
    end.
Proof.
  induction a as [|c a IH]; [now destruct b|].
  change (String c a ++ b) with (String c (a ++ b)).
  cbn [ends_with]. rewrite IH.
  destruct b as [|c' b].
  - rewrite append_nil_r. reflexivity.
  - destruct a; reflexivity.
Qed.

Lemma match_base64_run (s : string) (n : nat) :
  match_base64 s = Some n -> (100 <= run_length is_b64_char s)%nat.
Proof.
  unfold match_base64.
  destruct (run_length is_b64_char s <? 100)%nat eqn:E; [discriminate|].
  intros _. now apply Nat.ltb_ge in E.
Qed.

Lemma match_base64_none (s : string) :
  match_base64 s = None -> (run_length is_b64_char s < 100)%nat.
Proof.
  unfold match_base64.
  destruct (run_length is_b64_char s <? 100)%nat eqn:E; [|discriminate].
  intros _. now apply Nat.ltb_lt in E.
Qed.

Lemma run_length_not_start (p : ascii -> bool) (s : string) :
  starts_with p s = false -> run_length p s = 0%nat.
Proof. destruct s as [|c s]; simpl; [reflexivity | now intros ->]. Qed.

Lemma is_pad_not_b64 (c : ascii) : is_pad c = true -> is_b64_char c = false.
Proof. intros H. apply is_pad_eq in H. now subst c. Qed.

(** The scan for the fallback pattern never starts a match right after a
    character of the alphabet.  [pre] is the text already read; while the
    scan is inside a match ([skip] characters are left of it) or past one,
    a text read so far that ends in the alphabet is followed by fewer
    than 100 characters of the alphabet. *)
Lemma findall_base64_left_maximal (s : string) : forall pre skip,
  (ends_with is_b64_char (pre ++ take skip s) = true ->
   (run_length is_b64_char (drop skip s) < 100)%nat) ->
  forall x,
    In x (findall_from match_base64 skip s) ->
    exists a rest n,
      s = a ++ rest /\ match_base64 rest = Some n /\ x = take n rest /\
      ends_with is_b64_char (pre ++ a) = false.
Proof.
  induction s as [|c s IH]; intros pre skip Hinv x; [contradiction|].
  cbn [findall_from].
  assert (Hnext : forall k,
            (ends_with is_b64_char
               ((pre ++ String c EmptyString) ++ take k s) = true ->
             (run_length is_b64_char (drop k s) < 100)%nat) ->
            In x (findall_from match_base64 k s) ->
            exists a rest n,
              String c s = a ++ rest /\ match_base64 rest = Some n /\
              x = take n rest /\ ends_with is_b64_char (pre ++ a) = false).
  { intros k Hk H.
    destruct (IH _ k Hk x H) as (a & rest & n & -> & Hm & Hx & He).
    exists (String c a), rest, n. repeat split; try assumption.
    rewrite append_assoc in He. exact He. }
  destruct skip as [|skip].
  - cbn [take drop] in Hinv. rewrite append_nil_r in Hinv.
    destruct (match_base64 (String c s)) as [n|] eqn:Hm.
    + pose proof (match_base64_run _ _ Hm) as Hrun.
      assert (Hpre : ends_with is_b64_char pre = false).
      { destruct (ends_with is_b64_char pre); [|reflexivity].
        specialize (Hinv eq_refl). lia. }
      intros [<-|H].
      * exists EmptyString, (String c s), n.
        rewrite append_nil_r. auto.
      * apply (Hnext (Nat.pred n)); [|exact H].
        destruct (match_base64_inv _ _ Hm)
          as (body & pad & post & E & Hn & Hbody & Hlen & Hpad & Hpost & _).
        assert (Hpos : n = S (Nat.pred n)).
        { rewrite Hn, length_append. lia. }
        assert (Htake : String c EmptyString ++ take (Nat.pred n) s =
                        body ++ pad).
        { change (String c EmptyString ++ take (Nat.pred n) s)
            with (take (S (Nat.pred n)) (String c s)).
          rewrite <- Hpos, E, Hn. apply take_append. }
        assert (Hdrop : drop (Nat.pred n) s = post).
        { change (drop (Nat.pred n) s)
            with (drop (S (Nat.pred n)) (String c s)).
          rewrite <- Hpos, E, Hn. apply drop_append. }
        rewrite append_assoc, Htake, Hdrop.
        destruct Hpad as [-> | [-> | ->]].
        -- intros _. simpl in Hpost.
           rewrite run_length_not_start by exact Hpost. lia.
        -- rewrite <- append_assoc, ends_with_append. discriminate.
        -- rewrite <- append_assoc, ends_with_append. discriminate.
    + apply Hnext. cbn [take drop]. rewrite append_nil_r, ends_with_append.
      cbn [ends_with]. intros Hc.
      apply match_base64_none in Hm. cbn [run_length] in Hm.
      rewrite Hc in Hm. lia.
  - apply Hnext. intros H. apply Hinv.
    cbn [take]. rewrite append_assoc in H. exact H.
Qed.

(** X13: every candidate of the fallback occurs in the text and is a
    maximal run of at least 100 characters of [[A-Za-z0-9+/]], with no
    character of that alphabet right before it or right after it,
    followed by the [=] signs after it, two at most; and a candidate that
    decodes to more than 1000 bytes, as the fallback asks, has at least
    1335 characters. *)
Theorem fallback_candidates_sound (json_text candidate : string) :
  In candidate (findall match_base64 json_text) ->
  (exists pre body pad post,
     json_text = pre ++ candidate ++ post /\
     candidate = body ++ pad /\
     string_forall is_b64_char body = true /\
     (100 <= String.length body)%nat /\
     ends_with is_b64_char pre = false /\
     is_padding pad /\
     starts_with is_b64_char (pad ++ post) = false /\
     (pad = "==" \/ starts_with is_pad post = false)) /\
  (forall image,
     b64decode candidate = Some image -> (1000 < length image)%nat ->
     (1335 <= String.length candidate)%nat).
Proof.
  intros Hin. split.
  - apply (findall_base64_left_maximal _ EmptyString) in Hin
      as (pre & rest & n & -> & Hm & -> & Hpre); [|discriminate].
    apply match_base64_inv in Hm as (body & pad & post & -> & -> & H).
    exists pre, body, pad, post. rewrite take_append.
    destruct H as (H1 & H2 & H3 & H4 & H5). auto 10.
  - intros image Hd Hl.
    pose proof (b64decode_length _ _ Hd). lia.
Qed.

End ScanSoundness.

(** * The same, on sample inputs *)

Section SampleRuns.

Import ImageGenerator Samples ImageSamples.

Lemma generate_filename_shape_witness :
  let prompt := "A beautiful sunset, over mountains!" in
  let name :=
    "20250101_120000_A_beautiful_sunset_over_mounta_12345678_main.png" in
  (String.length (clean_prompt ascii_only ascii_only prompt) <= 30)%nat /\
  string_forall (fun c => isalnum ascii_only c || is_underscore c)
    (clean_prompt ascii_only ascii_only prompt) = true /\
  separated true (clean_prompt ascii_only ascii_only prompt) = true /\
  ((truthy (JStr "img_12345678-abcd") = false /\
    name = "20250101_120000" ++ "_"
             ++ clean_prompt ascii_only ascii_only prompt ++ "_" ++ "main"
             ++ ".png") \/
   (exists id clean_id,
      JStr "img_12345678-abcd" = JStr id /\ id <> EmptyString /\
      name = "20250101_120000" ++ "_"
               ++ clean_prompt ascii_only ascii_only prompt ++ "_"
               ++ clean_id ++ "_" ++ "main" ++ ".png" /\
      clean_id = take 8 (remove "gemini_" (remove "img_" id)) /\
      (String.length clean_id <= 8)%nat /\
      is_subsequence clean_id id = true /\
      (contains "img_" id = false -> contains "gemini_" id = false ->
       clean_id = take 8 id))).
Proof.
  apply (generate_filename_shape ascii_only ascii_only "20250101_120000"
           "A beautiful sunset, over mountains!" (JStr "img_12345678-abcd")
           "main").
  reflexivity.
Defined.

Lemma wrapped_wraps (json_text : string) : wraps (wrapped json_text) json_text.
Proof.
  unfold wraps, wrapped. eexists _, _, _. split; [reflexivity|].
  split; [reflexivity|]. split; [right; eexists; reflexivity | reflexivity].
Defined.

Lemma process_response_needs_shape_witness :
  exists json_text image_id,
    wraps (wrapped "data:image/png;base64,QUJD") json_text /\
    loads_invalid json_text <> LoadsOtherError /\
    metadata_leaves loads_invalid json_text image_id /\
    id_ok image_id = true /\
    (forall name image,
       In (name, image)
         (process_response_and_save ascii_only ascii_only loads_invalid noon
            always_writes (wrapped "data:image/png;base64,QUJD") "sunset") ->
       In image (found_images json_text) /\
       exists k, always_writes k name image = true) /\
    (files_writable ascii_only ascii_only noon always_writes "sunset"
       image_id ->
     map snd (process_response_and_save ascii_only ascii_only loads_invalid
                noon always_writes (wrapped "data:image/png;base64,QUJD")
                "sunset") =
       found_images json_text).
Proof.
  apply (process_response_needs_shape ascii_only ascii_only loads_invalid
           noon always_writes (wrapped "data:image/png;base64,QUJD")
           "sunset").
  vm_compute. discriminate.
Defined.

Lemma process_response_saves_search_witness :
  map snd (process_response_and_save ascii_only ascii_only loads_invalid noon
             always_writes (wrapped "data:image/png;base64,QUJD") "sunset") =
    found_images "data:image/png;base64,QUJD".
Proof.
  apply (process_response_saves_search ascii_only ascii_only loads_invalid
           noon always_writes (wrapped "data:image/png;base64,QUJD") "sunset"
           "data:image/png;base64,QUJD" JNull).
  - apply wrapped_wraps.
  - left. split; reflexivity.
  - reflexivity.
  - intros i suffix filename image_data _. reflexivity.
Defined.

Lemma process_response_metadata_discards_witness :
  process_response_and_save ascii_only ascii_only loads_flat_image noon
    always_writes (wrapped flat_image_text) "sunset" = [].
Proof.
  apply (process_response_metadata_discards ascii_only ascii_only
           loads_flat_image noon always_writes (wrapped flat_image_text)
           "sunset" flat_image_text
           [("image", JStr "data:image/png;base64,QUJD")]
           (JStr "data:image/png;base64,QUJD")).
  - apply wrapped_wraps.
  - reflexivity.
  - reflexivity.
  - left. reflexivity.
Defined.

(** The image that this response holds, and that is not saved. *)
Example flat_image_not_saved :
  found_images flat_image_text = [[65; 66; 67]] /\
  process_response_and_save ascii_only ascii_only loads_flat_image noon
    always_writes (wrapped flat_image_text) "sunset" = [].
Proof. split; reflexivity. Qed.

(** The files of a response with two data URLs. *)
Example two_data_urls_saved :
  process_response_and_save ascii_only ascii_only loads_invalid noon
    always_writes
    (wrapped "data:image/png;base64,QUJD data:image/jpeg;base64,QUI=")
    "A sunset" =
  [("20250101_120000_A_sunset_image_1.png", [65; 66; 67]);
   ("20250101_120000_A_sunset_image_2.png", [65; 66])].
Proof. reflexivity. Qed.

(** An image id with a path separator goes into the file name; where
    [open] refuses such a name, the image is found and not saved. *)
Example path_separator_in_id_not_saved :
  generate_filename ascii_only ascii_only "20250101_120000" "sunset"
    (JStr "img_a/b") "main" = Some "20250101_120000_sunset_a/b_main.png" /\
  found_images slash_id_text = [[65; 66; 67]] /\
  process_response_and_save ascii_only ascii_only loads_slash_id noon
    flat_directory (wrapped slash_id_text) "sunset" = [] /\
  process_response_and_save ascii_only ascii_only loads_slash_id noon
    always_writes (wrapped slash_id_text) "sunset" =
    [("20250101_120000_sunset_a/b_main.png", [65; 66; 67])].
Proof. repeat split. Qed.

Lemma extract_image_urls_sound_witness :
  exists pre subtype payload post,
    before_value ++ "data:image/png;base64,QUJD" ++ after_value =
      pre ++ "data:image/png;base64,QUJD" ++ post /\
    "data:image/png;base64,QUJD" = data_url subtype payload /\
    subtype <> EmptyString /\
    string_forall not_semicolon subtype = true /\
    payload <> EmptyString /\
    string_forall is_b64_or_pad payload = true /\
    starts_with is_b64_or_pad post = false.
Proof.
  apply (extract_image_urls_sound
           (before_value ++ "data:image/png;base64,QUJD" ++ after_value)
           "data:image/png;base64,QUJD").
  left. reflexivity.
Defined.

Lemma fallback_candidates_sound_witness :
  exists pre body pad post,
    before_value ++ letters_A 1336 ++ after_value =
      pre ++ letters_A 1336 ++ post /\
    letters_A 1336 = body ++ pad /\
    string_forall is_b64_char body = true /\
    (100 <= String.length body)%nat /\
    ends_with is_b64_char pre = false /\
    is_padding pad /\
    starts_with is_b64_char (pad ++ post) = false /\
    (pad = "==" \/ starts_with is_pad post = false).
Proof.
  apply (proj1 (fallback_candidates_sound
                  (before_value ++ letters_A 1336 ++ after_value)
                  (letters_A 1336)
                  ltac:(vm_compute; left; reflexivity))).
Defined.

Lemma data_urls_precede_fallback_witness :
  process_response_and_save ascii_only ascii_only loads_invalid noon
    always_writes
    (wrapped ("data:image/png;base64,QUJDR " ++ letters_A 1336)) "sunset"
  = [].
Proof.
  destruct (data_urls_precede_fallback ascii_only ascii_only loads_invalid
              noon always_writes
              (wrapped ("data:image/png;base64,QUJDR " ++ letters_A 1336))
              "sunset" ("data:image/png;base64,QUJDR " ++ letters_A 1336)
              (wrapped_wraps _)) as [H _].
  destruct H as (_ & _ & H).
  - vm_compute. discriminate.
  - apply H. vm_compute. intros u [<-|[]]. reflexivity.
Defined.

(** The run of base64 after the data URL is saved once the data URL is
    taken out of the text. *)
Example fallback_alone_saves :
  map snd
    (process_response_and_save ascii_only ascii_only loads_invalid noon
       always_writes (wrapped (" " ++ letters_A 1336)) "sunset")
  = [repeat 0 1002].
Proof. vm_compute. reflexivity. Qed.

End SampleRuns.

(** * Sections of a text *)

Section Sections.

Import ResearchContentCrew.

Lemma lstrip_head (s : list N) :
  match lstrip s with
  | [] => True
  | c :: _ => is_whitespace c = false
  end.
Proof.
  induction s as [|c s IH]; simpl; [exact I|].
  destruct (is_whitespace c) eqn:E; [exact IH | exact E].
Qed.

Lemma rstrip_idempotent (s : list N) : rstrip (rstrip s) = rstrip s.
Proof.
  induction s as [|c s IH]; [reflexivity|]. simpl.
  destruct (rstrip s) as [|k kept] eqn:E.
  - destruct (is_whitespace c) eqn:W; simpl; [reflexivity | now rewrite W].
  - cbn [rstrip] in *. now rewrite IH.
Qed.

Lemma rstrip_keeps_head (c : N) (s : list N) :
  is_whitespace c = false -> exists kept, rstrip (c :: s) = c :: kept.
Proof.
  intros W. simpl. destruct (rstrip s) as [|k kept].
  - rewrite W. now exists [].
  - now exists (k :: kept).
Qed.

Lemma strip_idempotent (s : list N) : strip (strip s) = strip s.
Proof.
  unfold strip. pose proof (lstrip_head s) as H.
  destruct (lstrip s) as [|c y]; [reflexivity|].
  destruct (rstrip_keeps_head c y H) as [kept E].
  rewrite E. cbn [lstrip]. rewrite H, <- E. apply rstrip_idempotent.
Qed.

Lemma strip_head (s : list N) :
  match strip s with
  | [] => True
  | c :: _ => is_whitespace c = false
  end.
Proof.
  unfold strip. pose proof (lstrip_head s) as H.
  destruct (lstrip s) as [|c y]; [exact I|].
  destruct (rstrip_keeps_head c y H) as [kept ->]. exact H.
Qed.

Lemma in_lstrip (x : N) (s : list N) : In x (lstrip s) -> In x s.
Proof.
  induction s as [|c s IH]; simpl; [auto|].
  destruct (is_whitespace c); [auto | simpl; auto].
Qed.

Lemma in_rstrip (x : N) (s : list N) : In x (rstrip s) -> In x s.
Proof.
  induction s as [|c s IH]; simpl; [auto|].
  destruct (rstrip s) as [|k kept].
  - destruct (is_whitespace c); simpl; tauto.
  - simpl. intros [H|H]; [now left | right; apply IH; exact H].
Qed.

Lemma split_lines_no_break (s : list N) :
  Forall (fun line => ~ In 10%N line) (split_lines s).
Proof.
  induction s as [|c s IH]; simpl; [repeat constructor; auto|].
  destruct (c =? 10)%N eqn:E.
  - constructor; [auto | exact IH].
  - apply N.eqb_neq in E.
    destruct (split_lines s) as [|line lines]; [repeat constructor|].
    + simpl. intros [H|[]]. congruence.
    + inversion IH; subst. constructor; [|assumption].
      simpl. intros [H|H]; [congruence | contradiction].
Qed.

Lemma strip_stripped (line : list N) :
  ~ In 10%N line -> nonempty (strip line) = true ->
  stripped_line (strip line).
Proof.
  intros Hbreak Hne. split; [|split].
  - destruct (strip line); [discriminate | congruence].
  - apply strip_idempotent.
  - intros H. apply Hbreak. unfold strip in H.
    now apply in_lstrip, in_rstrip.
Qed.

Lemma is_bullet_nonempty (line : list N) :
  is_bullet line = true -> nonempty line = true.
Proof. destruct line; [discriminate | reflexivity]. Qed.

Lemma flush_good (sections current : list (list N)) :
  Forall good_section sections ->
  Forall stripped_line current ->
  Forall (fun line => is_bullet line = false) (tl current) ->
  Forall good_section (flush sections current).
Proof.
  intros Hs Hc Ht. destruct current as [|first others]; [exact Hs|].
  simpl flush. apply Forall_app. split; [exact Hs|].
  constructor; [|constructor]. now exists first, others.
Qed.

(** What the loop keeps true: the sections closed so far are good, and
    the lines of the open section are kept lines of which only the first
    can be a bullet line. *)
Lemma sections_loop_good (lines : list (list N)) :
  Forall (fun line => ~ In 10%N line) lines ->
  forall sections current,
    Forall good_section sections ->
    Forall stripped_line current ->
    Forall (fun line => is_bullet line = false) (tl current) ->
    Forall good_section (sections_loop lines sections current).
Proof.
  induction lines as [|line lines IH]; intros Hl sections current Hs Hc Ht.
  - now apply flush_good.
  - inversion Hl as [|? ? Hline Hlines]; subst. cbn [sections_loop].
    destruct (is_bullet (strip line)) eqn:B.
    + apply IH; [assumption | now apply flush_good | | constructor].
      constructor; [|constructor].
      apply strip_stripped; [assumption | now apply is_bullet_nonempty].
    + destruct (nonempty (strip line) && negb (starts_with_space (strip line)))
        eqn:K.
      * apply andb_true_iff in K as [K _].
        apply IH; [assumption | assumption | |].
        -- apply Forall_app. split; [assumption|].
           constructor; [|constructor]. now apply strip_stripped.
        -- destruct current as [|first others]; [constructor|].
           simpl. apply Forall_app. split; [exact Ht|].
           constructor; [exact B | constructor].
      * now apply IH.
Qed.

Lemma Forall_firstn {A : Type} (P : A -> Prop) (n : nat) (l : list A) :
  Forall P l -> Forall P (firstn n l).
Proof.
  revert l. induction n as [|n IH]; intros [|a l] H; simpl; try constructor.
  - now inversion H.
  - apply IH. now inversion H.
Qed.

Lemma starts_with_space_stripped (line : list N) :
  starts_with_space (strip line) = false.
Proof.
  pose proof (strip_head line) as H.
  destruct (strip line) as [|c rest]; [reflexivity|]. simpl.
  destruct (c =? 32)%N eqn:E; [|reflexivity].
  apply N.eqb_eq in E. subst c. discriminate.
Qed.

(** The sections that the loop returns are a grouping of the lines still
    to be kept, after those of the open section: no line is lost, none is
    added, and a new group starts at each bullet line and nowhere else. *)
Lemma sections_loop_groups (lines : list (list N)) :
  forall sections current,
    Forall (fun line => is_bullet line = false) (tl current) ->
    exists groups,
      sections_loop lines sections current =
        (sections ++ map join_lines groups)%list /\
      concat groups = (current ++ filter nonempty (map strip lines))%list /\
      Forall (fun group => group <> []) groups /\
      Forall (fun group =>
                Forall (fun line => is_bullet line = false) (tl group))
        groups /\
      Forall (fun group => is_bullet (hd [] group) = true) (tl groups) /\
      (current <> [] ->
       exists group others,
         groups = group :: others /\ hd [] group = hd [] current).
Proof.
  induction lines as [|line lines IH]; intros sections current Ht.
  - destruct current as [|first others].
    + exists []. cbn. rewrite app_nil_r.
      repeat split; try constructor. congruence.
    + exists [first :: others]. cbn [sections_loop flush map concat filter].
      rewrite !app_nil_r.
      repeat split; try (constructor; [|constructor]);
        try discriminate; try assumption; try constructor.
      intros _. now exists (first :: others), [].
  - cbn [sections_loop map filter].
    destruct (is_bullet (strip line)) eqn:B.
    + rewrite (is_bullet_nonempty _ B).
      destruct (IH (flush sections current) [strip line])
        as (groups & Hloop & Hcat & Hne & Htl & Hhd & Hfirst);
        [constructor|].
      destruct Hfirst as (group & others & -> & Hgroup); [discriminate|].
      destruct current as [|first rest].
      * exists (group :: others). cbn [flush] in Hloop.
        repeat split; try assumption. congruence.
      * exists ((first :: rest) :: group :: others).
        cbn [flush] in Hloop |- *. rewrite Hloop.
        change (concat ((first :: rest) :: group :: others))
          with ((first :: rest) ++ concat (group :: others))%list.
        cbn [map]. rewrite Hcat, <- !app_assoc.
        repeat split.
        -- constructor; [discriminate | exact Hne].
        -- constructor; [exact Ht | exact Htl].
        -- cbn [tl]. constructor; [|exact Hhd].
           rewrite Hgroup. exact B.
        -- intros _. now exists (first :: rest), (group :: others).
    + rewrite starts_with_space_stripped, andb_true_r.
      destruct (nonempty (strip line)) eqn:K.
      * destruct (IH sections (current ++ [strip line])%list)
          as (groups & Hloop & Hcat & Hne & Htl & Hhd & Hfirst).
        { destruct current as [|first rest]; [constructor|].
          cbn [app tl]. apply Forall_app. split; [exact Ht|].
          constructor; [exact B | constructor]. }
        exists groups. rewrite Hloop, Hcat, <- app_assoc.
        repeat split; try assumption.
        intros Hcur. destruct Hfirst as (group & others & -> & Hgroup).
        { now destruct current. }
        exists group, others. split; [reflexivity|].
        rewrite Hgroup. destruct current; [congruence | reflexivity].
      * apply (IH sections current Ht).
Qed.

(** X15: [_extract_sections] returns at most five sections, each one or
    more lines joined by line breaks, every line stripped of the
    whitespace at its ends and not empty, with a bullet line only as the
    first line of a section.  The sections are the first five groups of
    one grouping of the text: the lines of the text that are not blank,
    stripped, all of them and in their order, cut into groups that are
    not empty, where a group starts at each bullet line and only there
    (but for the first group, which starts with the text). *)
Theorem extract_sections_good (content : list N) :
  (length (_extract_sections content) <= 5)%nat /\
  Forall good_section (_extract_sections content) /\
  exists groups,
    _extract_sections content = firstn 5 (map join_lines groups) /\
    concat groups = kept_lines content /\
    Forall (fun group => group <> []) groups /\
    Forall (fun group =>
              Forall (fun line => is_bullet line = false) (tl group))
      groups /\
    Forall (fun group => is_bullet (hd [] group) = true) (tl groups).
Proof.
  unfold _extract_sections. split; [|split].
  - rewrite length_firstn. lia.
  - apply Forall_firstn.
    apply sections_loop_good; try constructor.
    apply split_lines_no_break.
  - destruct (sections_loop_groups (split_lines content) [] [])
      as (groups & Hloop & Hcat & Hne & Htl & Hhd & _); [constructor|].
    exists groups. rewrite Hloop. auto.
Qed.

Lemma sections_loop_no_bullet (lines : list (list N)) :
  Forall (fun line => is_bullet (strip line) = false) lines ->
  forall sections current,
    sections_loop lines sections current =
    flush sections (current ++ filter nonempty (map strip lines)).
Proof.
  induction lines as [|line lines IH]; intros Hl sections current.
  - simpl. now rewrite app_nil_r.
  - inversion Hl as [|? ? B Hlines]; subst.
    cbn [sections_loop map filter]. rewrite B, starts_with_space_stripped.
    rewrite andb_true_r.
    destruct (nonempty (strip line)).
    + rewrite (IH Hlines). now rewrite <- app_assoc.
    + apply (IH Hlines).
Qed.

(** X16: blank lines do not separate sections.  A text none of whose
    lines starts (after stripping) with a bullet mark gives no section
    when all its lines are blank, and otherwise one section: its
    non-blank lines, stripped, joined by line breaks. *)
Theorem extract_sections_without_bullets (content : list N) :
  Forall (fun line => is_bullet (strip line) = false) (split_lines content) ->
  _extract_sections content =
    match kept_lines content with
    | [] => []
    | _ :: _ => [join_lines (kept_lines content)]
    end.
Proof.
  intros H. unfold _extract_sections, kept_lines.
  rewrite (sections_loop_no_bullet _ H). simpl app.
  now destruct (filter nonempty (map strip (split_lines content))).
Qed.

End Sections.

(** * The database tool of the LangChain example *)

Section DatabaseTool.

Variable py_str : JSON -> string.
Variable decode_error_text : string.

Local Abbreviation arun :=
  (NewsContentAgent.MCPDatabaseTool_arun py_str decode_error_text).
Local Abbreviation exn_text := (NewsContentAgent.exn_text decode_error_text).

(** The body that the tool posts. *)
Local Abbreviation body query parameters :=
  (JObj [("query", JStr query);
         ("parameters",
          JArr match parameters with
               | None => []
               | Some items => items
               end)]).

Lemma arun_unfold self query parameters now get post :
  arun self query parameters now get post =
    (match fst (fst (NewsContentAgent.call_tool self "execute_query"
                       (body query parameters) now get post)) with
     | Returned (JObj result) =>
         if truthy (NewsContentAgent.get "success" (JBool false) result) then
           "Database operation successful. "
             ++ py_str (NewsContentAgent.get "rows_affected" (JNum 0) result)
             ++ " rows affected."
         else
           "Database operation failed: "
             ++ py_str (NewsContentAgent.get "error"
                          (JStr "Unknown database error") result)
     | Returned v =>
         "Error executing database operation: " ++ "'"
           ++ NewsContentAgent.type_name v
           ++ "' object has no attribute 'get'"
     | Raised e => "Error executing database operation: " ++ exn_text e
     end,
     snd (fst (NewsContentAgent.call_tool self "execute_query"
                 (body query parameters) now get post)),
     snd (NewsContentAgent.call_tool self "execute_query"
            (body query parameters) now get post)).
Proof.
  unfold NewsContentAgent.MCPDatabaseTool_arun.
  now destruct (NewsContentAgent.call_tool _ _ _ _ _ _) as [[res self'] tr].
Qed.

(** X17: the database tool turns every failure of its call into text.
    When the server is not healthy it answers
    ["Error executing database operation: Server <name> is not healthy"]
    and sends no POST; when [max_retries = N >= 1] attempts all fail it
    answers that prefix followed by the detail of the last attempt, after
    exactly [N] POST requests. *)
Theorem database_tool_reports_failure self query parameters now get post :
  (fst (fst (NewsContentAgent.health_check self now get)) = false ->
   fst (fst (arun self query parameters now get post)) =
     "Error executing database operation: Server "
       ++ NewsContentAgent.name (NewsContentAgent.config self)
       ++ " is not healthy" /\
   posts (snd (arun self query parameters now get post)) = 0%nat) /\
  (fst (fst (NewsContentAgent.health_check self now get)) = true ->
   1 <= NewsContentAgent.max_retries (NewsContentAgent.config self) ->
   (forall k,
      0 <= k < NewsContentAgent.max_retries (NewsContentAgent.config self) ->
      transient_failure (post k) = true) ->
   fst (fst (arun self query parameters now get post)) =
     "Error executing database operation: "
       ++ failure_detail
            (post (NewsContentAgent.max_retries
                     (NewsContentAgent.config self) - 1)) /\
   Z.of_nat (posts (snd (arun self query parameters now get post))) =
     NewsContentAgent.max_retries (NewsContentAgent.config self)).
Proof.
  rewrite arun_unfold. cbn [fst snd]. split.
  - intros Hh. rewrite (call_tool_unhealthy _ _ _ _ _ _ Hh). cbn [fst snd].
    split; [reflexivity|]. apply health_check_no_post.
  - intros Hh HN Hall.
    rewrite (call_tool_healthy _ _ _ _ _ _ Hh).
    rewrite (retry_loop_all_fail _ _ _ post HN Hall). cbn [fst snd].
    split; [reflexivity|].
    rewrite posts_app, (proj1 (health_check_no_post self now get)).
    rewrite posts_run_trace. lia.
Qed.

(** X18: the database tool reports success only when the server said so:
    an answer that starts with ["Database operation successful."] comes
    from a POST answered with status 200 whose body parsed to an object
    with a true [success] member. *)
Theorem database_tool_success_is_real self query parameters now get post :
  String.prefix "Database operation successful."
    (fst (fst (arun self query parameters now get post))) = true ->
  exists (k : nat) (r : Response) (result : list (string * JSON)),
    post (Z.of_nat k) = PostResponse r /\
    status_code r = 200 /\
    json r = Some (JObj result) /\
    truthy (NewsContentAgent.get "success" (JBool false) result) = true /\
    posts (snd (arun self query parameters now get post)) = S k.
Proof.
  rewrite arun_unfold. cbn [fst snd].
  pose proof (news_call_tool_returned self "execute_query"
                (body query parameters) now get post) as Hsound.
  cbv zeta in Hsound.
  destruct (fst (fst (NewsContentAgent.call_tool _ _ _ _ _ _)))
    as [payload|e] eqn:Hres.
  - destruct payload as [| | | | |result]; try (simpl; discriminate).
    destruct (truthy (NewsContentAgent.get "success" (JBool false) result))
      eqn:Ht; [|simpl; discriminate].
    intros _.
    destruct (Hsound (JObj result) eq_refl)
      as (_ & k & r & Hp & _ & Hpost & Hs & Hj & _).
    exists k, r, result. auto.
  - simpl. discriminate.
Qed.

End DatabaseTool.

(** * The names of the files saved *)

Lemma str_injective (a b : Z) : str a = str b -> a = b.
Proof.
  unfold str. intros H.
  assert (Hnil : forall z, Z.to_int z <> Decimal.Pos Decimal.Nil /\
                           Z.to_int z <> Decimal.Neg Decimal.Nil).
  { intros z. split; intros E; pose proof (f_equal Z.of_int E) as E';
      rewrite DecimalZ.of_to in E'; simpl in E'; subst z; discriminate E. }
  apply DecimalZ.to_int_inj.
  assert (Some (Z.to_int a) = Some (Z.to_int b)) as [= ->]; [|reflexivity].
  rewrite <- (NilZero.isi (Z.to_int a)) by apply Hnil.
  rewrite <- (NilZero.isi (Z.to_int b)) by apply Hnil.
  now rewrite H.
Qed.

Lemma append_inj_length (a a' b b' : string) :
  String.length a = String.length a' -> a ++ b = a' ++ b' ->
  a = a' /\ b = b'.
Proof.
  revert a'. induction a as [|c a IH]; intros [|c' a'] Hl H;
    simpl in *; try discriminate.
  - now split.
  - injection H as -> H. injection Hl as Hl.
    destruct (IH a' Hl H) as [-> ->]. now split.
Qed.

Lemma append_cancel_r (a a' t : string) : a ++ t = a' ++ t -> a = a'.
Proof.
  intros H.
  assert (Hl : String.length a = String.length a').
  { pose proof (f_equal String.length H) as E.
    rewrite !length_append in E. lia. }
  now destruct (append_inj_length a a' t t Hl H).
Qed.

Section FileNamesDistinct.

Import ImageGenerator.

Variable isalnum_other : ascii -> bool.
Variable isspace_other : ascii -> bool.
Variable json_loads : string -> LoadsOutcome.
Variable clock : nat -> string.
Variable write_ok : nat -> string -> list Z -> bool.

(** The time stamps have one width, as [%Y%m%d_%H%M%S] gives them. *)
Hypothesis clock_width :
  forall i j, String.length (clock i) = String.length (clock j).

Local Abbreviation generate_filename :=
  (generate_filename isalnum_other isspace_other).

(** With an id it accepts, [generate_filename] puts the time stamp and the
    suffix around a text that depends on neither. *)
Lemma generate_filename_form prompt image_id :
  id_ok image_id = true ->
  exists middle, forall timestamp suffix,
    generate_filename timestamp prompt image_id suffix =
      Some (timestamp ++ middle ++ suffix ++ ".png").
Proof.
  intros Hid. unfold ImageGenerator.generate_filename.
  destruct (truthy image_id) eqn:Ht.
  - destruct image_id as [| | |id| |];
      try (unfold id_ok in Hid; rewrite Ht in Hid; discriminate).
    exists ("_" ++ clean_prompt isalnum_other isspace_other prompt ++ "_"
              ++ take 8 (remove "gemini_" (remove "img_" id)) ++ "_").
    intros timestamp suffix. now rewrite !append_assoc.
  - exists ("_" ++ clean_prompt isalnum_other isspace_other prompt ++ "_").
    intros timestamp suffix. now rewrite !append_assoc.
Qed.

Lemma names_differ (middle s1 s2 : string) (i j : nat) :
  clock i ++ middle ++ s1 ++ ".png" = clock j ++ middle ++ s2 ++ ".png" ->
  s1 = s2.
Proof.
  intros H.
  destruct (append_inj_length _ _ _ _ (clock_width i j) H) as [_ H1].
  assert (H2 : s1 ++ ".png" = s2 ++ ".png").
  { revert H1. clear. induction middle as [|c m IH]; simpl; [auto|].
    intros [= H]. auto. }
  now apply append_cancel_r in H2.
Qed.

Lemma data_url_suffix_injective json_text count (i j : nat) :
  (i < count)%nat -> (j < count)%nat ->
  data_url_suffix json_text count i = data_url_suffix json_text count j ->
  i = j.
Proof.
  intros Hi Hj. unfold data_url_suffix.
  destruct (Nat.eq_dec i j) as [E|Hne]; [auto|].
  replace (1 <? count)%nat with true by (symmetry; apply Nat.ltb_lt; lia).
  destruct (contains "thumbnail" (lower json_text)); simpl;
    destruct (i =? 0)%nat eqn:Ei; destruct (j =? 0)%nat eqn:Ej;
    try (apply Nat.eqb_eq in Ei); try (apply Nat.eqb_eq in Ej);
    try lia; try discriminate;
    intros [= H]; apply str_injective in H; lia.
Qed.

Lemma save_data_urls_names prompt json_text image_id count middle :
  (forall timestamp suffix,
     generate_filename timestamp prompt image_id suffix =
       Some (timestamp ++ middle ++ suffix ++ ".png")) ->
  forall data_urls i,
    (i + length data_urls <= count)%nat ->
    (forall name,
       In name (map fst (save_data_urls isalnum_other isspace_other clock
                           write_ok prompt json_text image_id count i
                           data_urls)) ->
       exists k, (i <= k < count)%nat /\
         name = clock k ++ middle ++ data_url_suffix json_text count k
                  ++ ".png") /\
    NoDup (map fst (save_data_urls isalnum_other isspace_other clock
                      write_ok prompt json_text image_id count i
                      data_urls)).
Proof.
  intros Hform. induction data_urls as [|u urls IH]; intros i Hi.
  - split; [intros name [] | constructor].
  - cbn [ImageGenerator.save_data_urls]. rewrite Hform.
    simpl length in Hi.
    destruct (IH (S i)) as [IHin IHnd]; [lia|].
    destruct (save_data_url_image write_ok i u _); [|split].
    + cbn [map fst]. split.
      * intros name [<-|Hin]; [exists i; split; [lia | reflexivity]|].
        destruct (IHin name Hin) as (k & Hk & ->).
        exists k. split; [lia | reflexivity].
      * constructor; [|exact IHnd].
        intros Hin. destruct (IHin _ Hin) as (k & Hk & E).
        apply names_differ in E.
        apply data_url_suffix_injective in E; lia.
    + intros name Hin. destruct (IHin name Hin) as (k & Hk & ->).
      exists k. split; [lia | reflexivity].
    + exact IHnd.
Qed.

Lemma save_potential_images_names prompt image_id middle :
  (forall timestamp suffix,
     generate_filename timestamp prompt image_id suffix =
       Some (timestamp ++ middle ++ suffix ++ ".png")) ->
  forall candidates i,
    (forall name,
       In name (map fst (save_potential_images isalnum_other isspace_other
                           clock write_ok prompt image_id i candidates)) ->
       exists k, (i <= k)%nat /\
         name = clock k ++ middle ++ ("raw_" ++ str (Z.of_nat k + 1))
                  ++ ".png") /\
    NoDup (map fst (save_potential_images isalnum_other isspace_other clock
                      write_ok prompt image_id i candidates)).
Proof.
  intros Hform. induction candidates as [|b cs IH]; intros i.
  - split; [intros name [] | constructor].
  - cbn [ImageGenerator.save_potential_images]. rewrite Hform.
    destruct (IH (S i)) as [IHin IHnd].
    assert (Hskip :
      (forall name,
         In name (map fst (save_potential_images isalnum_other isspace_other
                             clock write_ok prompt image_id (S i) cs)) ->
         exists k, (i <= k)%nat /\
           name = clock k ++ middle ++ ("raw_" ++ str (Z.of_nat k + 1))
                    ++ ".png")).
    { intros name Hin. destruct (IHin name Hin) as (k & Hk & ->).
      exists k. split; [lia | reflexivity]. }
    destruct (b64decode b) as [d|]; [|now split].
    destruct (1000 <? length d)%nat; [|now split].
    destruct (write_ok i _ d); [|now split].
    cbn [map fst]. split.
    + intros name [<-|Hin]; [exists i; split; [lia | reflexivity]|].
      now apply Hskip.
    + constructor; [|exact IHnd].
      intros Hin. destruct (IHin _ Hin) as (k & Hk & E).
      apply names_differ in E. injection E as E.
      apply str_injective in E. lia.
Qed.

(** X19: no two files saved by one call of [process_response_and_save]
    have the same name, so no image of the response overwrites another. *)
Theorem saved_file_names_distinct (result : JSON) (prompt : string) :
  NoDup (map fst (process_response_and_save isalnum_other isspace_other
                    json_loads clock write_ok result prompt)).
Proof.
  assert (Hsave : forall json_text image_id,
            NoDup (map fst (save_images isalnum_other isspace_other clock
                              write_ok prompt json_text image_id))).
  { intros json_text image_id.
    destruct (id_ok image_id) eqn:Hid.
    - destruct (generate_filename_form prompt image_id Hid) as [middle Hform].
      unfold ImageGenerator.save_images.
      destruct (extract_image_urls json_text) as [|u urls] eqn:E.
      + apply (save_potential_images_names prompt image_id middle Hform).
      + apply (save_data_urls_names prompt json_text image_id _ middle Hform).
        simpl. lia.
    - rewrite save_images_bad_id by exact Hid. constructor. }
  unfold ImageGenerator.process_response_and_save.
  repeat (match goal with
          | |- NoDup (map fst []) => constructor
          | |- NoDup (map fst (save_images _ _ _ _ _ _ _)) => apply Hsave
          | |- context [match ?x with _ => _ end] => destruct x
          | |- context [if ?x then _ else _] => destruct x
          end).
Qed.

End FileNamesDistinct.

(** * Sample runs of the tools *)

Section ToolRuns.

Import ResearchContentCrew Samples ImageSamples ToolSamples.

(** Three sections: the lines before the first bullet, and one for each
    bullet with the lines under it; the blank lines are dropped. *)
Example extract_sections_bullets :
  _extract_sections
    (codes "Intro line" ++ [10; 10; 8226; 32] ++ codes "first point"
       ++ [10; 32; 32] ++ codes "detail" ++ [10] ++ codes "- second"
       ++ [10; 10] ++ codes "closing")%list%N =
  [codes "Intro line";
   ([8226; 32] ++ codes "first point" ++ [10] ++ codes "detail")%list%N;
   (codes "- second" ++ [10] ++ codes "closing")%list%N].
Proof. reflexivity. Qed.

Lemma extract_sections_without_bullets_witness :
  _extract_sections
    (codes "para one" ++ [10; 10] ++ codes "para two")%list%N =
  [(codes "para one" ++ [10] ++ codes "para two")%list%N].
Proof.
  apply (extract_sections_without_bullets
           (codes "para one" ++ [10; 10] ++ codes "para two")%list%N).
  repeat constructor.
Defined.

Lemma database_tool_reports_failure_witness :
  fst (fst (NewsContentAgent.MCPDatabaseTool_arun sample_str "bad json"
              (NewsContentAgent.init news_config) "SELECT 1" None 5%Q
              unreachable_get always_500)) =
    "Error executing database operation: Server news-data-server"
      ++ " is not healthy" /\
  posts (snd (NewsContentAgent.MCPDatabaseTool_arun sample_str "bad json"
                (NewsContentAgent.init news_config) "SELECT 1" None 5%Q
                unreachable_get always_500)) = 0%nat.
Proof.
  apply (proj1 (database_tool_reports_failure sample_str "bad json"
                  (NewsContentAgent.init news_config) "SELECT 1" None 5%Q
                  unreachable_get always_500)).
  reflexivity.
Defined.

Lemma database_tool_success_is_real_witness :
  exists (k : nat) (r : Response) (result : list (string * JSON)),
    three_rows (Z.of_nat k) = PostResponse r /\
    status_code r = 200 /\
    json r = Some (JObj result) /\
    truthy (NewsContentAgent.get "success" (JBool false) result) = true /\
    posts (snd (NewsContentAgent.MCPDatabaseTool_arun sample_str "bad json"
                  (NewsContentAgent.init news_config) "SELECT 1" None 5%Q
                  healthy_get three_rows)) = S k.
Proof.
  apply (database_tool_success_is_real sample_str "bad json"
           (NewsContentAgent.init news_config) "SELECT 1" None 5%Q
           healthy_get three_rows).
  reflexivity.
Defined.

Example database_tool_three_rows :
  fst (fst (NewsContentAgent.MCPDatabaseTool_arun sample_str "bad json"
              (NewsContentAgent.init news_config) "SELECT 1" None 5%Q
              healthy_get three_rows)) =
  "Database operation successful. 3 rows affected.".
Proof. reflexivity. Qed.

Lemma saved_file_names_distinct_witness :
  NoDup (map fst
           (ImageGenerator.process_response_and_save ascii_only ascii_only
              loads_invalid noon always_writes
              (wrapped
                 "data:image/png;base64,QUJD data:image/jpeg;base64,QUI=")
              "A sunset")).
Proof.
  apply (saved_file_names_distinct ascii_only ascii_only loads_invalid noon
           always_writes).
  reflexivity.
Defined.

End ToolRuns.

(** * Image extraction *)

Section ImageClaimSamples.

Import ImageGenerator Samples ImageSamples.

(** C8, as stated, fails: [data:audio/wav;base64,QUJD] has the shape
    ["data:" mediatype ";base64," payload] and its payload decodes, but
    the pattern of [extract_image_urls] asks for [data:image/] and finds
    nothing, the fallback finds no run of 100 characters, and no file is
    saved. *)
Lemma data_url_other_media_type_counterexample :
  "data:audio/wav;base64,QUJD" = "data:" ++ "audio/wav" ++ ";base64," ++ "QUJD"
  /\ b64decode "QUJD" = Some [65; 66; 67]
  /\ extract_image_urls "data:audio/wav;base64,QUJD" = []
  /\ process_response_and_save ascii_only ascii_only loads_invalid noon
       always_writes (wrapped "data:audio/wav;base64,QUJD") "sunset" = [].
Proof. repeat split. Qed.

(** A data URL of another media type is no match of the data-URL pattern
    either when its payload is long, but then the fallback takes the
    payload as a candidate: that of 2000 bytes is saved, under the name of
    a raw image. *)
Example data_url_other_media_type_fallback :
  let text := "data:audio/wav;base64," ++ letters_A 2667 ++ "=" in
  extract_image_urls text = [] /\
  findall match_base64 text = [letters_A 2667 ++ "="] /\
  process_response_and_save ascii_only ascii_only loads_invalid noon
    always_writes (wrapped text) "sunset" =
    [("20250101_120000_sunset_raw_1.png", repeat 0 2000)].
Proof. repeat split; vm_compute; reflexivity. Qed.

(** A match whose payload is not valid base64 gives no entry. *)
Example data_url_bad_payload :
  extract_image_urls "data:image/png;base64,QUJDR" =
    ["data:image/png;base64,QUJDR"] /\
  b64decode "QUJDR" = None /\
  process_response_and_save ascii_only ascii_only loads_invalid noon
    always_writes (wrapped "data:image/png;base64,QUJDR") "sunset" = [].
Proof. repeat split. Qed.

(** With a comma in the subtype, what is decoded is the text between the
    first two commas and not the payload. *)
Example data_url_comma_in_subtype :
  extract_image_urls "data:image/a,b;base64,QUJD" =
    ["data:image/a,b;base64,QUJD"] /\
  payload_of "data:image/a,b;base64,QUJD" = "QUJD" /\
  comma_free "data:image/a,b;base64,QUJD" = false /\
  base64_part "data:image/a,b;base64,QUJD" = "b;base64" /\
  b64decode "b;base64" = None /\
  process_response_and_save ascii_only ascii_only loads_invalid noon
    always_writes (wrapped "data:image/a,b;base64,QUJD") "sunset" = [].
Proof. repeat split. Qed.

(** C9, as stated, fails at the size floor: [1334] characters [A] and
    [==] are one match of the fallback pattern and decode to exactly 1000
    bytes, and the test [len(image_data) > 1000] leaves them out. *)
Lemma fallback_exactly_1000_bytes_counterexample :
  extract_image_urls (letters_A 1334 ++ "==") = [] /\
  findall match_base64 (letters_A 1334 ++ "==") = [letters_A 1334 ++ "=="] /\
  b64decode (letters_A 1334 ++ "==") = Some (repeat 0 1000) /\
  length (repeat 0 1000) = 1000%nat /\
  process_response_and_save ascii_only ascii_only loads_invalid noon
    always_writes (wrapped (letters_A 1334 ++ "==")) "sunset" = [].
Proof. repeat split; vm_compute; reflexivity. Qed.

(** Only the first three matches are tried: of four strings that each
    decode to 1002 bytes, three are saved. *)
Example fallback_fourth_match_dropped :
  let s := letters_A 1336 in
  let text := s ++ " " ++ s ++ " " ++ s ++ " " ++ s in
  findall match_base64 text = [s; s; s; s] /\
  large_image s = Some (repeat 0 1002) /\
  process_response_and_save ascii_only ascii_only loads_invalid noon
    always_writes (wrapped text) "sunset" =
    [("20250101_120000_sunset_raw_1.png", repeat 0 1002);
     ("20250101_120000_sunset_raw_2.png", repeat 0 1002);
     ("20250101_120000_sunset_raw_3.png", repeat 0 1002)].
Proof. repeat split; vm_compute; reflexivity. Qed.

(** With an image id that is a number, [generate_filename] raises inside
    the [try] of the fallback and the candidate is skipped: it decodes to
    1002 bytes and is not saved. *)
Example fallback_numeric_id_not_saved :
  extract_image_urls numeric_id_text = [] /\
  findall match_base64 numeric_id_text = [letters_A 1336] /\
  large_image (letters_A 1336) = Some (repeat 0 1002) /\
  process_response_and_save ascii_only ascii_only loads_numeric_id noon
    always_writes (wrapped numeric_id_text) "sunset" = [].
Proof. repeat split; vm_compute; reflexivity. Qed.

End ImageClaimSamples.

Section ImageClaims.

Import ImageGenerator.

Variable isalnum_other : ascii -> bool.
Variable isspace_other : ascii -> bool.
Variable json_loads : string -> LoadsOutcome.
Variable clock : nat -> string.
Variable write_ok : nat -> string -> list Z -> bool.

Local Abbreviation process_response_and_save :=
  (process_response_and_save isalnum_other isspace_other json_loads clock
     write_ok).
Local Abbreviation files_writable :=
  (files_writable isalnum_other isspace_other clock write_ok).

Lemma collect_ext {A B : Type} (f g : A -> option B) (l : list A) :
  (forall a, In a l -> f a = g a) -> collect f l = collect g l.
Proof.
  induction l as [|a l IH]; intros H; [reflexivity|].
  cbn [collect]. rewrite (H a (or_introl eq_refl)).
  rewrite IH; [reflexivity|]. intros b Hb. apply H. now right.
Qed.

Lemma not_semicolon_prefix (subtype : string) :
  string_forall not_semicolon subtype = true ->
  string_forall not_semicolon ("data:image/" ++ subtype) = true.
Proof. intros H. now rewrite string_forall_append, H. Qed.

(** The subtype of a data URL ends at its first semicolon. *)
Lemma run_length_data_url (subtype payload : string) :
  string_forall not_semicolon subtype = true ->
  run_length not_semicolon (data_url subtype payload) =
    String.length ("data:image/" ++ subtype).
Proof.
  intros H. unfold data_url.
  rewrite <- (append_assoc "data:image/" subtype).
  apply run_length_append; [now apply not_semicolon_prefix | reflexivity].
Qed.

Lemma payload_of_data_url (subtype payload : string) :
  string_forall not_semicolon subtype = true ->
  payload_of (data_url subtype payload) = payload.
Proof.
  intros H. unfold payload_of. rewrite (run_length_data_url _ _ H).
  unfold data_url.
  replace ("data:image/" ++ subtype ++ ";base64," ++ payload)
    with ((("data:image/" ++ subtype) ++ ";base64,") ++ payload)
    by now rewrite !append_assoc.
  replace (String.length ("data:image/" ++ subtype) + 8)%nat
    with (String.length (("data:image/" ++ subtype) ++ ";base64,"))
    by (rewrite (length_append _ ";base64,"); reflexivity).
  apply drop_append.
Qed.

Lemma comma_free_data_url (subtype payload : string) :
  string_forall not_semicolon subtype = true ->
  comma_free (data_url subtype payload) = negb (has_comma subtype).
Proof.
  intros H. unfold comma_free. rewrite (run_length_data_url _ _ H).
  unfold data_url.
  rewrite <- (append_assoc "data:image/" subtype), take_append.
  now rewrite has_comma_append.
Qed.

Lemma subtype_chars (subtype : string) :
  string_forall not_semicolon subtype = true ->
  has_comma subtype = false ->
  string_forall subtype_char subtype = true.
Proof.
  induction subtype as [|c s IH]; [reflexivity|].
  cbn [string_forall has_comma]. intros H1 H2.
  apply andb_true_iff in H1 as [Hc Hs].
  apply orb_false_iff in H2 as [Hc' Hs'].
  unfold subtype_char at 1. now rewrite Hc, Hc', IH.
Qed.

(** What a match of the data-URL pattern is, and what is decoded from
    it. *)
Lemma data_url_match (json_text u : string) :
  In u (extract_image_urls json_text) ->
  exists pre subtype payload post,
    json_text = pre ++ u ++ post /\
    u = data_url subtype payload /\
    subtype <> EmptyString /\
    string_forall not_semicolon subtype = true /\
    payload <> EmptyString /\
    string_forall is_b64_or_pad payload = true /\
    starts_with is_b64_or_pad post = false /\
    payload_of u = payload /\
    (comma_free u = true -> base64_part u = payload).
Proof.
  intros Hin. apply findall_from_in in Hin as (pre & rest & n & -> & Hm & ->).
  apply match_data_url_inv in Hm
    as (subtype & payload & post & -> & -> & Hne & Hsub & Hp & Hpay & Hpost).
  exists pre, subtype, payload, post. rewrite take_append.
  repeat split; try assumption.
  - now apply payload_of_data_url.
  - rewrite (comma_free_data_url _ _ Hsub). intros Hc.
    apply negb_true_iff in Hc.
    apply base64_part_payload; [now apply subtype_chars | exact Hpay].
Qed.

(** C8, amended.  The pattern is [data:image/<subtype>;base64,<payload>].
    Take a response of the shape the script reads, on whose text the
    metadata block completes with an image id that is false or a string
    (or that is not valid JSON), and a file system that takes the files
    named for this prompt and id.
    Every match of the pattern in the text is such a data URL, with a
    non-empty subtype free of [;] and a non-empty payload over
    [[A-Za-z0-9+/=]] that ends where the class ends.  When there is a
    match and no subtype holds a comma, the files saved are, in the order
    of the matches, one for every match whose payload base64-decodes, with
    the decoding of the payload as content.  In particular, when such a
    data URL whose payload decodes to 2000 bytes is embedded in the text
    (no match starting before it, none after it), it is the one match and
    exactly one file is saved, of 2000 bytes. *)
Theorem data_url_extraction (result : JSON) (prompt json_text : string)
    (image_id : JSON) :
  wraps result json_text ->
  metadata_leaves json_loads json_text image_id ->
  id_ok image_id = true ->
  files_writable prompt image_id ->
  (forall u,
     In u (extract_image_urls json_text) ->
     exists pre subtype payload post,
       json_text = pre ++ u ++ post /\
       u = data_url subtype payload /\
       subtype <> EmptyString /\
       string_forall not_semicolon subtype = true /\
       payload <> EmptyString /\
       string_forall is_b64_or_pad payload = true /\
       starts_with is_b64_or_pad post = false /\
       payload_of u = payload) /\
  (extract_image_urls json_text <> [] ->
   Forall (fun u => comma_free u = true) (extract_image_urls json_text) ->
   map snd (process_response_and_save result prompt) =
     collect (fun u => b64decode (payload_of u))
       (extract_image_urls json_text)) /\
  (forall pre subtype payload post image,
     json_text = pre ++ data_url subtype payload ++ post ->
     matches_within match_data_url (String.length pre) json_text = false ->
     subtype <> EmptyString ->
     string_forall subtype_char subtype = true ->
     payload <> EmptyString ->
     string_forall is_b64_or_pad payload = true ->
     starts_with is_b64_or_pad post = false ->
     extract_image_urls post = [] ->
     b64decode payload = Some image ->
     length image = 2000%nat ->
     extract_image_urls json_text = [data_url subtype payload] /\
     exists entry,
       map snd (process_response_and_save result prompt) = [entry] /\
       entry = image /\ length entry = 2000%nat).
Proof.
  intros Hwraps Hmeta Hid Hw.
  pose proof (process_response_blobs isalnum_other isspace_other json_loads
                clock write_ok result prompt json_text image_id Hwraps
                Hmeta Hid Hw) as Hblobs.
  split; [|split].
  - intros u Hin.
    destruct (data_url_match _ _ Hin)
      as (pre & subtype & payload & post & H1 & H2 & H3 & H4 & H5 & H6 & H7
          & H8 & _).
    exists pre, subtype, payload, post. auto 10.
  - intros Hsome Hfree. rewrite Hblobs. unfold found_images. cbv zeta.
    destruct (extract_image_urls json_text) as [|u0 urls] eqn:E;
      [congruence|].
    apply collect_ext. intros u Hin. f_equal.
    rewrite Forall_forall in Hfree.
    rewrite <- E in Hin.
    destruct (data_url_match _ _ Hin)
      as (_ & _ & payload & _ & _ & _ & _ & _ & _ & _ & _ & -> & Hpart).
    apply Hpart, Hfree. now rewrite <- E.
  - intros pre subtype payload post image -> Hpre Hs Hsub Hp Hpay Hpost
      Hnone Hdec Hlen.
    assert (Hsemi : string_forall not_semicolon subtype = true).
    { apply (string_forall_impl subtype_char); [|exact Hsub].
      unfold subtype_char. intros c H. now apply andb_true_iff in H. }
    assert (Hurls : extract_image_urls
                      (pre ++ data_url subtype payload ++ post) =
                    [data_url subtype payload]).
    { unfold extract_image_urls.
      rewrite (findall_no_match_before _ _ _ Hpre).
      rewrite findall_match_here.
      - unfold extract_image_urls in Hnone. now rewrite Hnone.
      - unfold data_url. discriminate.
      - now apply match_data_url_here. }
    split; [exact Hurls|].
    exists image. split; [|now split].
    rewrite Hblobs. unfold found_images. cbv zeta. rewrite Hurls.
    cbn [collect]. rewrite base64_part_payload by assumption.
    now rewrite Hdec.
Qed.

(** C9, amended.  Take a response of the shape the script reads, on whose
    text the metadata block completes with an image id that is false or a
    string (or that is not valid JSON), a file system that takes the
    files named for this prompt and id, and no data-URL match in the
    text.  The candidates are the
    first three matches of [[A-Za-z0-9+/]{100,}={0,2}], and the files
    saved hold, in the order of the candidates, the decodings of those
    that decode to more than 1000 bytes: a candidate that fails to decode
    or decodes to 1000 bytes or fewer is left out, as is every candidate
    shorter than 1335 characters.  A standalone string (at least 100
    characters of the alphabet, then its padding, not followed by a
    character the pattern would take, with no match starting before it) is
    the first candidate. *)
Theorem fallback_base64_capture (result : JSON) (prompt json_text : string)
    (image_id : JSON) :
  wraps result json_text ->
  metadata_leaves json_loads json_text image_id ->
  id_ok image_id = true ->
  files_writable prompt image_id ->
  extract_image_urls json_text = [] ->
  let candidates := firstn 3 (findall match_base64 json_text) in
  let saved := map snd (process_response_and_save result prompt) in
  saved = collect large_image candidates /\
  (forall image,
     In image saved <->
     exists s, In s candidates /\ b64decode s = Some image /\
               (1000 < length image)%nat) /\
  (forall s image,
     b64decode s = Some image -> (1000 < length image)%nat ->
     (1335 <= String.length s)%nat) /\
  (forall pre body pad post,
     json_text = pre ++ (body ++ pad) ++ post ->
     matches_within match_base64 (String.length pre) json_text = false ->
     string_forall is_b64_char body = true ->
     (100 <= String.length body)%nat ->
     is_padding pad ->
     starts_with is_b64_char post = false ->
     pad = "==" \/ starts_with is_pad post = false ->
     findall match_base64 json_text =
       (body ++ pad) :: findall match_base64 post /\
     saved =
       (match large_image (body ++ pad) with
        | Some image => [image]
        | None => []
        end ++
        collect large_image (firstn 2 (findall match_base64 post)))%list).
Proof.
  intros Hwraps Hmeta Hid Hw Hnone candidates saved.
  assert (Hsaved : saved = collect large_image candidates).
  { unfold saved.
    rewrite (process_response_blobs isalnum_other isspace_other json_loads
               clock write_ok result prompt json_text image_id Hwraps Hmeta
               Hid Hw).
    unfold found_images. cbv zeta. now rewrite Hnone. }
  split; [exact Hsaved|]. split; [|split].
  - intros image. rewrite Hsaved, in_collect.
    split; intros (s & Hs & H); exists s.
    + apply large_image_some in H. tauto.
    + split; [tauto|]. apply large_image_some. tauto.
  - intros s image Hd Hl. apply b64decode_length in Hd. lia.
  - intros pre body pad post -> Hpre Hbody Hlen Hpad Hpost Hend.
    assert (Hall : findall match_base64 (pre ++ (body ++ pad) ++ post) =
                   (body ++ pad) :: findall match_base64 post).
    { rewrite (findall_no_match_before _ _ _ Hpre).
      apply findall_match_here.
      - destruct body; [simpl in Hlen; lia | discriminate].
      - now apply match_base64_here. }
    split; [exact Hall|].
    rewrite Hsaved. unfold candidates. rewrite Hall.
    cbn [firstn collect].
    now destruct (large_image (body ++ pad)).
Qed.

End ImageClaims.

Section ImageClaimRuns.

Import ImageGenerator Samples ImageSamples.

Lemma data_url_extraction_witness :
  let text :=
    before_value ++ data_url "png" (letters_A 2667 ++ "=") ++ after_value in
  extract_image_urls text = [data_url "png" (letters_A 2667 ++ "=")] /\
  exists entry,
    map snd (process_response_and_save ascii_only ascii_only loads_invalid
               noon always_writes (wrapped text) "sunset") = [entry] /\
    entry = repeat 0 2000 /\ length entry = 2000%nat.
Proof.
  intros text.
  destruct (data_url_extraction ascii_only ascii_only loads_invalid noon
              always_writes (wrapped text) "sunset" text JNull)
    as (_ & _ & H).
  - apply wrapped_wraps.
  - left. split; reflexivity.
  - reflexivity.
  - intros i suffix filename image_data _. reflexivity.
  - apply (H before_value "png" (letters_A 2667 ++ "=") after_value
             (repeat 0 2000)).
    + reflexivity.
    + vm_compute. reflexivity.
    + discriminate.
    + reflexivity.
    + discriminate.
    + vm_compute. reflexivity.
    + reflexivity.
    + vm_compute. reflexivity.
    + vm_compute. reflexivity.
    + apply repeat_length.
Defined.

Lemma fallback_base64_capture_witness :
  let text :=
    before_value ++ (letters_A 1336 ++ EmptyString) ++ after_value in
  map snd (process_response_and_save ascii_only ascii_only loads_invalid
             noon always_writes (wrapped text) "sunset") = [repeat 0 1002].
Proof.
  intros text.
  destruct (fallback_base64_capture ascii_only ascii_only loads_invalid noon
              always_writes (wrapped text) "sunset" text JNull)
    as (_ & _ & _ & H).
  - apply wrapped_wraps.
  - left. split; reflexivity.
  - reflexivity.
  - intros i suffix filename image_data _. reflexivity.
  - vm_compute. reflexivity.
  - destruct (H before_value (letters_A 1336) EmptyString after_value)
      as [_ E].
    + reflexivity.
    + vm_compute. reflexivity.
    + vm_compute. reflexivity.
    + vm_compute. lia.
    + left. reflexivity.
    + reflexivity.
    + right. reflexivity.
    + rewrite E. vm_compute. reflexivity.
Defined.

End ImageClaimRuns.
